(** * Kanbex: a shallow embedding of the tRPC routers

    The development follows the TypeScript sources: the four Prisma models
    (User, Board, Stage, Task), the request context built from the bearer
    token, and the procedures of the auth, user, board, stage and task
    routers.  Every [async] resolver becomes a function in a small
    state-and-exception monad over the database; a [throw] is a [Throw]
    completion, a [try { ... } catch] is [try_catch].

    The input records are the shapes the resolvers receive: zod has parsed
    the request before the resolver runs, and its checks (formats, lengths,
    ranges) are not modelled.  A field declared [.optional()] or
    [.nullable()] is an [option]. *)

From Stdlib Require Import List String Ascii Bool ZArith NArith.
Import ListNotations.
Local Open Scope string_scope.

(** ** Rows of the four tables

    The Prisma schema is not part of the sources.  The columns below are the
    ones the routers read and write.  A relation is stored as the
    [externalID] of the row it points to: every [connect] and every relation
    filter in the routers goes through that column.  The [createdAt] and
    [updatedAt] columns are maintained by the database and are left out. *)

Module User.
Record t := mk
  { externalID : string;
    username : string;
    name : string;
    email : string;
    password : string;
    deleted : bool }.
End User.

Module Board.
Record t := mk
  { externalID : string;
    title : string;
    description : string;
    createdBy : string;
    deleted : bool }.
End Board.

Module Stage.
Record t := mk
  { externalID : string;
    title : string;
    description : string;
    createdBy : string;
    board : string;
    deleted : bool }.
End Stage.

Module Task.
Record t := mk
  { externalID : string;
    title : string;
    description : option string;
    dueDate : Z;
    priority : Z;
    createdBy : string;
    stage : string;
    deleted : bool }.
End Task.

(** The database behind [ctx.prisma]: one list of rows per model, in
    insertion order. *)
Module PrismaClient.
Record t := mk
  { user : list User.t;
    board : list Board.t;
    stage : list Stage.t;
    task : list Task.t }.
End PrismaClient.

Definition with_user (us : list User.t) (db : PrismaClient.t) : PrismaClient.t :=
  PrismaClient.mk us (PrismaClient.board db) (PrismaClient.stage db) (PrismaClient.task db).
Definition with_board (bs : list Board.t) (db : PrismaClient.t) : PrismaClient.t :=
  PrismaClient.mk (PrismaClient.user db) bs (PrismaClient.stage db) (PrismaClient.task db).
Definition with_stage (ss : list Stage.t) (db : PrismaClient.t) : PrismaClient.t :=
  PrismaClient.mk (PrismaClient.user db) (PrismaClient.board db) ss (PrismaClient.task db).
Definition with_task (ts : list Task.t) (db : PrismaClient.t) : PrismaClient.t :=
  PrismaClient.mk (PrismaClient.user db) (PrismaClient.board db) (PrismaClient.stage db) ts.

(** ** Exceptions and the resolver monad *)

Inductive TRPC_ERROR_CODE :=
| BAD_REQUEST
| UNAUTHORIZED
| NOT_FOUND
| INTERNAL_SERVER_ERROR.

(** What a resolver can throw: a [TRPCError], one of Prisma's errors, a
    [TypeError] from reading a property of [null], or a token error of
    [jsonwebtoken]. *)
Inductive Exn :=
| TRPCError (code : TRPC_ERROR_CODE)
| NotFoundError
| RecordNotFound
| UniqueConstraintFailed
| PrismaClientValidationError
| InconsistentQueryResult
| TypeError
| JsonWebTokenError.

Inductive Completion (A : Type) :=
| Return (a : A)
| Throw (e : Exn).
Arguments Return {A} a.
Arguments Throw {A} e.

Definition Async (A : Type) : Type := PrismaClient.t -> Completion A * PrismaClient.t.

Definition ret {A} (a : A) : Async A := fun db => (Return a, db).
Definition throw {A} (e : Exn) : Async A := fun db => (Throw e, db).
Definition bind {A B} (m : Async A) (k : A -> Async B) : Async B :=
  fun db =>
    match m db with
    | (Return a, db') => k a db'
    | (Throw e, db') => (Throw e, db')
    end.
Definition try_catch {A} (body : Async A) (handler : Exn -> Async A) : Async A :=
  fun db =>
    match body db with
    | (Return a, db') => (Return a, db')
    | (Throw e, db') => handler e db'
    end.
Definition read {A} (f : PrismaClient.t -> A) : Async A := fun db => (Return (f db), db).
Definition write (f : PrismaClient.t -> PrismaClient.t) : Async unit :=
  fun db => (Return tt, f db).
Definition orThrow {A} (e : Exn) (o : option A) : Async A :=
  match o with
  | Some a => ret a
  | None => throw e
  end.

Declare Scope async_scope.
Delimit Scope async_scope with async.
Notation "x <- m ;; k" := (bind m (fun x => k))
  (at level 100, m at next level, right associativity) : async_scope.
Notation "m ;;; k" := (bind m (fun _ => k))
  (at level 100, right associativity) : async_scope.
Local Open Scope async_scope.

Fixpoint mapM {A B} (f : A -> Async B) (l : list A) : Async (list B) :=
  match l with
  | [] => ret []
  | a :: l' => b <- f a ;; bs <- mapM f l' ;; ret (b :: bs)
  end.

(** Every router wraps its resolver in
    [try { ... } catch (error) { throw new TRPCError({ code: "INTERNAL_SERVER_ERROR" }) }]. *)
Definition try_500 {A} (body : Async A) : Async A :=
  try_catch body (fun _ => throw (TRPCError INTERNAL_SERVER_ERROR)).

(** ** Prisma queries over one table *)

Module Prisma.
Section Table.
Variable Row : Type.
Variable externalID : Row -> string.

Definition findFirst (where_ : Row -> bool) (rows : list Row) : option Row :=
  find where_ rows.

Definition findUnique (id : string) (rows : list Row) : option Row :=
  find (fun r => externalID r =? id) rows.

(** [findMany({ where, take, skip })].  A negative [skip] is rejected by the
    client; a negative [take] pages from the end of the result. *)
Definition findMany (where_ : Row -> bool) (take skip : Z) (rows : list Row)
  : option (list Row) :=
  if (skip <? 0)%Z then None
  else if (0 <=? take)%Z then
    Some (firstn (Z.to_nat take) (skipn (Z.to_nat skip) (filter where_ rows)))
  else
    Some (rev (firstn (Z.to_nat (- take))
                 (skipn (Z.to_nat skip) (rev (filter where_ rows))))).

(** [update({ where: { externalID }, data })]: the row with that unique
    identifier is replaced; [None] when there is none. *)
Fixpoint update (id : string) (data : Row -> Row) (rows : list Row)
  : option (Row * list Row) :=
  match rows with
  | [] => None
  | r :: rest =>
      if externalID r =? id then Some (data r, data r :: rest)
      else match update id data rest with
           | Some (r', rest') => Some (r', r :: rest')
           | None => None
           end
  end.

(** [create({ data })]: the unique index on [externalID] rejects a row whose
    identifier is already taken. *)
Definition create (r : Row) (rows : list Row) : option (list Row) :=
  if existsb (fun r' => externalID r' =? externalID r) rows then None
  else Some (rows ++ [r])%list.

(** No two rows share an [externalID]. *)
Fixpoint unique (rows : list Row) : bool :=
  match rows with
  | [] => true
  | r :: rest =>
      negb (existsb (fun r' => externalID r' =? externalID r) rest) && unique rest
  end.

End Table.
Arguments findFirst {Row}.
Arguments findUnique {Row}.
Arguments findMany {Row}.
Arguments update {Row}.
Arguments create {Row}.
Arguments unique {Row}.
End Prisma.

(** ** The request context *)

Record Context := { user : option User.t }.

(** [ctx.user.externalID] and friends: reading through a [null] user is a
    [TypeError]. *)
Definition ctx_user (ctx : Context) : Async User.t := orThrow TypeError (user ctx).

(** Modelled from the spec: [protectedProcedure] is imported by every router
    from [../trpc], where the sources only keep it commented out.  Following
    the spec (and that comment), the middleware rejects a context without a
    user with [UNAUTHORIZED] before the resolver runs. *)
Definition protectedProcedure {I O} (resolver : Context -> I -> Async O)
  : Context -> I -> Async O :=
  fun ctx input =>
    match user ctx with
    | None => throw (TRPCError UNAUTHORIZED)
    | Some _ => resolver ctx input
    end.

Definition publicProcedure {I O} (resolver : Context -> I -> Async O)
  : Context -> I -> Async O := resolver.

(** JavaScript truthiness of the values the routers test with [||] and [if]. *)
Definition truthy_string (s : option string) : bool :=
  match s with
  | Some s' => negb (s' =? "")
  | None => false
  end.
Definition truthy_number (n : option Z) : bool :=
  match n with
  | Some n' => negb (n' =? 0)%Z
  | None => false
  end.

Record Page := { limit : Z; offset : Z }.

(** [a || b] on a string that may be [undefined] or [null], and Prisma's
    treatment of an [undefined] field in [data] (the column is kept). *)
Definition or_string (a : option string) (b : string) : string :=
  match a with
  | Some s => if truthy_string a then s else b
  | None => b
  end.
Definition keep_undefined {A} (a : option A) (old : A) : A :=
  match a with
  | Some v => v
  | None => old
  end.

(** ** Relations loaded by [include] *)

Definition include_createdBy (id : string) : Async User.t :=
  us <- read PrismaClient.user ;;
  orThrow InconsistentQueryResult (Prisma.findUnique User.externalID id us).
Definition include_board (id : string) : Async Board.t :=
  bs <- read PrismaClient.board ;;
  orThrow InconsistentQueryResult (Prisma.findUnique Board.externalID id bs).
Definition include_stage (id : string) : Async Stage.t :=
  ss <- read PrismaClient.stage ;;
  orThrow InconsistentQueryResult (Prisma.findUnique Stage.externalID id ss).
(** [include: { Stage: true }] on a board and [include: { Task: true }] on a
    stage load every child row; the routers pass no [where] for them. *)
Definition include_Stage (boardID : string) : Async (list Stage.t) :=
  ss <- read PrismaClient.stage ;;
  ret (filter (fun s => Stage.board s =? boardID) ss).
Definition include_Task (stageID : string) : Async (list Task.t) :=
  ts <- read PrismaClient.task ;;
  ret (filter (fun t => Task.stage t =? stageID) ts).

(** [connect: { externalID }] needs the row it names. *)
Definition connect {Row} (externalID : Row -> string) (id : string) (rows : list Row)
  : Async unit :=
  _ <- orThrow RecordNotFound (Prisma.findUnique externalID id rows) ;; ret tt.

(** ** Board router (src/router/board.ts) *)

Module BoardCreate.
Record t := mk { title : string; description : option string }.
End BoardCreate.

Module BoardUpdate.
Record t := mk
  { externalID : string; title : option string; description : option string }.
End BoardUpdate.

Module BoardResult.
Record t := mk { board : Board.t; createdBy : User.t }.
End BoardResult.

Module BoardDetail.
Record t := mk { board : Board.t; createdBy : User.t; stage : list Stage.t }.
End BoardDetail.

Definition board_include (b : Board.t) : Async BoardResult.t :=
  c <- include_createdBy (Board.createdBy b) ;;
  ret (BoardResult.mk b c).

Module boardRouter.

(** The filter [deleted: false, createdBy: { externalID: ctx.user.externalID }]. *)
Definition owned (u : User.t) (b : Board.t) : bool :=
  negb (Board.deleted b) && (Board.createdBy b =? User.externalID u).

Definition list : Context -> Page -> Async (list BoardResult.t) :=
  protectedProcedure (fun ctx input =>
    try_500 (
      u <- ctx_user ctx ;;
      bs <- read PrismaClient.board ;;
      rows <- orThrow PrismaClientValidationError
                (Prisma.findMany (owned u) (limit input) (offset input) bs) ;;
      mapM board_include rows)).

Definition get : Context -> string -> Async BoardDetail.t :=
  protectedProcedure (fun ctx externalID =>
    try_500 (
      u <- ctx_user ctx ;;
      bs <- read PrismaClient.board ;;
      match Prisma.findFirst
              (fun b => (Board.externalID b =? externalID) && owned u b) bs with
      | None => throw (TRPCError NOT_FOUND)
      | Some b =>
          c <- include_createdBy (Board.createdBy b) ;;
          ss <- include_Stage (Board.externalID b) ;;
          ret (BoardDetail.mk b c ss)
      end)).

(** [uuid] is the identifier the database draws for the new row. *)
Definition create (uuid : string) : Context -> BoardCreate.t -> Async BoardResult.t :=
  protectedProcedure (fun ctx input =>
    try_500 (
      u <- ctx_user ctx ;;
      bs <- read PrismaClient.board ;;
      _ <- orThrow NotFoundError
             (Prisma.findFirst
                (fun b => (Board.title b =? BoardCreate.title input) && owned u b) bs) ;;
      us <- read PrismaClient.user ;;
      connect User.externalID (User.externalID u) us ;;;
      let b := Board.mk uuid (BoardCreate.title input)
                 (or_string (BoardCreate.description input) "")
                 (User.externalID u) false in
      bs' <- orThrow UniqueConstraintFailed (Prisma.create Board.externalID b bs) ;;
      write (with_board bs') ;;;
      board_include b)).

Definition update : Context -> BoardUpdate.t -> Async BoardResult.t :=
  protectedProcedure (fun ctx input =>
    try_500 (
      u <- ctx_user ctx ;;
      bs <- read PrismaClient.board ;;
      _ <- orThrow NotFoundError
             (Prisma.findFirst
                (fun b => (Board.externalID b =? BoardUpdate.externalID input)
                          && owned u b) bs) ;;
      let data b :=
        Board.mk (Board.externalID b)
          (keep_undefined (BoardUpdate.title input) (Board.title b))
          (keep_undefined (BoardUpdate.description input) (Board.description b))
          (Board.createdBy b) (Board.deleted b) in
      r <- orThrow RecordNotFound
             (Prisma.update Board.externalID (BoardUpdate.externalID input) data bs) ;;
      write (with_board (snd r)) ;;;
      board_include (fst r))).

Definition delete : Context -> string -> Async unit :=
  protectedProcedure (fun ctx externalID =>
    try_500 (
      u <- ctx_user ctx ;;
      bs <- read PrismaClient.board ;;
      _ <- orThrow NotFoundError
             (Prisma.findFirst
                (fun b => (Board.externalID b =? externalID) && owned u b) bs) ;;
      let data b :=
        Board.mk (Board.externalID b) (Board.title b) (Board.description b)
          (Board.createdBy b) true in
      r <- orThrow RecordNotFound (Prisma.update Board.externalID externalID data bs) ;;
      write (with_board (snd r)) ;;;
      ret tt)).

End boardRouter.

(** ** Stage router (src/router/stage.ts) *)

Module StageCreate.
Record t := mk { title : string; description : string; boardExternalID : string }.
End StageCreate.

Module StageUpdate.
Record t := mk { externalID : string; title : string; description : string }.
End StageUpdate.

Module StageResult.
Record t := mk { stage : Stage.t; createdBy : User.t; board : Board.t }.
End StageResult.

Module StageDetail.
Record t := mk
  { stage : Stage.t; createdBy : User.t; board : Board.t; task : list Task.t }.
End StageDetail.

Definition stage_include (s : Stage.t) : Async StageResult.t :=
  c <- include_createdBy (Stage.createdBy s) ;;
  b <- include_board (Stage.board s) ;;
  ret (StageResult.mk s c b).

Module stageRouter.

Definition owned (u : User.t) (s : Stage.t) : bool :=
  negb (Stage.deleted s) && (Stage.createdBy s =? User.externalID u).

Definition list : Context -> Page -> Async (list StageResult.t) :=
  protectedProcedure (fun ctx input =>
    try_500 (
      u <- ctx_user ctx ;;
      ss <- read PrismaClient.stage ;;
      rows <- orThrow PrismaClientValidationError
                (Prisma.findMany (owned u) (limit input) (offset input) ss) ;;
      mapM stage_include rows)).

Definition get : Context -> string -> Async StageDetail.t :=
  protectedProcedure (fun ctx externalID =>
    try_500 (
      u <- ctx_user ctx ;;
      ss <- read PrismaClient.stage ;;
      s <- orThrow NotFoundError
             (Prisma.findFirst
                (fun s => (Stage.externalID s =? externalID) && owned u s) ss) ;;
      c <- include_createdBy (Stage.createdBy s) ;;
      b <- include_board (Stage.board s) ;;
      ts <- include_Task (Stage.externalID s) ;;
      ret (StageDetail.mk s c b ts))).

(** The guard queries the board table by [title: input.title]; the new row
    is connected to [input.boardExternalID]. *)
Definition create (uuid : string) : Context -> StageCreate.t -> Async StageResult.t :=
  protectedProcedure (fun ctx input =>
    try_500 (
      u <- ctx_user ctx ;;
      bs <- read PrismaClient.board ;;
      _ <- orThrow NotFoundError
             (Prisma.findFirst
                (fun b => (Board.title b =? StageCreate.title input)
                          && boardRouter.owned u b) bs) ;;
      us <- read PrismaClient.user ;;
      connect User.externalID (User.externalID u) us ;;;
      connect Board.externalID (StageCreate.boardExternalID input) bs ;;;
      let s := Stage.mk uuid (StageCreate.title input) (StageCreate.description input)
                 (User.externalID u) (StageCreate.boardExternalID input) false in
      ss <- read PrismaClient.stage ;;
      ss' <- orThrow UniqueConstraintFailed (Prisma.create Stage.externalID s ss) ;;
      write (with_stage ss') ;;;
      stage_include s)).

Definition update : Context -> StageUpdate.t -> Async StageResult.t :=
  protectedProcedure (fun ctx input =>
    try_500 (
      u <- ctx_user ctx ;;
      ss <- read PrismaClient.stage ;;
      _ <- orThrow NotFoundError
             (Prisma.findFirst
                (fun s => (Stage.externalID s =? StageUpdate.externalID input)
                          && owned u s) ss) ;;
      let data s :=
        Stage.mk (Stage.externalID s) (StageUpdate.title input)
          (StageUpdate.description input) (Stage.createdBy s) (Stage.board s)
          (Stage.deleted s) in
      r <- orThrow RecordNotFound
             (Prisma.update Stage.externalID (StageUpdate.externalID input) data ss) ;;
      write (with_stage (snd r)) ;;;
      stage_include (fst r))).

Definition delete : Context -> string -> Async unit :=
  protectedProcedure (fun ctx externalID =>
    try_500 (
      u <- ctx_user ctx ;;
      ss <- read PrismaClient.stage ;;
      _ <- orThrow NotFoundError
             (Prisma.findFirst
                (fun s => (Stage.externalID s =? externalID) && owned u s) ss) ;;
      let data s :=
        Stage.mk (Stage.externalID s) (Stage.title s) (Stage.description s)
          (Stage.createdBy s) (Stage.board s) true in
      r <- orThrow RecordNotFound (Prisma.update Stage.externalID externalID data ss) ;;
      write (with_stage (snd r)) ;;;
      ret tt)).

End stageRouter.

(** ** Task router (src/router/task.ts) *)

Module TaskCreate.
Record t := mk
  { title : string;
    description : option string;
    dueDate : option Z;
    priority : Z;
    stageExternalID : string }.
End TaskCreate.

Module TaskUpdate.
Record t := mk
  { externalID : string;
    title : option string;
    description : option string;
    dueDate : option Z;
    priority : option Z;
    stageExternalID : option string }.
End TaskUpdate.

Module TaskResult.
Record t := mk { task : Task.t; createdBy : User.t; stage : Stage.t }.
End TaskResult.

Module TaskDetail.
Record t := mk { task : Task.t; createdBy : User.t; stage : Stage.t; board : Board.t }.
End TaskDetail.

Definition task_include (t : Task.t) : Async TaskResult.t :=
  c <- include_createdBy (Task.createdBy t) ;;
  s <- include_stage (Task.stage t) ;;
  ret (TaskResult.mk t c s).

(** [include: { createdBy: true, stage: { include: { board: true } } }]. *)
Definition task_include_board (t : Task.t) : Async TaskDetail.t :=
  c <- include_createdBy (Task.createdBy t) ;;
  s <- include_stage (Task.stage t) ;;
  b <- include_board (Stage.board s) ;;
  ret (TaskDetail.mk t c s b).

Module taskRouter.

Definition owned (u : User.t) (t : Task.t) : bool :=
  negb (Task.deleted t) && (Task.createdBy t =? User.externalID u).

Definition list : Context -> Page -> Async (list TaskResult.t) :=
  protectedProcedure (fun ctx input =>
    try_500 (
      u <- ctx_user ctx ;;
      ts <- read PrismaClient.task ;;
      rows <- orThrow PrismaClientValidationError
                (Prisma.findMany (owned u) (limit input) (offset input) ts) ;;
      mapM task_include rows)).

Definition get : Context -> string -> Async TaskDetail.t :=
  protectedProcedure (fun ctx externalID =>
    try_500 (
      u <- ctx_user ctx ;;
      ts <- read PrismaClient.task ;;
      t <- orThrow NotFoundError
             (Prisma.findFirst
                (fun t => (Task.externalID t =? externalID) && owned u t) ts) ;;
      task_include_board t)).

(** [now] is the value of [new Date()]; the guard queries the stage table by
    [title: input.title]; the new row is connected to [input.stageExternalID]. *)
Definition create (uuid : string) (now : Z)
  : Context -> TaskCreate.t -> Async TaskDetail.t :=
  protectedProcedure (fun ctx input =>
    try_500 (
      u <- ctx_user ctx ;;
      ss <- read PrismaClient.stage ;;
      _ <- orThrow NotFoundError
             (Prisma.findFirst
                (fun s => (Stage.title s =? TaskCreate.title input)
                          && stageRouter.owned u s) ss) ;;
      us <- read PrismaClient.user ;;
      connect User.externalID (User.externalID u) us ;;;
      connect Stage.externalID (TaskCreate.stageExternalID input) ss ;;;
      let t := Task.mk uuid (TaskCreate.title input) (TaskCreate.description input)
                 (match TaskCreate.dueDate input with Some d => d | None => now end)
                 (TaskCreate.priority input)
                 (User.externalID u) (TaskCreate.stageExternalID input) false in
      ts <- read PrismaClient.task ;;
      ts' <- orThrow UniqueConstraintFailed (Prisma.create Task.externalID t ts) ;;
      write (with_task ts') ;;;
      task_include_board t)).

(** The [data] of [task.update]: every column is [input.x || task.x]. *)
Definition update_data (input : TaskUpdate.t) (task : TaskDetail.t) (t : Task.t) : Task.t :=
  let old := TaskDetail.task task in
  Task.mk (Task.externalID t)
    (or_string (TaskUpdate.title input) (Task.title old))
    (if truthy_string (TaskUpdate.description input)
     then TaskUpdate.description input else Task.description old)
    (match TaskUpdate.dueDate input with Some d => d | None => Task.dueDate old end)
    (match TaskUpdate.priority input with
     | Some p => if truthy_number (TaskUpdate.priority input) then p else Task.priority old
     | None => Task.priority old
     end)
    (Task.createdBy t)
    (or_string (TaskUpdate.stageExternalID input)
       (Stage.externalID (TaskDetail.stage task)))
    (Task.deleted t).

Definition update : Context -> TaskUpdate.t -> Async TaskDetail.t :=
  protectedProcedure (fun ctx input =>
    try_500 (
      u <- ctx_user ctx ;;
      ts <- read PrismaClient.task ;;
      t <- orThrow NotFoundError
             (Prisma.findFirst
                (fun t => (Task.externalID t =? TaskUpdate.externalID input)
                          && owned u t) ts) ;;
      task <- task_include_board t ;;
      ss <- read PrismaClient.stage ;;
      connect Stage.externalID
        (or_string (TaskUpdate.stageExternalID input)
           (Stage.externalID (TaskDetail.stage task))) ss ;;;
      r <- orThrow RecordNotFound
             (Prisma.update Task.externalID (TaskUpdate.externalID input)
                (update_data input task) ts) ;;
      write (with_task (snd r)) ;;;
      ret task)).

Definition delete : Context -> string -> Async unit :=
  protectedProcedure (fun ctx externalID =>
    try_500 (
      u <- ctx_user ctx ;;
      ts <- read PrismaClient.task ;;
      _ <- orThrow NotFoundError
             (Prisma.findFirst
                (fun t => (Task.externalID t =? externalID) && owned u t) ts) ;;
      let data t :=
        Task.mk (Task.externalID t) (Task.title t) (Task.description t)
          (Task.dueDate t) (Task.priority t) (Task.createdBy t) (Task.stage t) true in
      r <- orThrow RecordNotFound (Prisma.update Task.externalID externalID data ts) ;;
      write (with_task (snd r)) ;;;
      ret tt)).

End taskRouter.

(** ** The libraries behind the Credential Manager

    [bcrypt] and [jsonwebtoken] are external; the routers are written
    against their interfaces.  [bcrypt_hash] takes the salt the library
    draws, [jwt_sign] and [jwt_verify] the reading of the clock (in seconds)
    at the call. *)

Inductive JwtPayload :=
| JwtString (s : string)
| JwtObject (externalID : option string).

Class Bcrypt := {
  bcrypt_hash : string -> N -> string -> string;
  bcrypt_compare : string -> string -> bool }.

Class Jsonwebtoken := {
  jwt_sign : JwtPayload -> string -> N -> N -> string;
  jwt_verify : string -> string -> N -> option JwtPayload }.

(** A token signed with a key and a lifetime verifies under the same key
    until the lifetime has passed. *)
Definition jwt_round_trip `{Jsonwebtoken} : Prop :=
  forall payload secret expiresIn iat clock,
    (iat <= clock < iat + expiresIn)%N ->
    jwt_verify (jwt_sign payload secret expiresIn iat) secret clock = Some payload.

(** A password passes the comparison with its own hash. *)
Definition bcrypt_accepts_own_hash `{Bcrypt} : Prop :=
  forall password rounds salt,
    bcrypt_compare password (bcrypt_hash password rounds salt) = true.

(** A signed token is never the empty string. *)
Definition jwt_nonempty `{Jsonwebtoken} : Prop :=
  forall payload secret expiresIn iat, jwt_sign payload secret expiresIn iat <> "".

Record Env := { DATABASE_URL : string; JWT_SECRET : string }.

(** [expiresIn: "1d"], in seconds. *)
Definition one_day : N := 86400.

(** ** Context builder *)

(** [s.split(sep)] for a one-character separator. *)
Fixpoint split (sep : ascii) (s : string) : list string :=
  match s with
  | EmptyString => [EmptyString]
  | String c rest =>
      if Ascii.eqb c sep then EmptyString :: split sep rest
      else match split sep rest with
           | piece :: pieces => String c piece :: pieces
           | [] => [String c EmptyString]
           end
  end.

Record Headers := { authorization : option string }.

(** [req.headers.authorization?.split(' ')[1]] *)
Definition bearer (headers : Headers) : option string :=
  match authorization headers with
  | Some value => nth_error (split " "%char value) 1
  | None => None
  end.

Section ContextBuilder.
Context {jwt : Jsonwebtoken}.
Variable env : Env.

(** The builder of src/unnamed/part_003: the verified payload is an object
    and its [externalID] selects the user. *)
Definition createContext (clock : N) (headers : Headers) : Async Context :=
  match bearer headers with
  | None => ret {| user := None |}
  | Some token =>
      if token =? "" then ret {| user := None |}
      else
        jsonObj <- orThrow JsonWebTokenError (jwt_verify token (JWT_SECRET env) clock) ;;
        us <- read PrismaClient.user ;;
        match jsonObj with
        | JwtObject (Some externalID) =>
            ret {| user := Prisma.findUnique User.externalID externalID us |}
        | _ => throw PrismaClientValidationError
        end
  end.

End ContextBuilder.

Module context_ts.
Section ContextBuilder.
Context {jwt : Jsonwebtoken}.
Variable env : Env.

(** The builder of src/context.ts: the verified payload itself is used as
    the [externalID] of the query, which Prisma accepts only for a string. *)
Definition createContext (clock : N) (headers : Headers) : Async Context :=
  match bearer headers with
  | None => ret {| user := None |}
  | Some token =>
      if token =? "" then ret {| user := None |}
      else
        userExternalID <- orThrow JsonWebTokenError
                            (jwt_verify token (JWT_SECRET env) clock) ;;
        us <- read PrismaClient.user ;;
        match userExternalID with
        | JwtString externalID =>
            ret {| user := Prisma.findUnique User.externalID externalID us |}
        | JwtObject _ => throw PrismaClientValidationError
        end
  end.

End ContextBuilder.
End context_ts.

(** ** Auth router (src/router/auth.ts) *)

Module Register.
Record t := mk { username : string; name : string; email : string; password : string }.
End Register.

Module Login.
Record t := mk { username : string; password : string }.
End Login.

Module Profile.
Record t := mk { externalID : string; username : string; name : string; email : string }.
End Profile.

Definition profile (u : User.t) : Profile.t :=
  Profile.mk (User.externalID u) (User.username u) (User.name u) (User.email u).

(** [prisma.user.findUnique({ where: { username } })] *)
Definition findUnique_username (username : string) (us : list User.t) : option User.t :=
  find (fun u => User.username u =? username) us.

(** [prisma.user.create]: both [externalID] and [username] are unique. *)
Definition user_create (u : User.t) (us : list User.t) : option (list User.t) :=
  if existsb (fun u' => User.username u' =? User.username u) us then None
  else Prisma.create User.externalID u us.

Section Auth.
Context {bcrypt : Bcrypt} {jwt : Jsonwebtoken}.
Variable env : Env.

Definition register_resolver (uuid salt : string) (ctx : Context) (input : Register.t)
  : Async Profile.t :=
  us <- read PrismaClient.user ;;
  match findUnique_username (Register.username input) us with
  | Some _ => throw (TRPCError BAD_REQUEST)
  | None =>
      let hashedPassword := bcrypt_hash (Register.password input) 10 salt in
      let u := User.mk uuid (Register.username input) (Register.name input)
                 (Register.email input) hashedPassword false in
      us' <- orThrow UniqueConstraintFailed (user_create u us) ;;
      write (with_user us') ;;;
      ret (profile u)
  end.

Definition login_resolver (clock : N) (ctx : Context) (input : Login.t) : Async string :=
  us <- read PrismaClient.user ;;
  match findUnique_username (Login.username input) us with
  | None => throw (TRPCError BAD_REQUEST)
  | Some u =>
      if negb (bcrypt_compare (Login.password input) (User.password u))
      then throw (TRPCError BAD_REQUEST)
      else ret (jwt_sign (JwtObject (Some (User.externalID u))) (JWT_SECRET env)
                  one_day clock)
  end.

End Auth.

(** The router as it imports ["../env"]: both resolvers run inside
    [try { ... } catch]. *)
Module authRouter.
Section Auth.
Context {bcrypt : Bcrypt} {jwt : Jsonwebtoken}.
Variable env : Env.

Definition register (uuid salt : string) : Context -> Register.t -> Async Profile.t :=
  publicProcedure (fun ctx input => try_500 (register_resolver uuid salt ctx input)).

Definition login (clock : N) : Context -> Login.t -> Async string :=
  publicProcedure (fun ctx input => try_500 (login_resolver env clock ctx input)).

End Auth.
End authRouter.

(** The router as it imports ["../env.mjs"]: the same resolvers without the
    [try]. *)
Module authRouter_mjs.
Section Auth.
Context {bcrypt : Bcrypt} {jwt : Jsonwebtoken}.
Variable env : Env.

Definition register (uuid salt : string) : Context -> Register.t -> Async Profile.t :=
  publicProcedure (register_resolver uuid salt).

Definition login (clock : N) : Context -> Login.t -> Async string :=
  publicProcedure (login_resolver env clock).

End Auth.
End authRouter_mjs.

(** ** User router (src/router/user.ts) *)

Module UserUpdate.
Record t := mk
  { externalID : string;
    name : option string;
    email : option string;
    password : option string }.
End UserUpdate.

Module userRouter.
Section User.
Context {bcrypt : Bcrypt}.

Definition me : Context -> unit -> Async Profile.t :=
  protectedProcedure (fun ctx _ => u <- ctx_user ctx ;; ret (profile u)).

Definition updateUser (salt : string) : Context -> UserUpdate.t -> Async Profile.t :=
  protectedProcedure (fun ctx input =>
    try_500 (
      u <- ctx_user ctx ;;
      us <- read PrismaClient.user ;;
      match Prisma.findFirst
              (fun r => (User.externalID r =? User.externalID u) && negb (User.deleted r))
              us with
      | None => throw (TRPCError NOT_FOUND)
      | Some _ =>
          let password :=
            match UserUpdate.password input with
            | Some p => if truthy_string (Some p)
                        then Some (bcrypt_hash p 10 salt) else Some p
            | None => None
            end in
          let data r :=
            User.mk (User.externalID r) (User.username r)
              (keep_undefined (UserUpdate.name input) (User.name r))
              (keep_undefined (UserUpdate.email input) (User.email r))
              (keep_undefined password (User.password r))
              (User.deleted r) in
          r <- orThrow RecordNotFound
                 (Prisma.update User.externalID (User.externalID u) data us) ;;
          write (with_user (snd r)) ;;;
          ret (Profile.mk (User.externalID (fst r)) (User.username (fst r))
                 (User.name (fst r)) (User.email (fst r)))
      end)).

Definition deleteUser : Context -> string -> Async unit :=
  protectedProcedure (fun ctx externalID =>
    try_500 (
      u <- ctx_user ctx ;;
      us <- read PrismaClient.user ;;
      let data r :=
        User.mk (User.externalID r) (User.username r) (User.name r) (User.email r)
          (User.password r) true in
      r <- orThrow RecordNotFound
             (Prisma.update User.externalID (User.externalID u) data us) ;;
      write (with_user (snd r)) ;;;
      ret tt)).

End User.
End userRouter.

(** ** The procedures of the five routers as one request type *)

Inductive Request :=
| auth_register (input : Register.t)
| auth_login (input : Login.t)
| user_me
| user_updateUser (input : UserUpdate.t)
| user_deleteUser (externalID : string)
| board_list (input : Page)
| board_get (externalID : string)
| board_create (input : BoardCreate.t)
| board_update (input : BoardUpdate.t)
| board_delete (externalID : string)
| stage_list (input : Page)
| stage_get (externalID : string)
| stage_create (input : StageCreate.t)
| stage_update (input : StageUpdate.t)
| stage_delete (externalID : string)
| task_list (input : Page)
| task_get (externalID : string)
| task_create (input : TaskCreate.t)
| task_update (input : TaskUpdate.t)
| task_delete (externalID : string).

Inductive Response :=
| profile_response (user : Profile.t)
| token_response (token : string)
| empty_response
| boards_response (boards : list BoardResult.t)
| board_response (board : BoardResult.t)
| board_detail_response (board : BoardDetail.t)
| stages_response (stages : list StageResult.t)
| stage_response (stage : StageResult.t)
| stage_detail_response (stage : StageDetail.t)
| tasks_response (tasks : list TaskResult.t)
| task_response (task : TaskDetail.t).

(** [Auth.register] and [Auth.login] are the two [publicProcedure]s. *)
Definition is_public (req : Request) : bool :=
  match req with
  | auth_register _ | auth_login _ => true
  | _ => false
  end.

(** What one call draws from outside the database: the identifier and the
    salt generated for it, the date and the clock reading. *)
Record Draws := { uuid : string; salt : string; now : Z; clock : N }.

Definition fmap {A B} (f : A -> B) (m : Async A) : Async B :=
  a <- m ;; ret (f a).

Section Call.
Context {bcrypt : Bcrypt} {jwt : Jsonwebtoken}.
Variable env : Env.

Definition call (d : Draws) (ctx : Context) (req : Request) : Async Response :=
  match req with
  | auth_register input =>
      fmap profile_response (authRouter.register (uuid d) (salt d) ctx input)
  | auth_login input => fmap token_response (authRouter.login env (clock d) ctx input)
  | user_me => fmap profile_response (userRouter.me ctx tt)
  | user_updateUser input =>
      fmap profile_response (userRouter.updateUser (salt d) ctx input)
  | user_deleteUser externalID =>
      fmap (fun _ => empty_response) (userRouter.deleteUser ctx externalID)
  | board_list input => fmap boards_response (boardRouter.list ctx input)
  | board_get externalID => fmap board_detail_response (boardRouter.get ctx externalID)
  | board_create input => fmap board_response (boardRouter.create (uuid d) ctx input)
  | board_update input => fmap board_response (boardRouter.update ctx input)
  | board_delete externalID =>
      fmap (fun _ => empty_response) (boardRouter.delete ctx externalID)
  | stage_list input => fmap stages_response (stageRouter.list ctx input)
  | stage_get externalID => fmap stage_detail_response (stageRouter.get ctx externalID)
  | stage_create input => fmap stage_response (stageRouter.create (uuid d) ctx input)
  | stage_update input => fmap stage_response (stageRouter.update ctx input)
  | stage_delete externalID =>
      fmap (fun _ => empty_response) (stageRouter.delete ctx externalID)
  | task_list input => fmap tasks_response (taskRouter.list ctx input)
  | task_get externalID => fmap task_response (taskRouter.get ctx externalID)
  | task_create input =>
      fmap task_response (taskRouter.create (uuid d) (now d) ctx input)
  | task_update input => fmap task_response (taskRouter.update ctx input)
  | task_delete externalID =>
      fmap (fun _ => empty_response) (taskRouter.delete ctx externalID)
  end.

End Call.

(** ** Invariants of the store *)

(** [externalID] is unique in each table. *)
Definition unique_ids (db : PrismaClient.t) : bool :=
  Prisma.unique User.externalID (PrismaClient.user db)
  && Prisma.unique Board.externalID (PrismaClient.board db)
  && Prisma.unique Stage.externalID (PrismaClient.stage db)
  && Prisma.unique Task.externalID (PrismaClient.task db).

(** A stage is owned by the owner of its board, a task by the owner of its
    stage. *)
Definition stage_owner_ok (db : PrismaClient.t) (s : Stage.t) : bool :=
  match Prisma.findUnique Board.externalID (Stage.board s) (PrismaClient.board db) with
  | Some b => Stage.createdBy s =? Board.createdBy b
  | None => false
  end.
Definition task_owner_ok (db : PrismaClient.t) (t : Task.t) : bool :=
  match Prisma.findUnique Stage.externalID (Task.stage t) (PrismaClient.stage db) with
  | Some s => Task.createdBy t =? Stage.createdBy s
  | None => false
  end.
Definition owner_chain (db : PrismaClient.t) : bool :=
  forallb (stage_owner_ok db) (PrismaClient.stage db)
  && forallb (task_owner_ok db) (PrismaClient.task db).

(** The caller of a request is the owner named by a row. *)
Definition is_owner (ctx : Context) (owner : string) : Prop :=
  exists u, user ctx = Some u /\ User.externalID u = owner.

(** A call is refused when it ends in a [TRPCError] and leaves the database
    as it found it. *)
Definition refused {A} (m : Async A) (db : PrismaClient.t) : Prop :=
  exists code, m db = (Throw (TRPCError code), db).

(** ** Sample libraries and data

    A small executable stand-in for each library, and a few rows, to run the
    routers on. *)

Module Sample.

(** The expiry time in binary, least significant bit first. *)
Fixpoint bits (p : positive) : string :=
  match p with
  | xH => EmptyString
  | xO q => String "0"%char (bits q)
  | xI q => String "1"%char (bits q)
  end.

Fixpoint read_bits (s : string) : option (positive * string) :=
  match s with
  | EmptyString => None
  | String c rest =>
      if Ascii.eqb c "."%char then Some (xH, rest)
      else if Ascii.eqb c "0"%char then
        match read_bits rest with
        | Some (q, tail) => Some (xO q, tail)
        | None => None
        end
      else if Ascii.eqb c "1"%char then
        match read_bits rest with
        | Some (q, tail) => Some (xI q, tail)
        | None => None
        end
      else None
  end.

Fixpoint strip (key s : string) : option string :=
  match key, s with
  | EmptyString, _ => Some s
  | String a key', String b s' => if Ascii.eqb a b then strip key' s' else None
  | String _ _, EmptyString => None
  end.

Definition encode (payload : JwtPayload) : string :=
  match payload with
  | JwtString s => String "s"%char s
  | JwtObject (Some externalID) => String "o"%char externalID
  | JwtObject None => "n"
  end.

Definition decode (s : string) : option JwtPayload :=
  match s with
  | String c rest =>
      if Ascii.eqb c "s"%char then Some (JwtString rest)
      else if Ascii.eqb c "o"%char then Some (JwtObject (Some rest))
      else if s =? "n" then Some (JwtObject None)
      else None
  | EmptyString => None
  end.

(** A token is the expiry time, a dot, the key and the payload. *)
Definition sign (payload : JwtPayload) (secret : string) (expiresIn iat : N) : string :=
  bits (N.succ_pos (iat + expiresIn)) ++ "." ++ secret ++ encode payload.

Definition verify (token secret : string) (clock : N) : option JwtPayload :=
  match read_bits token with
  | Some (p, rest) =>
      if (clock <? Pos.pred_N p)%N then
        match strip secret rest with
        | Some body => decode body
        | None => None
        end
      else None
  | None => None
  end.

Definition jsonwebtoken : Jsonwebtoken :=
  {| jwt_sign := sign; jwt_verify := verify |}.

(** The hash marks the password with a dollar sign. *)
Definition bcrypt : Bcrypt :=
  {| bcrypt_hash := fun password _ _ => String "$"%char password;
     bcrypt_compare := fun password hash => hash =? String "$"%char password |}.

Definition env : Env := {| DATABASE_URL := "postgres://db"; JWT_SECRET := "secret" |}.

Definition alice : User.t :=
  User.mk "u-alice" "alice" "Alice" "alice@example.org" "$wonderland" false.
Definition bob : User.t :=
  User.mk "u-bob" "bob" "Bob" "bob@example.org" "$builder" false.

(** Alice after [user.deleteUser], and the token of her login at time [0]. *)
Definition gone : User.t :=
  User.mk "u-alice" "alice" "Alice" "alice@example.org" "$wonderland" true.
Definition alice_token : string := sign (JwtObject (Some "u-alice")) "secret" one_day 0.

Definition as_alice : Context := {| user := Some alice |}.
Definition as_bob : Context := {| user := Some bob |}.
Definition anonymous : Context := {| user := None |}.

Definition sprint : Board.t := Board.mk "b-1" "Sprint 1" "" "u-alice" false.
Definition backlog : Board.t := Board.mk "b-2" "Backlog" "later" "u-bob" false.

Definition todo : Stage.t := Stage.mk "s-1" "Todo" "" "u-alice" "b-1" false.
Definition done : Stage.t := Stage.mk "s-2" "Done" "" "u-alice" "b-1" true.
Definition parked : Stage.t := Stage.mk "s-3" "Parked" "" "u-bob" "b-2" false.

Definition write_spec : Task.t :=
  Task.mk "t-1" "Write spec" (Some "") 1000 0 "u-alice" "s-1" false.
Definition review : Task.t :=
  Task.mk "t-2" "Review" None 2000 2 "u-bob" "s-3" false.

Definition archived : Task.t :=
  Task.mk "t-3" "Archive" None 3000 1 "u-alice" "s-1" true.

Definition db : PrismaClient.t :=
  PrismaClient.mk [alice; bob] [sprint; backlog] [todo; done; parked]
    [write_spec; review; archived].

(** Only the two users, no board yet. *)
Definition fresh_db : PrismaClient.t := PrismaClient.mk [alice; bob] [] [] [].

End Sample.

(** ** Further invariants and classifications *)

(** An identifier names a row of a table. *)
Definition known {Row} (key : Row -> string) (rows : list Row) (id : string) : bool :=
  existsb (fun r => key r =? id) rows.

(** Every relation points to a row that exists: the creator of a board, the
    creator and the board of a stage, the creator and the stage of a task. *)
Definition references_ok (db : PrismaClient.t) : bool :=
  forallb (fun b => known User.externalID (PrismaClient.user db) (Board.createdBy b))
    (PrismaClient.board db)
  && forallb (fun s => known User.externalID (PrismaClient.user db) (Stage.createdBy s)
                       && known Board.externalID (PrismaClient.board db) (Stage.board s))
       (PrismaClient.stage db)
  && forallb (fun t => known User.externalID (PrismaClient.user db) (Task.createdBy t)
                       && known Stage.externalID (PrismaClient.stage db) (Task.stage t))
       (PrismaClient.task db).

(** [username] is unique in the user table. *)
Definition unique_usernames (db : PrismaClient.t) : bool :=
  Prisma.unique User.username (PrismaClient.user db).

(** The procedures that are queries, and [auth.login], which only reads. *)
Definition reads_only (req : Request) : bool :=
  match req with
  | auth_login _ | user_me
  | board_list _ | board_get _
  | stage_list _ | stage_get _
  | task_list _ | task_get _ => true
  | _ => false
  end.

(** The identifiers of the four tables, in insertion order. *)
Definition user_ids (db : PrismaClient.t) : list string :=
  map User.externalID (PrismaClient.user db).
Definition board_ids (db : PrismaClient.t) : list string :=
  map Board.externalID (PrismaClient.board db).
Definition stage_ids (db : PrismaClient.t) : list string :=
  map Stage.externalID (PrismaClient.stage db).
Definition task_ids (db : PrismaClient.t) : list string :=
  map Task.externalID (PrismaClient.task db).

(** [l'] is [l] with rows added at the end. *)
Definition grows {A} (l l' : list A) : Prop := exists added, l' = (l ++ added)%list.

(** No space in a string. *)
Fixpoint spaceless (s : string) : bool :=
  match s with
  | EmptyString => true
  | String c rest => negb (Ascii.eqb c " "%char) && spaceless rest
  end.

(** The Prisma model a procedure belongs to: the auth and user routers work
    on users, the other three on their own model. *)
Inductive Model := UserModel | BoardModel | StageModel | TaskModel.

Definition model (req : Request) : Model :=
  match req with
  | auth_register _ | auth_login _ | user_me | user_updateUser _ | user_deleteUser _ =>
      UserModel
  | board_list _ | board_get _ | board_create _ | board_update _ | board_delete _ =>
      BoardModel
  | stage_list _ | stage_get _ | stage_create _ | stage_update _ | stage_delete _ =>
      StageModel
  | task_list _ | task_get _ | task_create _ | task_update _ | task_delete _ =>
      TaskModel
  end.

(** Every row flagged in [rows] is still there, and still flagged, in [rows']. *)
Definition still_flagged {Row} (key : Row -> string) (flag : Row -> bool)
           (rows rows' : list Row) : Prop :=
  forall id row,
    Prisma.findUnique key id rows = Some row -> flag row = true ->
    exists row', Prisma.findUnique key id rows' = Some row' /\ flag row' = true.

(** * Facts about the queries *)

Section TableFacts.
Variable Row : Type.
Variable externalID : Row -> string.

Lemma existsb_key_false (id : string) (rows : list Row) (r : Row) :
  existsb (fun r' => externalID r' =? id) rows = false ->
  In r rows -> externalID r <> id.
Proof.
  intros Hex Hin Heq.
  assert (existsb (fun r' => externalID r' =? id) rows = true) as Htrue.
  { apply existsb_exists. exists r. split; [assumption|]. now apply String.eqb_eq. }
  congruence.
Qed.

Lemma find_absent (id : string) (p : Row -> bool) (rows : list Row) :
  existsb (fun r' => externalID r' =? id) rows = false ->
  Prisma.findFirst (fun x => (externalID x =? id) && p x) rows = None.
Proof.
  unfold Prisma.findFirst.
  induction rows as [|h rest IH]; simpl; [reflexivity|].
  intros Hex. apply orb_false_iff in Hex as [Hh Hrest].
  rewrite Hh. simpl. auto.
Qed.

(** A row that fails the second half of a filter hides its identifier from
    the query: with unique identifiers no other row can answer for it. *)
Lemma find_foreign (p : Row -> bool) (rows : list Row) (r : Row) :
  Prisma.unique externalID rows = true ->
  In r rows ->
  p r = false ->
  Prisma.findFirst (fun x => (externalID x =? externalID r) && p x) rows = None.
Proof.
  induction rows as [|h rest IH]; simpl; [contradiction|].
  intros Huniq Hin Hp.
  apply andb_true_iff in Huniq as [Hfresh Huniq].
  apply negb_true_iff in Hfresh.
  destruct Hin as [-> | Hin].
  - rewrite Hp, andb_false_r. now apply find_absent.
  - assert (externalID r <> externalID h) as Hne
      by (eapply existsb_key_false; eauto).
    apply not_eq_sym in Hne. apply String.eqb_neq in Hne.
    rewrite Hne. simpl. now apply IH.
Qed.

Lemma findUnique_In (id : string) (rows : list Row) (r : Row) :
  Prisma.findUnique externalID id rows = Some r -> In r rows /\ externalID r = id.
Proof.
  unfold Prisma.findUnique. intros H. apply find_some in H as [Hin Heq].
  split; [assumption|]. now apply String.eqb_eq.
Qed.

Lemma findFirst_In (p : Row -> bool) (rows : list Row) (r : Row) :
  Prisma.findFirst p rows = Some r -> In r rows /\ p r = true.
Proof. unfold Prisma.findFirst. apply find_some. Qed.

(** With unique identifiers a row is the answer to the lookup of its own
    identifier. *)
Lemma findUnique_of_In (rows : list Row) (r : Row) :
  Prisma.unique externalID rows = true ->
  In r rows ->
  Prisma.findUnique externalID (externalID r) rows = Some r.
Proof.
  unfold Prisma.findUnique.
  induction rows as [|h rest IH]; simpl; [contradiction|].
  intros Huniq Hin.
  apply andb_true_iff in Huniq as [Hfresh Huniq].
  apply negb_true_iff in Hfresh.
  destruct Hin as [-> | Hin].
  - now rewrite String.eqb_refl.
  - assert (externalID r <> externalID h) as Hne
      by (eapply existsb_key_false; eauto).
    apply not_eq_sym in Hne. apply String.eqb_neq in Hne.
    rewrite Hne. now apply IH.
Qed.

Section Update.
Variable data : Row -> Row.
Hypothesis data_keeps_id : forall r, externalID (data r) = externalID r.

Lemma update_found (id : string) (rows rows' : list Row) (r' : Row) :
  Prisma.update externalID id data rows = Some (r', rows') ->
  exists r,
    Prisma.findUnique externalID id rows = Some r
    /\ r' = data r
    /\ Prisma.findUnique externalID id rows' = Some (data r).
Proof.
  unfold Prisma.findUnique.
  revert rows'. induction rows as [|h rest IH]; simpl; intros rows' H; [discriminate|].
  destruct (externalID h =? id) eqn:Hh.
  - injection H as <- <-. exists h. simpl. rewrite data_keeps_id, Hh. auto.
  - destruct (Prisma.update externalID id data rest) as [[r1 rest1]|] eqn:Hrest;
      [|discriminate].
    injection H as <- <-. destruct (IH _ eq_refl) as (r & Hf & Hr & Hf').
    exists r. simpl. rewrite Hh. auto.
Qed.

Lemma update_of_found (id : string) (rows : list Row) (r : Row) :
  Prisma.findUnique externalID id rows = Some r ->
  exists rows', Prisma.update externalID id data rows = Some (data r, rows').
Proof.
  unfold Prisma.findUnique.
  induction rows as [|h rest IH]; simpl; intros H; [discriminate|].
  destruct (externalID h =? id) eqn:Hh.
  - injection H as ->. eauto.
  - destruct (IH H) as [rows' ->]. eauto.
Qed.

Lemma update_other (id id' : string) (rows rows' : list Row) (r' : Row) :
  Prisma.update externalID id data rows = Some (r', rows') ->
  id' <> id ->
  Prisma.findUnique externalID id' rows' = Prisma.findUnique externalID id' rows.
Proof.
  unfold Prisma.findUnique.
  revert rows'. induction rows as [|h rest IH]; simpl; intros rows' H Hne; [discriminate|].
  destruct (externalID h =? id) eqn:Hh.
  - injection H as <- <-. simpl. rewrite data_keeps_id.
    apply String.eqb_eq in Hh. rewrite Hh.
    apply not_eq_sym in Hne. apply String.eqb_neq in Hne. now rewrite Hne.
  - destruct (Prisma.update externalID id data rest) as [[r1 rest1]|] eqn:Hrest;
      [|discriminate].
    injection H as <- <-. simpl. rewrite (IH _ eq_refl Hne). reflexivity.
Qed.

Lemma update_keys (id : string) (rows rows' : list Row) (r' : Row) :
  Prisma.update externalID id data rows = Some (r', rows') ->
  map externalID rows' = map externalID rows.
Proof.
  revert rows'. induction rows as [|h rest IH]; simpl; intros rows' H; [discriminate|].
  destruct (externalID h =? id).
  - injection H as <- <-. simpl. now rewrite data_keeps_id.
  - destruct (Prisma.update externalID id data rest) as [[r1 rest1]|] eqn:Hrest;
      [|discriminate].
    injection H as <- <-. simpl. now rewrite (IH _ eq_refl).
Qed.

End Update.

Lemma existsb_keys (id : string) (rows : list Row) :
  existsb (fun r' => externalID r' =? id) rows
  = existsb (fun k => k =? id) (map externalID rows).
Proof. induction rows as [|h rest IH]; simpl; congruence. Qed.

Lemma unique_keys (rows rows' : list Row) :
  map externalID rows' = map externalID rows ->
  Prisma.unique externalID rows' = Prisma.unique externalID rows.
Proof.
  revert rows'. induction rows as [|h rest IH]; intros [|h' rest'] H;
    try discriminate; [reflexivity|].
  simpl in *. injection H as Hh Hrest.
  rewrite (IH _ Hrest), !existsb_keys, Hrest, Hh. reflexivity.
Qed.

Lemma update_unique (data : Row -> Row) (id : string) (rows rows' : list Row) (r' : Row) :
  (forall r, externalID (data r) = externalID r) ->
  Prisma.update externalID id data rows = Some (r', rows') ->
  Prisma.unique externalID rows' = Prisma.unique externalID rows.
Proof. intros Hk H. apply unique_keys. eapply update_keys; eauto. Qed.

Lemma unique_snoc (rows : list Row) (r : Row) :
  Prisma.unique externalID rows = true ->
  existsb (fun r' => externalID r' =? externalID r) rows = false ->
  Prisma.unique externalID (rows ++ [r]) = true.
Proof.
  induction rows as [|h rest IH]; simpl; intros Huniq Hfresh; [reflexivity|].
  apply andb_true_iff in Huniq as [Hh Huniq].
  apply orb_false_iff in Hfresh as [Hhr Hfresh].
  rewrite IH by assumption. rewrite andb_true_r.
  rewrite existsb_app. simpl. rewrite orb_false_r.
  apply negb_true_iff in Hh. rewrite Hh. simpl.
  rewrite String.eqb_sym. now rewrite Hhr.
Qed.

Lemma create_unique (r : Row) (rows rows' : list Row) :
  Prisma.create externalID r rows = Some rows' ->
  Prisma.unique externalID rows = true ->
  Prisma.unique externalID rows' = true.
Proof.
  unfold Prisma.create.
  destruct (existsb _ rows) eqn:Hfresh; [discriminate|].
  intros H Huniq. injection H as <-. now apply unique_snoc.
Qed.

Lemma create_In (r : Row) (rows rows' : list Row) :
  Prisma.create externalID r rows = Some rows' -> rows' = (rows ++ [r])%list.
Proof.
  unfold Prisma.create. destruct (existsb _ rows); [discriminate|]. congruence.
Qed.

Lemma In_firstn {A} (n : nat) (l : list A) (a : A) : In a (firstn n l) -> In a l.
Proof.
  revert l. induction n as [|n IH]; intros [|h t]; simpl; try contradiction.
  intros [-> | H]; [now left | right; now apply IH].
Qed.

Lemma In_skipn {A} (m : nat) (l : list A) (a : A) : In a (skipn m l) -> In a l.
Proof.
  revert l. induction m as [|m IH]; intros l H; simpl in H; [assumption|].
  destruct l; [contradiction|]. right. now apply IH.
Qed.

Lemma In_firstn_skipn {A} (n m : nat) (l : list A) (a : A) :
  In a (firstn n (skipn m l)) -> In a l.
Proof. intros H. apply In_firstn in H. now apply In_skipn in H. Qed.

(** Whatever the page, [findMany] only returns rows that pass the filter. *)
Lemma findMany_In (p : Row -> bool) (take skip : Z) (rows page : list Row) (r : Row) :
  Prisma.findMany p take skip rows = Some page ->
  In r page -> In r rows /\ p r = true.
Proof.
  unfold Prisma.findMany.
  destruct (skip <? 0)%Z; [discriminate|].
  destruct (0 <=? take)%Z; intros H Hin; injection H as <-.
  - apply In_firstn_skipn in Hin. now apply filter_In in Hin.
  - apply in_rev in Hin. apply In_firstn_skipn in Hin.
    apply in_rev in Hin. now apply filter_In in Hin.
Qed.

End TableFacts.

Arguments Prisma.findFirst : simpl never.
Arguments Prisma.findUnique : simpl never.
Arguments Prisma.findMany : simpl never.
Arguments Prisma.update : simpl never.
Arguments Prisma.create : simpl never.

(** * Running a resolver symbolically *)

(** Unfolds the monad and reduces what the known completions decide. *)
Ltac run :=
  cbv beta iota zeta delta
    [protectedProcedure publicProcedure try_500 try_catch bind ret throw read write
     orThrow ctx_user connect fmap user fst snd
     include_createdBy include_board include_stage include_Stage include_Task
     board_include stage_include task_include task_include_board] in *;
  cbn [BoardCreate.title BoardCreate.description
       BoardUpdate.externalID BoardUpdate.title BoardUpdate.description
       StageCreate.title StageCreate.description StageCreate.boardExternalID
       StageUpdate.externalID StageUpdate.title StageUpdate.description
       TaskCreate.title TaskCreate.description TaskCreate.dueDate TaskCreate.priority
       TaskCreate.stageExternalID
       TaskUpdate.externalID TaskUpdate.title TaskUpdate.description TaskUpdate.dueDate
       TaskUpdate.priority TaskUpdate.stageExternalID
       UserUpdate.externalID UserUpdate.name UserUpdate.email UserUpdate.password
       Register.username Register.name Register.email Register.password
       Login.username Login.password
       limit offset
       User.externalID User.username User.name User.email User.password User.deleted
       Board.externalID Board.title Board.description Board.createdBy Board.deleted
       Stage.externalID Stage.title Stage.description Stage.createdBy Stage.board
       Stage.deleted
       Task.externalID Task.title Task.description Task.dueDate Task.priority
       Task.createdBy Task.stage Task.deleted
       BoardResult.board BoardResult.createdBy
       BoardDetail.board BoardDetail.createdBy BoardDetail.stage
       StageResult.stage StageResult.createdBy StageResult.board
       StageDetail.stage StageDetail.createdBy StageDetail.board StageDetail.task
       TaskResult.task TaskResult.createdBy TaskResult.stage
       TaskDetail.task TaskDetail.createdBy TaskDetail.stage TaskDetail.board
       PrismaClient.user PrismaClient.board PrismaClient.stage PrismaClient.task
       with_user with_board with_stage with_task] in *.

(** Splits on the first query whose answer the run is waiting for. *)
Ltac query_in t :=
  match t with
  | context [match Prisma.findFirst ?p ?l with _ => _ end] =>
      destruct (Prisma.findFirst p l) eqn:?
  | context [match Prisma.findUnique ?k ?i ?l with _ => _ end] =>
      destruct (Prisma.findUnique k i l) eqn:?
  | context [match Prisma.findMany ?p ?a ?b ?l with _ => _ end] =>
      destruct (Prisma.findMany p a b l) eqn:?
  | context [match Prisma.create ?k ?r ?l with _ => _ end] =>
      destruct (Prisma.create k r l) eqn:?
  | context [match Prisma.update ?k ?i ?d ?l with _ => _ end] =>
      destruct (Prisma.update k i d l) as [[? ?]|] eqn:?
  | context [match findUnique_username ?n ?l with _ => _ end] =>
      destruct (findUnique_username n l) eqn:?
  | context [match user_create ?u ?l with _ => _ end] =>
      destruct (user_create u l) eqn:?
  | context [negb (bcrypt_compare ?p ?h)] =>
      destruct (bcrypt_compare p h) eqn:?; cbn [negb] in *
  end.
Ltac query :=
  match goal with
  | H : ?t = (_, _) |- _ => query_in t
  | |- ?t => query_in t
  end; run.

(** * Ownership isolation *)

Lemma unique_ids_tables (db : PrismaClient.t) :
  unique_ids db = true ->
  Prisma.unique User.externalID (PrismaClient.user db) = true
  /\ Prisma.unique Board.externalID (PrismaClient.board db) = true
  /\ Prisma.unique Stage.externalID (PrismaClient.stage db) = true
  /\ Prisma.unique Task.externalID (PrismaClient.task db) = true.
Proof.
  unfold unique_ids. intros H.
  apply andb_true_iff in H as [H Ht].
  apply andb_true_iff in H as [H Hs].
  apply andb_true_iff in H as [Hu Hb]. auto.
Qed.

Lemma not_owner_eqb (u : User.t) (owner : string) :
  ~ is_owner {| user := Some u |} owner -> (owner =? User.externalID u) = false.
Proof.
  intros H. apply String.eqb_neq. intros ->. apply H. exists u. auto.
Qed.

Lemma anonymous_refused {I O} (resolver : Context -> I -> Async O) ctx input db :
  user ctx = None -> refused (protectedProcedure resolver ctx input) db.
Proof. intros H. exists UNAUTHORIZED. unfold protectedProcedure. now rewrite H. Qed.

Section Foreign.
Variable db : PrismaClient.t.
Variable ctx : Context.
Hypothesis Hunique : unique_ids db = true.

Lemma board_hidden (u : User.t) (b : Board.t) :
  In b (PrismaClient.board db) ->
  ~ is_owner {| user := Some u |} (Board.createdBy b) ->
  Prisma.findFirst (fun x => (Board.externalID x =? Board.externalID b)
                             && boardRouter.owned u x) (PrismaClient.board db) = None.
Proof.
  intros Hin Hother. apply find_foreign; auto.
  - now apply unique_ids_tables.
  - unfold boardRouter.owned. now rewrite not_owner_eqb, andb_false_r.
Qed.

Lemma stage_hidden (u : User.t) (s : Stage.t) :
  In s (PrismaClient.stage db) ->
  ~ is_owner {| user := Some u |} (Stage.createdBy s) ->
  Prisma.findFirst (fun x => (Stage.externalID x =? Stage.externalID s)
                             && stageRouter.owned u x) (PrismaClient.stage db) = None.
Proof.
  intros Hin Hother. apply find_foreign; auto.
  - now apply unique_ids_tables.
  - unfold stageRouter.owned. now rewrite not_owner_eqb, andb_false_r.
Qed.

Lemma task_hidden (u : User.t) (t : Task.t) :
  In t (PrismaClient.task db) ->
  ~ is_owner {| user := Some u |} (Task.createdBy t) ->
  Prisma.findFirst (fun x => (Task.externalID x =? Task.externalID t)
                             && taskRouter.owned u x) (PrismaClient.task db) = None.
Proof.
  intros Hin Hother. apply find_foreign; auto.
  - now apply unique_ids_tables.
  - unfold taskRouter.owned. now rewrite not_owner_eqb, andb_false_r.
Qed.

Ltac foreign hidden :=
  intros Hin Hother;
  destruct ctx as [[u|]]; [|now apply anonymous_refused];
  exists INTERNAL_SERVER_ERROR; run; now rewrite hidden.

Lemma board_get_foreign (b : Board.t) :
  In b (PrismaClient.board db) -> ~ is_owner ctx (Board.createdBy b) ->
  refused (boardRouter.get ctx (Board.externalID b)) db.
Proof. unfold boardRouter.get. foreign board_hidden. Qed.

Lemma board_update_foreign (b : Board.t) (title description : option string) :
  In b (PrismaClient.board db) -> ~ is_owner ctx (Board.createdBy b) ->
  refused (boardRouter.update ctx
             (BoardUpdate.mk (Board.externalID b) title description)) db.
Proof. unfold boardRouter.update. foreign board_hidden. Qed.

Lemma board_delete_foreign (b : Board.t) :
  In b (PrismaClient.board db) -> ~ is_owner ctx (Board.createdBy b) ->
  refused (boardRouter.delete ctx (Board.externalID b)) db.
Proof. unfold boardRouter.delete. foreign board_hidden. Qed.

Lemma stage_get_foreign (s : Stage.t) :
  In s (PrismaClient.stage db) -> ~ is_owner ctx (Stage.createdBy s) ->
  refused (stageRouter.get ctx (Stage.externalID s)) db.
Proof. unfold stageRouter.get. foreign stage_hidden. Qed.

Lemma stage_update_foreign (s : Stage.t) (title description : string) :
  In s (PrismaClient.stage db) -> ~ is_owner ctx (Stage.createdBy s) ->
  refused (stageRouter.update ctx
             (StageUpdate.mk (Stage.externalID s) title description)) db.
Proof. unfold stageRouter.update. foreign stage_hidden. Qed.

Lemma stage_delete_foreign (s : Stage.t) :
  In s (PrismaClient.stage db) -> ~ is_owner ctx (Stage.createdBy s) ->
  refused (stageRouter.delete ctx (Stage.externalID s)) db.
Proof. unfold stageRouter.delete. foreign stage_hidden. Qed.

Lemma task_get_foreign (t : Task.t) :
  In t (PrismaClient.task db) -> ~ is_owner ctx (Task.createdBy t) ->
  refused (taskRouter.get ctx (Task.externalID t)) db.
Proof. unfold taskRouter.get. foreign task_hidden. Qed.

Lemma task_update_foreign (t : Task.t) title description dueDate priority stageExternalID :
  In t (PrismaClient.task db) -> ~ is_owner ctx (Task.createdBy t) ->
  refused (taskRouter.update ctx
             (TaskUpdate.mk (Task.externalID t) title description dueDate priority
                stageExternalID)) db.
Proof. unfold taskRouter.update. foreign task_hidden. Qed.

Lemma task_delete_foreign (t : Task.t) :
  In t (PrismaClient.task db) -> ~ is_owner ctx (Task.createdBy t) ->
  refused (taskRouter.delete ctx (Task.externalID t)) db.
Proof. unfold taskRouter.delete. foreign task_hidden. Qed.

End Foreign.

(** What a successful [board.create] leaves behind. *)
Lemma board_create_result (uuid : string) (ctx : Context) (input : BoardCreate.t)
      (db db' : PrismaClient.t) (out : BoardResult.t) :
  boardRouter.create uuid ctx input db = (Return out, db') ->
  exists u,
    user ctx = Some u
    /\ Board.externalID (BoardResult.board out) = uuid
    /\ Board.createdBy (BoardResult.board out) = User.externalID u
    /\ Board.deleted (BoardResult.board out) = false
    /\ Board.title (BoardResult.board out) = BoardCreate.title input
    /\ Prisma.create Board.externalID (BoardResult.board out) (PrismaClient.board db)
       = Some (PrismaClient.board db')
    /\ db' = with_board (PrismaClient.board db') db.
Proof.
  unfold boardRouter.create. intros H.
  destruct ctx as [[u|]]; run; [|discriminate].
  repeat (query; try discriminate).
  injection H as <- <-. exists u. cbn. repeat split; auto.
Qed.

Lemma board_get_after_create (uuid : string) (A B : User.t) (input : BoardCreate.t)
      (db db' : PrismaClient.t) (out : BoardResult.t) :
  unique_ids db = true ->
  User.externalID A <> User.externalID B ->
  boardRouter.create uuid {| user := Some A |} input db = (Return out, db') ->
  refused (boardRouter.get {| user := Some B |} (Board.externalID (BoardResult.board out)))
    db'.
Proof.
  intros Huniq Hne Hcreate.
  apply board_create_result in Hcreate
    as (u & Hu & _ & Howner & _ & _ & Hrows & Hdb).
  simpl in Hu. injection Hu as <-.
  apply unique_ids_tables in Huniq as (Hu & Hb & Hs & Ht).
  apply board_get_foreign.
  - rewrite Hdb. unfold unique_ids. simpl. rewrite Hu, Hs, Ht.
    now rewrite (create_unique _ _ _ _ _ Hrows Hb).
  - apply create_In in Hrows. rewrite Hrows. apply in_or_app. right. now left.
  - intros (u & Hu' & Heq). simpl in Hu'. injection Hu' as <-. congruence.
Qed.

(** C1 — Ownership isolation.  With unique identifiers, [get], [update] and
    [delete] on a board, stage or task that belongs to another user are
    refused: the call ends in an error and the database is unchanged.  In
    particular a board created by user A cannot be read with [board.get] by a
    different user B. *)
Theorem ownership_isolation (db : PrismaClient.t) (ctx : Context) :
  unique_ids db = true ->
  (forall b, In b (PrismaClient.board db) -> ~ is_owner ctx (Board.createdBy b) ->
     refused (boardRouter.get ctx (Board.externalID b)) db
     /\ (forall title description,
           refused (boardRouter.update ctx
                      (BoardUpdate.mk (Board.externalID b) title description)) db)
     /\ refused (boardRouter.delete ctx (Board.externalID b)) db)
  /\ (forall s, In s (PrismaClient.stage db) -> ~ is_owner ctx (Stage.createdBy s) ->
     refused (stageRouter.get ctx (Stage.externalID s)) db
     /\ (forall title description,
           refused (stageRouter.update ctx
                      (StageUpdate.mk (Stage.externalID s) title description)) db)
     /\ refused (stageRouter.delete ctx (Stage.externalID s)) db)
  /\ (forall t, In t (PrismaClient.task db) -> ~ is_owner ctx (Task.createdBy t) ->
     refused (taskRouter.get ctx (Task.externalID t)) db
     /\ (forall title description dueDate priority stageExternalID,
           refused (taskRouter.update ctx
                      (TaskUpdate.mk (Task.externalID t) title description dueDate
                         priority stageExternalID)) db)
     /\ refused (taskRouter.delete ctx (Task.externalID t)) db)
  /\ (forall uuid A B input out db',
        user ctx = Some B ->
        User.externalID A <> User.externalID B ->
        boardRouter.create uuid {| user := Some A |} input db = (Return out, db') ->
        refused (boardRouter.get ctx (Board.externalID (BoardResult.board out))) db').
Proof.
  intros Huniq. repeat split; intros.
  - now apply board_get_foreign.
  - now apply board_update_foreign.
  - now apply board_delete_foreign.
  - now apply stage_get_foreign.
  - now apply stage_update_foreign.
  - now apply stage_delete_foreign.
  - now apply task_get_foreign.
  - now apply task_update_foreign.
  - now apply task_delete_foreign.
  - destruct ctx as [cu]. simpl in *. subst cu.
    eapply board_get_after_create; eauto.
Qed.

(** Bob asks for, patches and deletes Alice's board ["b-1"]; Alice creates
    the board ["b-9"] and Bob asks for it. *)
Lemma ownership_isolation_witness :
  unique_ids Sample.db = true
  /\ refused (boardRouter.get Sample.as_bob "b-1") Sample.db
  /\ refused (boardRouter.update Sample.as_bob
                (BoardUpdate.mk "b-1" (Some "Mine") None)) Sample.db
  /\ refused (boardRouter.delete Sample.as_bob "b-1") Sample.db
  /\ exists out db',
       boardRouter.create "b-9" Sample.as_alice (BoardCreate.mk "Sprint 1" None) Sample.db
       = (Return out, db')
       /\ Board.externalID (BoardResult.board out) = "b-9"
       /\ refused (boardRouter.get Sample.as_bob "b-9") db'.
Proof.
  split; [reflexivity|].
  destruct (ownership_isolation Sample.db Sample.as_bob eq_refl)
    as (Hboard & _ & _ & Hcreated).
  destruct (Hboard Sample.sprint) as (Hget & Hupdate & Hdelete).
  - simpl. now left.
  - intros (u & Hu & Heq). injection Hu as <-. discriminate.
  - repeat split; [exact Hget | exact (Hupdate (Some "Mine") None) | exact Hdelete |].
    pose (run := boardRouter.create "b-9" Sample.as_alice
                   (BoardCreate.mk "Sprint 1" None) Sample.db).
    pose (out := BoardResult.mk (Board.mk "b-9" "Sprint 1" "" "u-alice" false)
                   Sample.alice).
    assert (run = (Return out, snd run)) as Hrun by reflexivity.
    exists out, (snd run). split; [exact Hrun|]. split; [reflexivity|].
    refine (Hcreated "b-9" Sample.alice Sample.bob _ out (snd run) eq_refl _ Hrun).
    discriminate.
Defined.

(** * Protected procedures *)

(** C2 — Every procedure other than [auth.register] and [auth.login] fails
    with [UNAUTHORIZED] when the context has no user, and leaves the database
    as it was. *)
Theorem protected_requires_user `{Bcrypt} `{Jsonwebtoken}
        (env : Env) (d : Draws) (ctx : Context) (req : Request) (db : PrismaClient.t) :
  user ctx = None ->
  is_public req = false ->
  call env d ctx req db = (Throw (TRPCError UNAUTHORIZED), db).
Proof.
  intros Hanon Hprotected.
  destruct req; try discriminate Hprotected;
    unfold call, fmap, bind,
      userRouter.me, userRouter.updateUser, userRouter.deleteUser,
      boardRouter.list, boardRouter.get, boardRouter.create, boardRouter.update,
      boardRouter.delete, stageRouter.list, stageRouter.get, stageRouter.create,
      stageRouter.update, stageRouter.delete, taskRouter.list, taskRouter.get,
      taskRouter.create, taskRouter.update, taskRouter.delete, protectedProcedure;
    now rewrite Hanon.
Qed.

(** An anonymous caller tries to create a board. *)
Lemma protected_requires_user_witness :
  call (bcrypt := Sample.bcrypt) (jwt := Sample.jsonwebtoken) Sample.env
    {| uuid := "b-9"; salt := "salt"; now := 0; clock := 0 |}
    Sample.anonymous (board_create (BoardCreate.mk "Sprint 1" None)) Sample.db
  = (Throw (TRPCError UNAUTHORIZED), Sample.db).
Proof. now apply protected_requires_user. Defined.

(** * Where the routers part from the specification *)

(** [board.get] loads every stage of the board, [stage.get] every task of
    the stage, whatever their [deleted] flag. *)
Lemma board_get_includes_every_stage (u : User.t) (b : Board.t) (c : User.t)
      (db : PrismaClient.t) :
  Prisma.findFirst (fun x => (Board.externalID x =? Board.externalID b)
                             && boardRouter.owned u x) (PrismaClient.board db) = Some b ->
  Prisma.findUnique User.externalID (Board.createdBy b) (PrismaClient.user db) = Some c ->
  boardRouter.get {| user := Some u |} (Board.externalID b) db
  = (Return (BoardDetail.mk b c
               (filter (fun s => Stage.board s =? Board.externalID b)
                  (PrismaClient.stage db))), db).
Proof.
  intros Hb Hc. unfold boardRouter.get. run. rewrite Hb. run. rewrite Hc. reflexivity.
Qed.

(** C3 — Alice's board ["b-1"] has the soft-deleted stage ["s-2"], her stage
    ["s-1"] the soft-deleted task ["t-3"]; [board.get] and [stage.get] return
    them in their [stage] and [task] arrays.  After [user.deleteUser] her
    token still builds a context, and [user.me] answers with the soft-deleted
    user. *)
Theorem soft_deleted_rows_are_returned :
  Stage.deleted Sample.done = true
  /\ Task.deleted Sample.archived = true
  /\ boardRouter.get Sample.as_alice "b-1" Sample.db
     = (Return (BoardDetail.mk Sample.sprint Sample.alice [Sample.todo; Sample.done]),
        Sample.db)
  /\ stageRouter.get Sample.as_alice "s-1" Sample.db
     = (Return (StageDetail.mk Sample.todo Sample.alice Sample.sprint
                  [Sample.write_spec; Sample.archived]),
        Sample.db)
  /\ let db' := with_user [Sample.gone; Sample.bob] Sample.db in
     User.deleted Sample.gone = true
     /\ userRouter.deleteUser Sample.as_alice "u-alice" Sample.db = (Return tt, db')
     /\ createContext (jwt := Sample.jsonwebtoken) Sample.env 10
          {| authorization := Some ("Bearer " ++ Sample.alice_token) |} db'
        = (Return {| user := Some Sample.gone |}, db')
     /\ userRouter.me {| user := Some Sample.gone |} tt db'
        = (Return (profile Sample.gone), db').
Proof. repeat split. Qed.

(** [board.create] goes through only when the caller already has a live
    board with the title. *)
Lemma board_create_only_over_duplicate (uuid : string) (ctx : Context)
      (input : BoardCreate.t) (db db' : PrismaClient.t) (out : BoardResult.t) :
  boardRouter.create uuid ctx input db = (Return out, db') ->
  exists u b,
    user ctx = Some u
    /\ In b (PrismaClient.board db)
    /\ Board.title b = BoardCreate.title input
    /\ Board.deleted b = false
    /\ Board.createdBy b = User.externalID u.
Proof.
  unfold boardRouter.create. intros H.
  destruct ctx as [[u|]]; run; [|discriminate].
  query; [|discriminate].
  match goal with
  | Hf : Prisma.findFirst _ _ = Some ?b |- _ =>
      apply findFirst_In in Hf as [Hin Hp]; exists u, b
  end.
  unfold boardRouter.owned in Hp.
  apply andb_true_iff in Hp as [Htitle Hp].
  apply andb_true_iff in Hp as [Hdel Howner].
  apply String.eqb_eq in Htitle, Howner. apply negb_true_iff in Hdel.
  auto.
Qed.

(** [stage.create] asks the board table, and [task.create] the stage table,
    for a live row of the caller titled like the new row; the parent named
    by the input only has to exist. *)
Lemma stage_create_guard (uuid : string) (ctx : Context) (input : StageCreate.t)
      (db db' : PrismaClient.t) (out : StageResult.t) :
  stageRouter.create uuid ctx input db = (Return out, db') ->
  exists u b parent,
    user ctx = Some u
    /\ In b (PrismaClient.board db)
    /\ Board.title b = StageCreate.title input
    /\ boardRouter.owned u b = true
    /\ Prisma.findUnique Board.externalID (StageCreate.boardExternalID input)
         (PrismaClient.board db) = Some parent
    /\ Stage.board (StageResult.stage out) = StageCreate.boardExternalID input
    /\ Stage.createdBy (StageResult.stage out) = User.externalID u.
Proof.
  unfold stageRouter.create. intros H.
  destruct ctx as [[u|]]; run; [|discriminate].
  repeat (query; try discriminate). injection H as <- _.
  match goal with
  | Hf : Prisma.findFirst _ _ = Some ?b |- _ =>
      apply findFirst_In in Hf as [Hin Hp]; exists u, b
  end.
  apply andb_true_iff in Hp as [Htitle Hp]. apply String.eqb_eq in Htitle.
  eexists. cbn. repeat split; eauto.
Qed.

Lemma task_create_guard (uuid : string) (now : Z) (ctx : Context) (input : TaskCreate.t)
      (db db' : PrismaClient.t) (out : TaskDetail.t) :
  taskRouter.create uuid now ctx input db = (Return out, db') ->
  exists u s parent,
    user ctx = Some u
    /\ In s (PrismaClient.stage db)
    /\ Stage.title s = TaskCreate.title input
    /\ stageRouter.owned u s = true
    /\ Prisma.findUnique Stage.externalID (TaskCreate.stageExternalID input)
         (PrismaClient.stage db) = Some parent
    /\ Task.stage (TaskDetail.task out) = TaskCreate.stageExternalID input
    /\ Task.createdBy (TaskDetail.task out) = User.externalID u.
Proof.
  unfold taskRouter.create. intros H.
  destruct ctx as [[u|]]; run; [|discriminate].
  repeat (query; try discriminate). injection H as <- _.
  match goal with
  | Hf : Prisma.findFirst _ _ = Some ?s |- _ =>
      apply findFirst_In in Hf as [Hin Hp]; exists u, s
  end.
  apply andb_true_iff in Hp as [Htitle Hp]. apply String.eqb_eq in Htitle.
  eexists. cbn. repeat split; eauto.
Qed.

(** C5 — The guards of the three [create] procedures on the sample data.
    Alice has no board titled ["Roadmap"], yet [board.create] refuses it; she
    has one titled ["Sprint 1"], and [board.create] adds a second.
    [stage.create] refuses the new title ["Review"] on her own board.
    [task.create] refuses a task for her live stage ["s-1"] because no stage
    of hers bears the task's title, and accepts one for the deleted stage
    ["s-2"] when the title is that of a live stage. *)
Theorem create_guards_on_sample :
  existsb (fun b => Board.title b =? "Roadmap") (PrismaClient.board Sample.db) = false
  /\ boardRouter.create "b-9" Sample.as_alice (BoardCreate.mk "Roadmap" None) Sample.db
     = (Throw (TRPCError INTERNAL_SERVER_ERROR), Sample.db)
  /\ boardRouter.create "b-9" Sample.as_alice (BoardCreate.mk "Sprint 1" None) Sample.db
     = (Return (BoardResult.mk (Board.mk "b-9" "Sprint 1" "" "u-alice" false) Sample.alice),
        with_board [Sample.sprint; Sample.backlog;
                    Board.mk "b-9" "Sprint 1" "" "u-alice" false] Sample.db)
  /\ existsb (fun s => Stage.title s =? "Review") (PrismaClient.stage Sample.db) = false
  /\ stageRouter.create "s-9" Sample.as_alice (StageCreate.mk "Review" "" "b-1") Sample.db
     = (Throw (TRPCError INTERNAL_SERVER_ERROR), Sample.db)
  /\ Prisma.findUnique Stage.externalID "s-1" (PrismaClient.stage Sample.db)
     = Some Sample.todo
  /\ taskRouter.create "t-9" 5 Sample.as_alice
       (TaskCreate.mk "Write tests" None None 0 "s-1") Sample.db
     = (Throw (TRPCError INTERNAL_SERVER_ERROR), Sample.db)
  /\ Stage.deleted Sample.done = true
  /\ fst (taskRouter.create "t-9" 5 Sample.as_alice
            (TaskCreate.mk "Todo" None None 0 "s-2") Sample.db)
     = Return (TaskDetail.mk (Task.mk "t-9" "Todo" None 5 0 "u-alice" "s-2" false)
                 Sample.alice Sample.done Sample.sprint).
Proof. repeat split. Qed.

(** C6 — On the sample data every stage and task is owned by the owner of
    its parent.  Alice, who has a board titled ["Sprint 1"], creates a stage
    of that title on Bob's board ["b-2"]; she also moves her task ["t-1"] to
    Bob's stage ["s-3"].  Both calls succeed and break the owner chain. *)
Theorem owner_chain_broken_on_sample :
  owner_chain Sample.db = true
  /\ Board.createdBy Sample.backlog = User.externalID Sample.bob
  /\ (exists out db',
        stageRouter.create "s-9" Sample.as_alice
          (StageCreate.mk "Sprint 1" "" "b-2") Sample.db = (Return out, db')
        /\ Stage.createdBy (StageResult.stage out) = User.externalID Sample.alice
        /\ StageResult.board out = Sample.backlog
        /\ owner_chain db' = false)
  /\ Stage.createdBy Sample.parked = User.externalID Sample.bob
  /\ (exists out db',
        taskRouter.update Sample.as_alice
          (TaskUpdate.mk "t-1" None None None None (Some "s-3")) Sample.db
        = (Return out, db')
        /\ Prisma.findUnique Task.externalID "t-1" (PrismaClient.task db')
           = Some (Task.mk "t-1" "Write spec" (Some "") 1000 0 "u-alice" "s-3" false)
        /\ owner_chain db' = false).
Proof.
  repeat split.
  - eexists. eexists. repeat split.
  - eexists. eexists. repeat split.
Qed.

(** * Partial update *)

Lemma board_update_frame (ctx : Context) (input : BoardUpdate.t)
      (db db' : PrismaClient.t) (r : Completion BoardResult.t) (b : Board.t) :
  boardRouter.update ctx input db = (r, db') ->
  Prisma.findUnique Board.externalID (BoardUpdate.externalID input) (PrismaClient.board db)
  = Some b ->
  exists b',
    Prisma.findUnique Board.externalID (BoardUpdate.externalID input)
      (PrismaClient.board db') = Some b'
    /\ (BoardUpdate.title input = None -> Board.title b' = Board.title b)
    /\ (BoardUpdate.description input = None -> Board.description b' = Board.description b)
    /\ Board.externalID b' = Board.externalID b
    /\ Board.createdBy b' = Board.createdBy b
    /\ Board.deleted b' = Board.deleted b.
Proof.
  unfold boardRouter.update. intros H Hb.
  destruct ctx as [[u|]]; run; [|injection H as <- <-; exists b; repeat split; auto].
  query; [|injection H as <- <-; exists b; repeat split; auto].
  query; [|injection H as <- <-; exists b; repeat split; auto].
  match goal with
  | Hu : Prisma.update _ _ _ _ = Some _ |- _ =>
      apply update_found in Hu as (b0 & Hb0 & -> & Hb'); [|reflexivity]
  end.
  rewrite Hb in Hb0. injection Hb0 as <-.
  assert (PrismaClient.board db' = l) as ->
    by (query; injection H as <- <-; reflexivity).
  eexists. split; [exact Hb'|].
  cbn. repeat split; try intros ->; reflexivity.
Qed.

Lemma stage_update_frame (ctx : Context) (input : StageUpdate.t)
      (db db' : PrismaClient.t) (r : Completion StageResult.t) (s : Stage.t) :
  stageRouter.update ctx input db = (r, db') ->
  Prisma.findUnique Stage.externalID (StageUpdate.externalID input) (PrismaClient.stage db)
  = Some s ->
  exists s',
    Prisma.findUnique Stage.externalID (StageUpdate.externalID input)
      (PrismaClient.stage db') = Some s'
    /\ Stage.externalID s' = Stage.externalID s
    /\ Stage.createdBy s' = Stage.createdBy s
    /\ Stage.board s' = Stage.board s
    /\ Stage.deleted s' = Stage.deleted s.
Proof.
  unfold stageRouter.update. intros H Hs.
  destruct ctx as [[u|]]; run; [|injection H as <- <-; exists s; repeat split; auto].
  query; [|injection H as <- <-; exists s; repeat split; auto].
  query; [|injection H as <- <-; exists s; repeat split; auto].
  match goal with
  | Hu : Prisma.update _ _ _ _ = Some _ |- _ =>
      apply update_found in Hu as (s0 & Hs0 & -> & Hs'); [|reflexivity]
  end.
  rewrite Hs in Hs0. injection Hs0 as <-.
  assert (PrismaClient.stage db' = l) as ->
    by (repeat query; injection H as <- <-; reflexivity).
  eexists. split; [exact Hs'|]. cbn. repeat split.
Qed.

(** A failed [task.update] has written nothing. *)
Lemma task_update_throw (ctx : Context) (input : TaskUpdate.t)
      (db db' : PrismaClient.t) (e : Exn) :
  taskRouter.update ctx input db = (Throw e, db') -> db' = db.
Proof.
  unfold taskRouter.update. intros H.
  destruct ctx as [[u|]]; run; [|now injection H].
  repeat (query; try (now injection H)).
Qed.

(** What a successful [task.update] read, returned and wrote. *)
Lemma task_update_return (ctx : Context) (input : TaskUpdate.t)
      (db db' : PrismaClient.t) (out : TaskDetail.t) :
  taskRouter.update ctx input db = (Return out, db') ->
  exists u t0,
    user ctx = Some u
    /\ Prisma.findFirst
         (fun t => (Task.externalID t =? TaskUpdate.externalID input)
                   && taskRouter.owned u t) (PrismaClient.task db)
       = Some (TaskDetail.task out)
    /\ Prisma.findUnique User.externalID (Task.createdBy (TaskDetail.task out))
         (PrismaClient.user db) = Some (TaskDetail.createdBy out)
    /\ Prisma.findUnique Stage.externalID (Task.stage (TaskDetail.task out))
         (PrismaClient.stage db) = Some (TaskDetail.stage out)
    /\ Prisma.findUnique Board.externalID (Stage.board (TaskDetail.stage out))
         (PrismaClient.board db) = Some (TaskDetail.board out)
    /\ Prisma.findUnique Task.externalID (TaskUpdate.externalID input)
         (PrismaClient.task db) = Some t0
    /\ Prisma.findUnique Task.externalID (TaskUpdate.externalID input)
         (PrismaClient.task db') = Some (taskRouter.update_data input out t0)
    /\ db' = with_task (PrismaClient.task db') db.
Proof.
  unfold taskRouter.update. intros H.
  destruct ctx as [[u|]]; run; [|discriminate].
  repeat (query; try discriminate).
  injection H as <- <-.
  match goal with
  | Hu : Prisma.update _ _ _ _ = Some _ |- _ =>
      apply update_found in Hu as (row & Hrow & _ & Hrow'); [|reflexivity]
  end.
  exists u, row. cbn. repeat split; auto.
Qed.

Lemma owned_task_is_stored (u : User.t) (id : string) (t : Task.t) (ts : list Task.t) :
  Prisma.unique Task.externalID ts = true ->
  Prisma.findFirst (fun t => (Task.externalID t =? id) && taskRouter.owned u t) ts
  = Some t ->
  Prisma.findUnique Task.externalID id ts = Some t.
Proof.
  intros Huniq Hfind. apply findFirst_In in Hfind as [Hin Hp].
  apply andb_true_iff in Hp as [Hid _]. apply String.eqb_eq in Hid. subst id.
  now apply findUnique_of_In.
Qed.

Lemma task_update_frame (ctx : Context) (input : TaskUpdate.t)
      (db db' : PrismaClient.t) (r : Completion TaskDetail.t) (t : Task.t) :
  Prisma.unique Task.externalID (PrismaClient.task db) = true ->
  taskRouter.update ctx input db = (r, db') ->
  Prisma.findUnique Task.externalID (TaskUpdate.externalID input) (PrismaClient.task db)
  = Some t ->
  exists t',
    Prisma.findUnique Task.externalID (TaskUpdate.externalID input)
      (PrismaClient.task db') = Some t'
    /\ (TaskUpdate.title input = None -> Task.title t' = Task.title t)
    /\ (TaskUpdate.description input = None -> Task.description t' = Task.description t)
    /\ (TaskUpdate.dueDate input = None -> Task.dueDate t' = Task.dueDate t)
    /\ (TaskUpdate.priority input = None -> Task.priority t' = Task.priority t)
    /\ (TaskUpdate.stageExternalID input = None -> Task.stage t' = Task.stage t)
    /\ Task.externalID t' = Task.externalID t
    /\ Task.createdBy t' = Task.createdBy t
    /\ Task.deleted t' = Task.deleted t.
Proof.
  intros Huniq H Ht. destruct r as [out|e].
  - apply task_update_return in H
      as (u & t0 & _ & Hfirst & _ & Hstage & _ & Ht0 & Ht' & _).
    apply owned_task_is_stored in Hfirst; [|assumption].
    rewrite Ht in Ht0, Hfirst. injection Ht0 as <-. injection Hfirst as Hout.
    apply findUnique_In in Hstage as [_ Hstage].
    eexists. split; [exact Ht'|].
    unfold taskRouter.update_data. rewrite <- Hout in *. cbn.
    repeat split; try intros ->; auto.
  - apply task_update_throw in H. subst db'. exists t. repeat split; auto.
Qed.

(** C4 — Partial update.  After [update] on a board, stage or task, whether
    it succeeds or fails, every column that the input leaves [undefined] or
    [null] holds the value it held before, whatever that value is (priority
    [0] and an empty description included); the columns outside the input are
    untouched.  For a task the identifiers of the task table are taken to be
    unique. *)
Theorem partial_update_keeps_unspecified :
  (forall ctx input db r db' b,
      boardRouter.update ctx input db = (r, db') ->
      Prisma.findUnique Board.externalID (BoardUpdate.externalID input)
        (PrismaClient.board db) = Some b ->
      exists b',
        Prisma.findUnique Board.externalID (BoardUpdate.externalID input)
          (PrismaClient.board db') = Some b'
        /\ (BoardUpdate.title input = None -> Board.title b' = Board.title b)
        /\ (BoardUpdate.description input = None ->
            Board.description b' = Board.description b)
        /\ Board.externalID b' = Board.externalID b
        /\ Board.createdBy b' = Board.createdBy b
        /\ Board.deleted b' = Board.deleted b)
  /\ (forall ctx input db r db' s,
      stageRouter.update ctx input db = (r, db') ->
      Prisma.findUnique Stage.externalID (StageUpdate.externalID input)
        (PrismaClient.stage db) = Some s ->
      exists s',
        Prisma.findUnique Stage.externalID (StageUpdate.externalID input)
          (PrismaClient.stage db') = Some s'
        /\ Stage.externalID s' = Stage.externalID s
        /\ Stage.createdBy s' = Stage.createdBy s
        /\ Stage.board s' = Stage.board s
        /\ Stage.deleted s' = Stage.deleted s)
  /\ (forall ctx input db r db' t,
      Prisma.unique Task.externalID (PrismaClient.task db) = true ->
      taskRouter.update ctx input db = (r, db') ->
      Prisma.findUnique Task.externalID (TaskUpdate.externalID input)
        (PrismaClient.task db) = Some t ->
      exists t',
        Prisma.findUnique Task.externalID (TaskUpdate.externalID input)
          (PrismaClient.task db') = Some t'
        /\ (TaskUpdate.title input = None -> Task.title t' = Task.title t)
        /\ (TaskUpdate.description input = None ->
            Task.description t' = Task.description t)
        /\ (TaskUpdate.dueDate input = None -> Task.dueDate t' = Task.dueDate t)
        /\ (TaskUpdate.priority input = None -> Task.priority t' = Task.priority t)
        /\ (TaskUpdate.stageExternalID input = None -> Task.stage t' = Task.stage t)
        /\ Task.externalID t' = Task.externalID t
        /\ Task.createdBy t' = Task.createdBy t
        /\ Task.deleted t' = Task.deleted t).
Proof.
  split; [|split]; intros.
  - eapply board_update_frame; eauto.
  - eapply stage_update_frame; eauto.
  - eapply task_update_frame; eauto.
Qed.

(** Alice renames her task ["t-1"] and leaves everything else [null]: the
    priority [0] and the empty description stay. *)
Lemma partial_update_keeps_unspecified_witness :
  let input := TaskUpdate.mk "t-1" (Some "Write the spec") None None None None in
  let run := taskRouter.update Sample.as_alice input Sample.db in
  exists t',
    Prisma.findUnique Task.externalID "t-1" (PrismaClient.task (snd run)) = Some t'
    /\ Task.description t' = Some ""
    /\ Task.dueDate t' = 1000%Z
    /\ Task.priority t' = 0%Z
    /\ Task.stage t' = "s-1".
Proof.
  intros input run.
  destruct partial_update_keeps_unspecified as (_ & _ & Htask).
  destruct (Htask Sample.as_alice input Sample.db (fst run) (snd run) Sample.write_spec
              eq_refl (surjective_pairing run) eq_refl)
    as (t' & Hfind & _ & Hdescription & HdueDate & Hpriority & Hstage & _).
  exists t'. split; [exact Hfind|].
  rewrite Hdescription, HdueDate, Hpriority, Hstage by reflexivity.
  repeat split.
Defined.

(** * What [task.update] returns *)

(** C9 — A successful [task.update] returns the record it fetched before
    writing: the answer [task.get] gives on the database before the call,
    built on the row stored there.  So whenever the write changes the stored
    row, the returned task is not the row now stored. *)
Theorem task_update_returns_fetched (ctx : Context) (input : TaskUpdate.t)
        (db db' : PrismaClient.t) (out : TaskDetail.t) :
  Prisma.unique Task.externalID (PrismaClient.task db) = true ->
  taskRouter.update ctx input db = (Return out, db') ->
  taskRouter.get ctx (TaskUpdate.externalID input) db = (Return out, db)
  /\ Prisma.findUnique Task.externalID (TaskUpdate.externalID input) (PrismaClient.task db)
     = Some (TaskDetail.task out)
  /\ Prisma.findUnique Task.externalID (TaskUpdate.externalID input) (PrismaClient.task db')
     = Some (taskRouter.update_data input out (TaskDetail.task out))
  /\ (taskRouter.update_data input out (TaskDetail.task out) <> TaskDetail.task out ->
      Prisma.findUnique Task.externalID (TaskUpdate.externalID input)
        (PrismaClient.task db') <> Some (TaskDetail.task out)).
Proof.
  intros Huniq H.
  apply task_update_return in H
    as (u & t0 & Hu & Hfirst & Hc & Hs & Hb & Ht0 & Ht' & _).
  pose proof (owned_task_is_stored _ _ _ _ Huniq Hfirst) as Hstored.
  rewrite Hstored in Ht0. injection Ht0 as <-.
  repeat split; try assumption.
  - unfold taskRouter.get. destruct ctx as [cu]. simpl in Hu. subst cu.
    run. rewrite Hfirst. run. rewrite Hc. run. rewrite Hs. run. rewrite Hb.
    destruct out; reflexivity.
  - rewrite Ht'. intros Hchanged Heq. apply Hchanged. now injection Heq.
Qed.

(** Alice renames ["t-1"]; the call answers with the old title. *)
Lemma task_update_returns_fetched_witness :
  let input := TaskUpdate.mk "t-1" (Some "Write the spec") None None None None in
  exists out db',
    taskRouter.update Sample.as_alice input Sample.db = (Return out, db')
    /\ Task.title (TaskDetail.task out) = "Write spec"
    /\ Prisma.findUnique Task.externalID "t-1" (PrismaClient.task db')
       = Some (Task.mk "t-1" "Write the spec" (Some "") 1000 0 "u-alice" "s-1" false)
    /\ Prisma.findUnique Task.externalID "t-1" (PrismaClient.task db')
       <> Some (TaskDetail.task out).
Proof.
  intros input.
  pose (run := taskRouter.update Sample.as_alice input Sample.db).
  assert (run = (Return (TaskDetail.mk Sample.write_spec Sample.alice Sample.todo
                           Sample.sprint), snd run)) as Hrun by reflexivity.
  destruct (task_update_returns_fetched Sample.as_alice input Sample.db (snd run) _
              eq_refl Hrun) as (_ & _ & Hafter & Hdiffers).
  eexists. exists (snd run). split; [exact Hrun|].
  split; [reflexivity|]. split; [exact Hafter|].
  apply Hdiffers. discriminate.
Defined.

(** * The user router acts on the caller *)

Lemma updateUser_frame `{Bcrypt} (salt : string) (ctx : Context) (input : UserUpdate.t)
      (db db' : PrismaClient.t) (r : Completion Profile.t) (id : string) :
  userRouter.updateUser salt ctx input db = (r, db') ->
  ~ is_owner ctx id ->
  Prisma.findUnique User.externalID id (PrismaClient.user db')
  = Prisma.findUnique User.externalID id (PrismaClient.user db)
  /\ PrismaClient.board db' = PrismaClient.board db
  /\ PrismaClient.stage db' = PrismaClient.stage db
  /\ PrismaClient.task db' = PrismaClient.task db.
Proof.
  unfold userRouter.updateUser. intros Hrun Hother.
  destruct ctx as [[u|]]; run; [|injection Hrun as <- <-; auto].
  query; [|injection Hrun as <- <-; auto].
  query; injection Hrun as <- <-; auto.
  cbn. repeat split.
  match goal with
  | Hu : Prisma.update _ _ _ _ = Some _ |- _ =>
      eapply update_other in Hu; [exact Hu|reflexivity|]
  end.
  intros ->. apply Hother. exists u. auto.
Qed.

Lemma deleteUser_frame (ctx : Context) (externalID : string)
      (db db' : PrismaClient.t) (r : Completion unit) (id : string) :
  userRouter.deleteUser ctx externalID db = (r, db') ->
  ~ is_owner ctx id ->
  Prisma.findUnique User.externalID id (PrismaClient.user db')
  = Prisma.findUnique User.externalID id (PrismaClient.user db)
  /\ PrismaClient.board db' = PrismaClient.board db
  /\ PrismaClient.stage db' = PrismaClient.stage db
  /\ PrismaClient.task db' = PrismaClient.task db.
Proof.
  unfold userRouter.deleteUser. intros Hrun Hother.
  destruct ctx as [[u|]]; run; [|injection Hrun as <- <-; auto].
  query; injection Hrun as <- <-; auto.
  cbn. repeat split.
  match goal with
  | Hu : Prisma.update _ _ _ _ = Some _ |- _ =>
      eapply update_other in Hu; [exact Hu|reflexivity|]
  end.
  intros ->. apply Hother. exists u. auto.
Qed.

(** C10 — [user.updateUser] and [user.deleteUser] give the same response and
    the same database for any two values of [input.externalID]; the only user
    row they can change is the caller's, and no other table is touched. *)
Theorem user_procedures_act_on_caller `{Bcrypt} :
  (forall salt ctx db id1 id2 name email password,
      userRouter.updateUser salt ctx (UserUpdate.mk id1 name email password) db
      = userRouter.updateUser salt ctx (UserUpdate.mk id2 name email password) db)
  /\ (forall ctx db id1 id2,
      userRouter.deleteUser ctx id1 db = userRouter.deleteUser ctx id2 db)
  /\ (forall salt ctx input db r db' id,
      userRouter.updateUser salt ctx input db = (r, db') ->
      ~ is_owner ctx id ->
      Prisma.findUnique User.externalID id (PrismaClient.user db')
      = Prisma.findUnique User.externalID id (PrismaClient.user db)
      /\ PrismaClient.board db' = PrismaClient.board db
      /\ PrismaClient.stage db' = PrismaClient.stage db
      /\ PrismaClient.task db' = PrismaClient.task db)
  /\ (forall ctx externalID db r db' id,
      userRouter.deleteUser ctx externalID db = (r, db') ->
      ~ is_owner ctx id ->
      Prisma.findUnique User.externalID id (PrismaClient.user db')
      = Prisma.findUnique User.externalID id (PrismaClient.user db)
      /\ PrismaClient.board db' = PrismaClient.board db
      /\ PrismaClient.stage db' = PrismaClient.stage db
      /\ PrismaClient.task db' = PrismaClient.task db).
Proof.
  split; [|split; [|split]].
  - reflexivity.
  - reflexivity.
  - intros. eapply updateUser_frame; eauto.
  - intros. eapply deleteUser_frame; eauto.
Qed.

(** Alice calls [deleteUser] with Bob's identifier in the input: Bob's row
    stays, hers is flagged. *)
Lemma user_procedures_act_on_caller_witness :
  let run := userRouter.deleteUser Sample.as_alice "u-bob" Sample.db in
  run = userRouter.deleteUser Sample.as_alice "u-alice" Sample.db
  /\ Prisma.findUnique User.externalID "u-bob" (PrismaClient.user (snd run))
     = Some Sample.bob
  /\ option_map User.deleted
       (Prisma.findUnique User.externalID "u-alice" (PrismaClient.user (snd run)))
     = Some true.
Proof.
  intros run.
  destruct (user_procedures_act_on_caller (H := Sample.bcrypt))
    as (_ & Hsame & _ & Hframe).
  split; [apply Hsame|].
  destruct (Hframe Sample.as_alice "u-bob" Sample.db (fst run) (snd run) "u-bob"
              (surjective_pairing run)) as (Hbob & _).
  - intros (u & Hu & Heq). injection Hu as <-. discriminate.
  - rewrite Hbob. split; reflexivity.
Defined.

(** * Login and the context builder *)

Lemma sample_read_bits (p : positive) (rest : string) :
  Sample.read_bits (Sample.bits p ++ String "."%char rest) = Some (p, rest).
Proof. induction p as [p IH|p IH|]; simpl; try rewrite IH; reflexivity. Qed.

Lemma sample_strip (key rest : string) : Sample.strip key (key ++ rest) = Some rest.
Proof.
  induction key as [|a key IH]; simpl; [reflexivity|].
  now rewrite Ascii.eqb_refl.
Qed.

Lemma sample_decode (payload : JwtPayload) :
  Sample.decode (Sample.encode payload) = Some payload.
Proof. destruct payload as [s|[id|]]; reflexivity. Qed.

Lemma sample_round_trip : jwt_round_trip (H := Sample.jsonwebtoken).
Proof.
  intros payload secret expiresIn iat clock [_ Hclock]. simpl.
  unfold Sample.verify, Sample.sign. simpl.
  rewrite sample_read_bits, N.pos_pred_succ.
  apply N.ltb_lt in Hclock. rewrite Hclock.
  now rewrite sample_strip, sample_decode.
Qed.

Lemma sample_nonempty : jwt_nonempty (H := Sample.jsonwebtoken).
Proof.
  intros payload secret expiresIn iat. simpl. unfold Sample.sign.
  destruct (Sample.bits _); discriminate.
Qed.

Section Login.
Context {bcrypt : Bcrypt} {jwt : Jsonwebtoken}.
Variable env : Env.
Variable db : PrismaClient.t.
Variable u : User.t.
Variable input : Login.t.
Hypothesis Hknown : findUnique_username (Login.username input) (PrismaClient.user db) = Some u.

Lemma login_wrong_password (clock : N) (ctx : Context) :
  bcrypt_compare (Login.password input) (User.password u) = false ->
  authRouter.login env clock ctx input db
  = (Throw (TRPCError INTERNAL_SERVER_ERROR), db)
  /\ authRouter_mjs.login env clock ctx input db = (Throw (TRPCError BAD_REQUEST), db).
Proof.
  intros Hwrong.
  unfold authRouter.login, authRouter_mjs.login, login_resolver. run.
  now rewrite Hknown, Hwrong.
Qed.

Lemma login_token (clock : N) (ctx : Context) :
  bcrypt_compare (Login.password input) (User.password u) = true ->
  let token := jwt_sign (JwtObject (Some (User.externalID u))) (JWT_SECRET env)
                 one_day clock in
  authRouter.login env clock ctx input db = (Return token, db)
  /\ authRouter_mjs.login env clock ctx input db = (Return token, db).
Proof.
  intros Hright.
  unfold authRouter.login, authRouter_mjs.login, login_resolver. run.
  now rewrite Hknown, Hright.
Qed.

Hypothesis Hround_trip : jwt_round_trip.
Hypothesis Hnonempty : jwt_nonempty.
Hypothesis Hunique : Prisma.unique User.externalID (PrismaClient.user db) = true.

(** The token of a login at [iat], presented within a day, resolves to the
    user who logged in. *)
Lemma login_token_resolves (iat clock : N) (headers : Headers) :
  bearer headers
  = Some (jwt_sign (JwtObject (Some (User.externalID u))) (JWT_SECRET env) one_day iat) ->
  (iat <= clock < iat + one_day)%N ->
  createContext env clock headers db = (Return {| user := Some u |}, db).
Proof.
  intros Hbearer Hwindow. unfold createContext. rewrite Hbearer.
  destruct (String.eqb_spec
              (jwt_sign (JwtObject (Some (User.externalID u))) (JWT_SECRET env) one_day iat)
              "") as [Hempty|_]; [now apply Hnonempty in Hempty|].
  run. rewrite (Hround_trip _ _ _ _ _ Hwindow). run.
  apply find_some in Hknown as [Hin _].
  now rewrite (findUnique_of_In _ _ _ _ Hunique Hin).
Qed.

(** The builder of src/context.ts throws on the same token: it hands the
    payload object to the query. *)
Lemma login_token_context_ts (iat clock : N) (headers : Headers) :
  bearer headers
  = Some (jwt_sign (JwtObject (Some (User.externalID u))) (JWT_SECRET env) one_day iat) ->
  (iat <= clock < iat + one_day)%N ->
  context_ts.createContext env clock headers db = (Throw PrismaClientValidationError, db).
Proof.
  intros Hbearer Hwindow. unfold context_ts.createContext. rewrite Hbearer.
  destruct (String.eqb_spec
              (jwt_sign (JwtObject (Some (User.externalID u))) (JWT_SECRET env) one_day iat)
              "") as [Hempty|_]; [now apply Hnonempty in Hempty|].
  run. now rewrite (Hround_trip _ _ _ _ _ Hwindow).
Qed.

End Login.

Lemma find_snoc {A} (p : A -> bool) (l : list A) (x : A) :
  find p l = None -> p x = true -> find p (l ++ [x]) = Some x.
Proof.
  induction l as [|h t IH]; simpl; intros Hnone Hx; [now rewrite Hx|].
  destruct (p h); [discriminate|]. now apply IH.
Qed.

(** The password given to [auth.register] is the one [auth.login] accepts
    afterwards. *)
Lemma register_then_login `{Bcrypt} `{Jsonwebtoken} (env : Env) (uuid salt : string)
      (ctx ctx' : Context) (input : Register.t) (clock : N)
      (db db' : PrismaClient.t) (created : Profile.t) :
  bcrypt_accepts_own_hash ->
  authRouter.register uuid salt ctx input db = (Return created, db') ->
  authRouter.login env clock ctx'
    (Login.mk (Register.username input) (Register.password input)) db'
  = (Return (jwt_sign (JwtObject (Some uuid)) (JWT_SECRET env) one_day clock), db').
Proof.
  intros Hbcrypt Hregister.
  unfold authRouter.register, register_resolver in Hregister. run.
  repeat (query; try discriminate). injection Hregister as _ <-.
  match goal with
  | Hc : user_create _ _ = Some _ |- _ =>
      unfold user_create in Hc; destruct (existsb _ _); [discriminate|];
      apply create_In in Hc; subst
  end.
  unfold authRouter.login, login_resolver, findUnique_username. run.
  erewrite find_snoc; [| eassumption | apply String.eqb_refl]. run.
  now rewrite Hbcrypt.
Qed.

(** C7 — Login round trip.  For an existing username, [auth.login] with a
    password that [bcrypt.compare] rejects ends in an error; with a password it
    accepts, [auth.login] returns a token, and a request presenting that token
    as its bearer token within one day builds the context of that user. *)
Theorem login_round_trip `{Bcrypt} `{Jsonwebtoken}
        (env : Env) (db : PrismaClient.t) (u : User.t) (input : Login.t)
        (iat : N) (ctx : Context) :
  jwt_round_trip ->
  jwt_nonempty ->
  Prisma.unique User.externalID (PrismaClient.user db) = true ->
  findUnique_username (Login.username input) (PrismaClient.user db) = Some u ->
  (bcrypt_compare (Login.password input) (User.password u) = false ->
   exists code, authRouter.login env iat ctx input db = (Throw (TRPCError code), db))
  /\ (bcrypt_compare (Login.password input) (User.password u) = true ->
      exists token,
        authRouter.login env iat ctx input db = (Return token, db)
        /\ forall clock headers,
             bearer headers = Some token ->
             (iat <= clock < iat + one_day)%N ->
             createContext env clock headers db = (Return {| user := Some u |}, db)).
Proof.
  intros Hround_trip Hnonempty Hunique Hknown. split; intros Hcompare.
  - exists INTERNAL_SERVER_ERROR. now apply (login_wrong_password env db u input Hknown).
  - eexists. split.
    + now apply (login_token env db u input Hknown).
    + intros clock headers Hbearer Hwindow.
      now apply (login_token_resolves env db u input Hknown Hround_trip Hnonempty Hunique iat).
Qed.

(** Alice logs in at time [100] and presents her token one hour later; a
    wrong password is turned away. *)
Lemma login_round_trip_witness :
  let login := authRouter.login (bcrypt := Sample.bcrypt) (jwt := Sample.jsonwebtoken)
                 Sample.env 100 Sample.anonymous in
  (exists code,
      login (Login.mk "alice" "looking-glass") Sample.db
      = (Throw (TRPCError code), Sample.db))
  /\ exists token,
      login (Login.mk "alice" "wonderland") Sample.db = (Return token, Sample.db)
      /\ createContext (jwt := Sample.jsonwebtoken) Sample.env 3700
           {| authorization := Some ("Bearer " ++ token) |} Sample.db
         = (Return Sample.as_alice, Sample.db).
Proof.
  intros login. split.
  - apply (login_round_trip (H := Sample.bcrypt) (H0 := Sample.jsonwebtoken)
             Sample.env Sample.db Sample.alice (Login.mk "alice" "looking-glass")
             100 Sample.anonymous sample_round_trip sample_nonempty eq_refl eq_refl).
    reflexivity.
  - destruct (login_round_trip (H := Sample.bcrypt) (H0 := Sample.jsonwebtoken)
                Sample.env Sample.db Sample.alice (Login.mk "alice" "wonderland")
                100 Sample.anonymous sample_round_trip sample_nonempty eq_refl eq_refl)
      as [_ Hright].
    destruct (Hright eq_refl) as (token & Hlogin & Hcontext).
    exists token. split; [exact Hlogin|].
    apply Hcontext; [|split; [discriminate | reflexivity]].
    unfold login in Hlogin. vm_compute in Hlogin. injection Hlogin as <-. reflexivity.
Defined.

(** The sample library rejects the token ["garbage"], and the token of a
    login at time [0] once the day is over. *)
Lemma sample_invalid_tokens :
  jwt_verify (Jsonwebtoken := Sample.jsonwebtoken) "garbage" "secret" 0%N = None
  /\ jwt_verify (Jsonwebtoken := Sample.jsonwebtoken)
       (jwt_sign (Jsonwebtoken := Sample.jsonwebtoken)
          (JwtObject (Some "u-alice")) "secret" one_day 0%N) "secret" 86400%N = None.
Proof. split; reflexivity. Qed.

(** C8 as stated fails: a request with the invalid bearer token ["garbage"],
    or with Alice's token after it has expired, makes [createContext] throw;
    no anonymous context is returned. *)
Lemma createContext_throws_on_invalid_token :
  let build := createContext (jwt := Sample.jsonwebtoken) Sample.env in
  let expired := jwt_sign (Jsonwebtoken := Sample.jsonwebtoken)
                   (JwtObject (Some "u-alice")) "secret" one_day 0%N in
  bearer {| authorization := Some "Bearer garbage" |} = Some "garbage"
  /\ build 0%N {| authorization := Some "Bearer garbage" |} Sample.db
     = (Throw JsonWebTokenError, Sample.db)
  /\ build 0%N {| authorization := Some "Bearer garbage" |} Sample.db
     <> (Return {| user := None |}, Sample.db)
  /\ build 86400%N {| authorization := Some ("Bearer " ++ expired) |} Sample.db
     = (Throw JsonWebTokenError, Sample.db).
Proof. repeat split. discriminate. Qed.

(** C8, amended — [createContext] returns the anonymous context exactly when
    the request carries no bearer token: no [Authorization] header, or no
    non-empty second part after splitting it at spaces.  When the request
    carries a token that [jwt.verify] rejects, both builders throw the
    verification error; the database is untouched either way. *)
Theorem createContext_on_bad_token `{Jsonwebtoken}
        (env : Env) (clock : N) (headers : Headers) (db : PrismaClient.t) :
  (bearer headers = None \/ bearer headers = Some "" ->
   createContext env clock headers db = (Return {| user := None |}, db)
   /\ context_ts.createContext env clock headers db = (Return {| user := None |}, db))
  /\ (forall token,
        bearer headers = Some token ->
        token <> "" ->
        jwt_verify token (JWT_SECRET env) clock = None ->
        createContext env clock headers db = (Throw JsonWebTokenError, db)
        /\ context_ts.createContext env clock headers db = (Throw JsonWebTokenError, db)).
Proof.
  unfold createContext, context_ts.createContext. split.
  - intros [-> | ->]; split; reflexivity.
  - intros token -> Hnonempty Hinvalid.
    apply String.eqb_neq in Hnonempty. rewrite Hnonempty. run.
    rewrite Hinvalid. split; reflexivity.
Qed.

(** A request without the header, one with the bare word ["Bearer"], and one
    with the token ["garbage"]. *)
Lemma createContext_on_bad_token_witness :
  let build := createContext (jwt := Sample.jsonwebtoken) Sample.env 0%N in
  build {| authorization := None |} Sample.db = (Return Sample.anonymous, Sample.db)
  /\ build {| authorization := Some "Bearer" |} Sample.db
     = (Return Sample.anonymous, Sample.db)
  /\ build {| authorization := Some "Bearer garbage" |} Sample.db
     = (Throw JsonWebTokenError, Sample.db).
Proof.
  intros build.
  pose proof (createContext_on_bad_token (H := Sample.jsonwebtoken) Sample.env 0%N)
    as Hbuild.
  split; [|split].
  - destruct (Hbuild {| authorization := None |} Sample.db) as [Habsent _].
    now apply Habsent; left.
  - destruct (Hbuild {| authorization := Some "Bearer" |} Sample.db) as [Habsent _].
    now apply Habsent; left.
  - destruct (Hbuild {| authorization := Some "Bearer garbage" |} Sample.db)
      as [_ Hinvalid].
    apply (Hinvalid "garbage"); [reflexivity | discriminate | reflexivity].
Defined.

(** * Unique identifiers are an invariant *)

Lemma mapM_readonly {A B} (f : A -> Async B) :
  (forall a db, snd (f a db) = db) ->
  forall l db, snd (mapM f l db) = db.
Proof.
  intros Hf. induction l as [|a l IH]; intros db; [reflexivity|].
  simpl. unfold bind. specialize (Hf a db).
  destruct (f a db) as [[b|e] db1]; simpl in Hf; subst db1; [|reflexivity].
  specialize (IH db). destruct (mapM f l db) as [[bs|e] db2]; simpl in IH; now subst db2.
Qed.

Lemma board_include_readonly (b : Board.t) (db : PrismaClient.t) :
  snd (board_include b db) = db.
Proof. run. now destruct (Prisma.findUnique _ _ _). Qed.

Lemma stage_include_readonly (s : Stage.t) (db : PrismaClient.t) :
  snd (stage_include s db) = db.
Proof. run. repeat (destruct (Prisma.findUnique _ _ _); try reflexivity). Qed.

Lemma task_include_readonly (t : Task.t) (db : PrismaClient.t) :
  snd (task_include t db) = db.
Proof. run. repeat (destruct (Prisma.findUnique _ _ _); try reflexivity). Qed.

Lemma user_create_unique (u : User.t) (us us' : list User.t) :
  user_create u us = Some us' ->
  Prisma.unique User.externalID us = true ->
  Prisma.unique User.externalID us' = true.
Proof.
  unfold user_create. destruct (existsb _ us); [discriminate|]. apply create_unique.
Qed.

(** Closes a goal [unique_ids db' = true] from the write that produced [db']. *)
Ltac still_unique :=
  match goal with
  | Hdb : unique_ids ?db = true |- unique_ids ?db = true => exact Hdb
  | Hdb : unique_ids ?db = true |- unique_ids _ = true =>
      apply unique_ids_tables in Hdb as (Hu & Hb & Hs & Ht);
      unfold unique_ids; cbn [PrismaClient.user PrismaClient.board PrismaClient.stage
                               PrismaClient.task with_user with_board with_stage with_task];
      repeat match goal with
        | Hc : Prisma.create _ _ _ = Some _ |- _ =>
            apply create_unique in Hc; [rewrite Hc|assumption]
        | Hc : user_create _ _ = Some _ |- _ =>
            apply user_create_unique in Hc; [rewrite Hc|assumption]
        | Hw : Prisma.update _ _ _ _ = Some _ |- _ =>
            apply update_unique in Hw; [rewrite Hw|reflexivity]
        end;
      now rewrite ?Hu, ?Hb, ?Hs, ?Ht
  end.

Ltac settle H :=
  try (injection H as <- <-; still_unique).

(** X5 — Unique identifiers are an invariant of the system: if no table
    holds two rows with the same [externalID] before a call, none does after
    it, whatever the procedure, the caller and the outcome. *)
Theorem unique_ids_preserved `{Bcrypt} `{Jsonwebtoken}
        (env : Env) (d : Draws) (ctx : Context) (req : Request)
        (db db' : PrismaClient.t) (r : Completion Response) :
  unique_ids db = true ->
  call env d ctx req db = (r, db') ->
  unique_ids db' = true.
Proof.
  intros Hdb Hcall.
  destruct req; unfold call in Hcall.
  all: unfold authRouter.register, authRouter.login, register_resolver, login_resolver,
         userRouter.me, userRouter.updateUser, userRouter.deleteUser,
         boardRouter.list, boardRouter.get, boardRouter.create, boardRouter.update,
         boardRouter.delete, stageRouter.list, stageRouter.get, stageRouter.create,
         stageRouter.update, stageRouter.delete, taskRouter.list, taskRouter.get,
         taskRouter.create, taskRouter.update, taskRouter.delete in Hcall.
  all: destruct ctx as [[u|]]; run; settle Hcall.
  all: repeat (query; settle Hcall).
  all: match type of Hcall with
       | context [mapM ?f ?l ?db] =>
           assert (snd (mapM f l db) = db) as Hsame
             by (apply mapM_readonly; intros; cbv beta;
                 repeat match goal with
                   | |- context [Prisma.findUnique ?k ?i ?rows] =>
                       destruct (Prisma.findUnique k i rows)
                   end; reflexivity);
           destruct (mapM f l db) as [[?|?] ?]
       end; cbn [snd] in Hsame; subst; settle Hcall.
Qed.

(** Alice creates a second board titled ["Sprint 1"]. *)
Lemma unique_ids_preserved_witness :
  let d := {| uuid := "b-9"; salt := "salt"; now := 0%Z; clock := 0%N |} in
  let run := call (bcrypt := Sample.bcrypt) (jwt := Sample.jsonwebtoken) Sample.env d
               Sample.as_alice (board_create (BoardCreate.mk "Sprint 1" None)) Sample.db in
  board_ids (snd run) = ["b-1"; "b-2"; "b-9"]
  /\ unique_ids (snd run) = true.
Proof.
  intros d run. split; [reflexivity|].
  apply (unique_ids_preserved (H := Sample.bcrypt) (H0 := Sample.jsonwebtoken)
           Sample.env d Sample.as_alice (board_create (BoardCreate.mk "Sprint 1" None))
           Sample.db (snd run) (fst run) eq_refl).
  apply surjective_pairing.
Defined.

(** * The rows a query answers with *)

Lemma mapM_proj {A B} (f : A -> Async B) (proj : B -> A) :
  (forall a db b db', f a db = (Return b, db') -> proj b = a) ->
  forall l db outs db', mapM f l db = (Return outs, db') -> map proj outs = l.
Proof.
  intros Hf. induction l as [|a l IH]; intros db outs db' H.
  - injection H as <- _. reflexivity.
  - simpl in H. unfold bind in H.
    destruct (f a db) as [[b|e] db1] eqn:Hb; [|discriminate].
    destruct (mapM f l db1) as [[bs|e] db2] eqn:Hbs; [|discriminate].
    injection H as <- _. simpl. f_equal; eauto.
Qed.

Lemma owned_board (u : User.t) (b : Board.t) :
  boardRouter.owned u b = true ->
  Board.deleted b = false /\ Board.createdBy b = User.externalID u.
Proof.
  unfold boardRouter.owned. intros H. apply andb_true_iff in H as [Hd Ho].
  apply negb_true_iff in Hd. now apply String.eqb_eq in Ho.
Qed.

Lemma owned_stage (u : User.t) (s : Stage.t) :
  stageRouter.owned u s = true ->
  Stage.deleted s = false /\ Stage.createdBy s = User.externalID u.
Proof.
  unfold stageRouter.owned. intros H. apply andb_true_iff in H as [Hd Ho].
  apply negb_true_iff in Hd. now apply String.eqb_eq in Ho.
Qed.

Lemma owned_task (u : User.t) (t : Task.t) :
  taskRouter.owned u t = true ->
  Task.deleted t = false /\ Task.createdBy t = User.externalID u.
Proof.
  unfold taskRouter.owned. intros H. apply andb_true_iff in H as [Hd Ho].
  apply negb_true_iff in Hd. now apply String.eqb_eq in Ho.
Qed.

(** The board, stage or task that [list] and [get] answer with is itself
    live and belongs to the caller (the rows loaded by [include] are not
    covered). *)
Lemma board_list_live (ctx : Context) (input : Page) (db db' : PrismaClient.t)
      (outs : list BoardResult.t) (o : BoardResult.t) :
  boardRouter.list ctx input db = (Return outs, db') ->
  In o outs ->
  Board.deleted (BoardResult.board o) = false
  /\ is_owner ctx (Board.createdBy (BoardResult.board o)).
Proof.
  unfold boardRouter.list. intros H Hin.
  destruct ctx as [[u|]]; run; [|discriminate].
  query; [|discriminate].
  match type of H with
  | context [mapM ?f ?l ?db] => destruct (mapM f l db) as [[bs|e] db1] eqn:Hm
  end; [|discriminate].
  injection H as <- _.
  apply (mapM_proj _ BoardResult.board) in Hm.
  - apply (in_map BoardResult.board) in Hin. rewrite Hm in Hin.
    eapply findMany_In in Hin as [_ Howned]; [|eassumption].
    apply owned_board in Howned as [Hd Ho]. split; [assumption|]. exists u. auto.
  - intros a db0 b db0'. cbv beta.
    destruct (Prisma.findUnique _ _ _); [|discriminate].
    intros Hb. now injection Hb as <- _.
Qed.

Lemma board_get_live (ctx : Context) (externalID : string) (db db' : PrismaClient.t)
      (o : BoardDetail.t) :
  boardRouter.get ctx externalID db = (Return o, db') ->
  Board.externalID (BoardDetail.board o) = externalID
  /\ Board.deleted (BoardDetail.board o) = false
  /\ is_owner ctx (Board.createdBy (BoardDetail.board o)).
Proof.
  unfold boardRouter.get. intros H.
  destruct ctx as [[u|]]; run; [|discriminate].
  repeat (query; try discriminate). injection H as <- _. cbn.
  match goal with
  | Hf : Prisma.findFirst _ _ = Some _ |- _ => apply findFirst_In in Hf as [_ Hp]
  end.
  apply andb_true_iff in Hp as [Hid Hp]. apply String.eqb_eq in Hid.
  apply owned_board in Hp as [Hd Ho]. repeat split; auto. exists u. auto.
Qed.

Lemma stage_list_live (ctx : Context) (input : Page) (db db' : PrismaClient.t)
      (outs : list StageResult.t) (o : StageResult.t) :
  stageRouter.list ctx input db = (Return outs, db') ->
  In o outs ->
  Stage.deleted (StageResult.stage o) = false
  /\ is_owner ctx (Stage.createdBy (StageResult.stage o)).
Proof.
  unfold stageRouter.list. intros H Hin.
  destruct ctx as [[u|]]; run; [|discriminate].
  query; [|discriminate].
  match type of H with
  | context [mapM ?f ?l ?db] => destruct (mapM f l db) as [[bs|e] db1] eqn:Hm
  end; [|discriminate].
  injection H as <- _.
  apply (mapM_proj _ StageResult.stage) in Hm.
  - apply (in_map StageResult.stage) in Hin. rewrite Hm in Hin.
    eapply findMany_In in Hin as [_ Howned]; [|eassumption].
    apply owned_stage in Howned as [Hd Ho]. split; [assumption|]. exists u. auto.
  - intros a db0 b db0'. cbv beta.
    repeat (destruct (Prisma.findUnique _ _ _); [|discriminate]).
    intros Hb. now injection Hb as <- _.
Qed.

Lemma stage_get_live (ctx : Context) (externalID : string) (db db' : PrismaClient.t)
      (o : StageDetail.t) :
  stageRouter.get ctx externalID db = (Return o, db') ->
  Stage.externalID (StageDetail.stage o) = externalID
  /\ Stage.deleted (StageDetail.stage o) = false
  /\ is_owner ctx (Stage.createdBy (StageDetail.stage o)).
Proof.
  unfold stageRouter.get. intros H.
  destruct ctx as [[u|]]; run; [|discriminate].
  repeat (query; try discriminate). injection H as <- _. cbn.
  match goal with
  | Hf : Prisma.findFirst _ _ = Some _ |- _ => apply findFirst_In in Hf as [_ Hp]
  end.
  apply andb_true_iff in Hp as [Hid Hp]. apply String.eqb_eq in Hid.
  apply owned_stage in Hp as [Hd Ho]. repeat split; auto. exists u. auto.
Qed.

Lemma task_list_live (ctx : Context) (input : Page) (db db' : PrismaClient.t)
      (outs : list TaskResult.t) (o : TaskResult.t) :
  taskRouter.list ctx input db = (Return outs, db') ->
  In o outs ->
  Task.deleted (TaskResult.task o) = false
  /\ is_owner ctx (Task.createdBy (TaskResult.task o)).
Proof.
  unfold taskRouter.list. intros H Hin.
  destruct ctx as [[u|]]; run; [|discriminate].
  query; [|discriminate].
  match type of H with
  | context [mapM ?f ?l ?db] => destruct (mapM f l db) as [[bs|e] db1] eqn:Hm
  end; [|discriminate].
  injection H as <- _.
  apply (mapM_proj _ TaskResult.task) in Hm.
  - apply (in_map TaskResult.task) in Hin. rewrite Hm in Hin.
    eapply findMany_In in Hin as [_ Howned]; [|eassumption].
    apply owned_task in Howned as [Hd Ho]. split; [assumption|]. exists u. auto.
  - intros a db0 b db0'. cbv beta.
    repeat (destruct (Prisma.findUnique _ _ _); [|discriminate]).
    intros Hb. now injection Hb as <- _.
Qed.

Lemma task_get_live (ctx : Context) (externalID : string) (db db' : PrismaClient.t)
      (o : TaskDetail.t) :
  taskRouter.get ctx externalID db = (Return o, db') ->
  Task.externalID (TaskDetail.task o) = externalID
  /\ Task.deleted (TaskDetail.task o) = false
  /\ is_owner ctx (Task.createdBy (TaskDetail.task o)).
Proof.
  unfold taskRouter.get. intros H.
  destruct ctx as [[u|]]; run; [|discriminate].
  repeat (query; try discriminate). injection H as <- _. cbn.
  match goal with
  | Hf : Prisma.findFirst _ _ = Some _ |- _ => apply findFirst_In in Hf as [_ Hp]
  end.
  apply andb_true_iff in Hp as [Hid Hp]. apply String.eqb_eq in Hid.
  apply owned_task in Hp as [Hd Ho]. repeat split; auto. exists u. auto.
Qed.

(** * Properties of every procedure

    The theorems below look at a call through [call], along every path of
    every resolver. *)

Ltac unfold_call H :=
  unfold call, authRouter.register, authRouter.login, register_resolver, login_resolver,
    userRouter.me, userRouter.updateUser, userRouter.deleteUser,
    boardRouter.list, boardRouter.get, boardRouter.create, boardRouter.update,
    boardRouter.delete, stageRouter.list, stageRouter.get, stageRouter.create,
    stageRouter.update, stageRouter.delete, taskRouter.list, taskRouter.get,
    taskRouter.create, taskRouter.update, taskRouter.delete in H.

(** At the end of a path the run [H] equates two completions. *)
Ltac leaf H fin :=
  first
    [ discriminate H
    | match goal with
      | Hx : None = Some _ |- _ => discriminate Hx
      | Hx : Some _ = None |- _ => discriminate Hx
      end
    | injection H; intros; subst; fin
    | idtac ].

Ltac mapM_step H :=
  match type of H with
  | context [mapM ?f ?l ?db] =>
      let Hsame := fresh "Hsame" in
      assert (snd (mapM f l db) = db) as Hsame
        by (apply mapM_readonly; intros; cbv beta;
            repeat match goal with
              | |- context [Prisma.findUnique ?k ?i ?rows] =>
                  destruct (Prisma.findUnique k i rows)
              end; reflexivity);
      destruct (mapM f l db) as [[?|?] ?] eqn:?; cbn [snd] in Hsame; subst; run
  end.

(** Walks every path of the run [H] and closes its end with [fin]. *)
Ltac walk H fin :=
  run; leaf H fin;
  repeat (query; leaf H fin);
  try (mapM_step H; leaf H fin).

(** X1 — Whatever goes wrong inside a procedure, the caller sees one of two
    errors: [UNAUTHORIZED] from the middleware when the context has no user,
    or [INTERNAL_SERVER_ERROR] from the resolver's [catch].  The [NOT_FOUND]
    and [BAD_REQUEST] errors thrown inside [board.get], [user.updateUser],
    [auth.register] and [auth.login] never reach the caller. *)
Theorem errors_collapse `{Bcrypt} `{Jsonwebtoken}
        (env : Env) (d : Draws) (ctx : Context) (req : Request)
        (db db' : PrismaClient.t) (e : Exn) :
  call env d ctx req db = (Throw e, db') ->
  e = TRPCError INTERNAL_SERVER_ERROR
  \/ (e = TRPCError UNAUTHORIZED /\ user ctx = None /\ is_public req = false).
Proof.
  intros Hcall. destruct req; unfold_call Hcall.
  all: destruct ctx as [[u|]]; walk Hcall ltac:(auto).
Qed.

(** Alice asks for a board that does not exist. *)
Lemma errors_collapse_witness :
  let run := call (bcrypt := Sample.bcrypt) (jwt := Sample.jsonwebtoken) Sample.env
               {| uuid := "b-9"; salt := "salt"; now := 0; clock := 0 |}
               Sample.as_alice (board_get "b-404") Sample.db in
  run = (Throw (TRPCError INTERNAL_SERVER_ERROR), Sample.db)
  /\ (TRPCError INTERNAL_SERVER_ERROR = TRPCError INTERNAL_SERVER_ERROR
      \/ (TRPCError INTERNAL_SERVER_ERROR = TRPCError UNAUTHORIZED
          /\ user Sample.as_alice = None /\ is_public (board_get "b-404") = false)).
Proof.
  intros run. split; [reflexivity|].
  apply (errors_collapse (H := Sample.bcrypt) (H0 := Sample.jsonwebtoken) Sample.env
           {| uuid := "b-9"; salt := "salt"; now := 0; clock := 0 |}
           Sample.as_alice (board_get "b-404") Sample.db Sample.db).
  reflexivity.
Defined.

(** X2 — The queries ([list], [get], [user.me]) and [auth.login] never write:
    whatever they answer, the database after the call is the database before
    it. *)
Theorem queries_do_not_write `{Bcrypt} `{Jsonwebtoken}
        (env : Env) (d : Draws) (ctx : Context) (req : Request)
        (db db' : PrismaClient.t) (r : Completion Response) :
  reads_only req = true ->
  call env d ctx req db = (r, db') ->
  db' = db.
Proof.
  intros Hreads Hcall. destruct req; try discriminate Hreads; unfold_call Hcall.
  all: destruct ctx as [[u|]]; walk Hcall ltac:(reflexivity).
Qed.

(** Bob lists his tasks. *)
Lemma queries_do_not_write_witness :
  snd (call (bcrypt := Sample.bcrypt) (jwt := Sample.jsonwebtoken) Sample.env
         {| uuid := "b-9"; salt := "salt"; now := 0; clock := 0 |}
         Sample.as_bob (task_list {| limit := 10; offset := 0 |}) Sample.db)
  = Sample.db.
Proof.
  apply (queries_do_not_write (H := Sample.bcrypt) (H0 := Sample.jsonwebtoken) Sample.env
           {| uuid := "b-9"; salt := "salt"; now := 0; clock := 0 |}
           Sample.as_bob (task_list {| limit := 10; offset := 0 |}) Sample.db _
           (fst (call (bcrypt := Sample.bcrypt) (jwt := Sample.jsonwebtoken) Sample.env
                   {| uuid := "b-9"; salt := "salt"; now := 0; clock := 0 |}
                   Sample.as_bob (task_list {| limit := 10; offset := 0 |}) Sample.db))
           eq_refl).
  apply surjective_pairing.
Defined.

(** X3 — A procedure writes at most the table of its own model: the auth and
    user routers the user table, the board, stage and task routers their own.
    In particular [board.delete] and [stage.delete] do not cascade to the
    stages and tasks below. *)
Theorem writes_stay_in_model `{Bcrypt} `{Jsonwebtoken}
        (env : Env) (d : Draws) (ctx : Context) (req : Request)
        (db db' : PrismaClient.t) (r : Completion Response) :
  call env d ctx req db = (r, db') ->
  (model req <> UserModel -> PrismaClient.user db' = PrismaClient.user db)
  /\ (model req <> BoardModel -> PrismaClient.board db' = PrismaClient.board db)
  /\ (model req <> StageModel -> PrismaClient.stage db' = PrismaClient.stage db)
  /\ (model req <> TaskModel -> PrismaClient.task db' = PrismaClient.task db).
Proof.
  intros Hcall. destruct req; unfold_call Hcall.
  all: destruct ctx as [[u|]];
    walk Hcall ltac:(cbn; repeat split; intros Hmodel;
                     first [reflexivity | now contradiction Hmodel]).
Qed.

(** Alice deletes her board ["b-1"]: its stages and their tasks stay as they
    are. *)
Lemma writes_stay_in_model_witness :
  let run := call (bcrypt := Sample.bcrypt) (jwt := Sample.jsonwebtoken) Sample.env
               {| uuid := "b-9"; salt := "salt"; now := 0; clock := 0 |}
               Sample.as_alice (board_delete "b-1") Sample.db in
  fst run = Return empty_response
  /\ PrismaClient.stage (snd run) = PrismaClient.stage Sample.db
  /\ PrismaClient.task (snd run) = PrismaClient.task Sample.db.
Proof.
  intros run. split; [reflexivity|].
  destruct (writes_stay_in_model (H := Sample.bcrypt) (H0 := Sample.jsonwebtoken)
              Sample.env {| uuid := "b-9"; salt := "salt"; now := 0; clock := 0 |}
              Sample.as_alice (board_delete "b-1") Sample.db (snd run) (fst run)
              (surjective_pairing run)) as (_ & _ & Hstage & Htask).
  split; [apply Hstage | apply Htask]; discriminate.
Defined.

Lemma grows_refl {A} (l : list A) : grows l l.
Proof. exists []. now rewrite app_nil_r. Qed.

Lemma user_create_In (u : User.t) (us us' : list User.t) :
  user_create u us = Some us' -> us' = (us ++ [u])%list.
Proof. unfold user_create. destruct (existsb _ us); [discriminate|]. apply create_In. Qed.

(** The identifiers of a table after a write. *)
Ltac ids_after_write :=
  repeat match goal with
    | Hw : Prisma.update _ _ _ _ = Some _ |- _ =>
        apply update_keys in Hw; [rewrite Hw|reflexivity]
    | Hc : Prisma.create _ _ _ = Some _ |- _ => apply create_In in Hc; subst
    | Hc : user_create _ _ = Some _ |- _ => apply user_create_In in Hc; subst
    end.

(** X4 — No procedure removes a row or changes an identifier: after any call
    each table holds the identifiers it held before, in the same order, with
    at most new ones added at the end.  Deleting is a flag on the row. *)
Theorem rows_are_never_removed `{Bcrypt} `{Jsonwebtoken}
        (env : Env) (d : Draws) (ctx : Context) (req : Request)
        (db db' : PrismaClient.t) (r : Completion Response) :
  call env d ctx req db = (r, db') ->
  grows (user_ids db) (user_ids db')
  /\ grows (board_ids db) (board_ids db')
  /\ grows (stage_ids db) (stage_ids db')
  /\ grows (task_ids db) (task_ids db').
Proof.
  intros Hcall. destruct req; unfold_call Hcall.
  all: destruct ctx as [[u|]];
    walk Hcall ltac:(unfold user_ids, board_ids, stage_ids, task_ids; cbn;
                     ids_after_write; rewrite ?map_app;
                     repeat split; first [apply grows_refl | eexists; reflexivity]).
Qed.

(** Alice deletes her task ["t-1"]: every identifier is still there. *)
Lemma rows_are_never_removed_witness :
  let d := {| uuid := "b-9"; salt := "salt"; now := 0%Z; clock := 0%N |} in
  let run := call (bcrypt := Sample.bcrypt) (jwt := Sample.jsonwebtoken) Sample.env d
               Sample.as_alice (task_delete "t-1") Sample.db in
  fst run = Return empty_response
  /\ grows (task_ids Sample.db) (task_ids (snd run))
  /\ grows (user_ids Sample.db) (user_ids (snd run)).
Proof.
  intros d run. split; [reflexivity|].
  destruct (rows_are_never_removed (H := Sample.bcrypt) (H0 := Sample.jsonwebtoken)
              Sample.env d Sample.as_alice (task_delete "t-1") Sample.db (snd run)
              (fst run) (surjective_pairing run)) as (Huser & _ & _ & Htask).
  split; assumption.
Defined.

Lemma update_column {Row A} (key : Row -> string) (column : Row -> A)
      (data : Row -> Row) (id : string) (rows rows' : list Row) (r' : Row) :
  (forall r, column (data r) = column r) ->
  Prisma.update key id data rows = Some (r', rows') ->
  map column rows' = map column rows.
Proof.
  intros Hdata. unfold Prisma.update.
  revert rows'. induction rows as [|h rest IH]; simpl; intros rows' H; [discriminate|].
  destruct (key h =? id).
  - injection H as <- <-. simpl. now rewrite Hdata.
  - fold (Prisma.update key id data rest) in *.
    destruct (Prisma.update key id data rest) as [[r1 rest1]|]; [|discriminate].
    injection H as <- <-. simpl. now rewrite (IH _ eq_refl).
Qed.

Lemma user_create_usernames (u : User.t) (us us' : list User.t) :
  user_create u us = Some us' ->
  Prisma.unique User.username us = true ->
  Prisma.unique User.username us' = true.
Proof.
  unfold user_create.
  destruct (existsb (fun u' => User.username u' =? User.username u) us) eqn:Hfresh;
    [discriminate|].
  intros Hc Huniq. apply create_In in Hc. subst. now apply unique_snoc.
Qed.

(** X6 — Unique usernames are an invariant: [auth.register] refuses a taken
    username and no procedure renames a user, so a user table without two
    equal usernames stays so after any call. *)
Theorem usernames_stay_unique `{Bcrypt} `{Jsonwebtoken}
        (env : Env) (d : Draws) (ctx : Context) (req : Request)
        (db db' : PrismaClient.t) (r : Completion Response) :
  unique_usernames db = true ->
  call env d ctx req db = (r, db') ->
  unique_usernames db' = true.
Proof.
  unfold unique_usernames. intros Hdb Hcall. destruct req; unfold_call Hcall.
  all: destruct ctx as [[u|]];
    walk Hcall ltac:(cbn;
      first [ assumption
            | match goal with
              | Hc : user_create _ _ = Some _ |- _ =>
                  now apply (user_create_usernames _ _ _ Hc)
              | Hw : Prisma.update _ _ _ _ = Some _ |- _ =>
                  apply (update_column _ User.username) in Hw; [|reflexivity];
                  now rewrite (unique_keys _ _ _ _ Hw)
              end ]).
Qed.

(** Alice changes her name. *)
Lemma usernames_stay_unique_witness :
  let d := {| uuid := "u-9"; salt := "salt"; now := 0%Z; clock := 0%N |} in
  let run := call (bcrypt := Sample.bcrypt) (jwt := Sample.jsonwebtoken) Sample.env d
               Sample.as_alice
               (user_updateUser (UserUpdate.mk "u-alice" (Some "Alice L.") None None))
               Sample.db in
  option_map User.name (Prisma.findUnique User.externalID "u-alice"
                          (PrismaClient.user (snd run))) = Some "Alice L."
  /\ unique_usernames (snd run) = true.
Proof.
  intros d run. split; [reflexivity|].
  apply (usernames_stay_unique (H := Sample.bcrypt) (H0 := Sample.jsonwebtoken)
           Sample.env d Sample.as_alice
           (user_updateUser (UserUpdate.mk "u-alice" (Some "Alice L.") None None))
           Sample.db (snd run) (fst run) eq_refl).
  apply surjective_pairing.
Defined.

(** * Referential integrity *)

Lemma known_findUnique {Row} (key : Row -> string) (rows : list Row) (id : string) (r : Row) :
  Prisma.findUnique key id rows = Some r -> known key rows id = true.
Proof.
  intros H. apply findUnique_In in H as [Hin Hid]. unfold known.
  apply existsb_exists. exists r. split; [assumption|]. now apply String.eqb_eq.
Qed.

Lemma findUnique_known {Row} (key : Row -> string) (rows : list Row) (id : string) :
  known key rows id = true -> exists r, Prisma.findUnique key id rows = Some r.
Proof.
  unfold known, Prisma.findUnique. intros H. apply existsb_exists in H as (r & Hin & Hid).
  destruct (find (fun r0 => key r0 =? id) rows) as [r0|] eqn:Hfind; [eauto|].
  apply (find_none _ _ Hfind) in Hin. congruence.
Qed.

Lemma known_same_keys {Row} (key : Row -> string) (rows rows' : list Row) (id : string) :
  map key rows' = map key rows -> known key rows' id = known key rows id.
Proof.
  intros H. unfold known.
  now rewrite (existsb_keys _ key id rows'), (existsb_keys _ key id rows), H.
Qed.

Lemma known_snoc {Row} (key : Row -> string) (rows : list Row) (r : Row) (id : string) :
  known key rows id = true -> known key (rows ++ [r]) id = true.
Proof. unfold known. intros H. rewrite existsb_app, H. reflexivity. Qed.

Lemma known_update {Row} (key : Row -> string) (data : Row -> Row) (i id : string)
      (rows rows' : list Row) (r' : Row) :
  (forall r, key (data r) = key r) ->
  Prisma.update key i data rows = Some (r', rows') ->
  known key rows id = true -> known key rows' id = true.
Proof.
  intros Hdata Hw Hk. apply update_keys in Hw; [|assumption].
  now rewrite (known_same_keys _ _ _ _ Hw).
Qed.

Lemma forallb_mono {A} (P Q : A -> bool) (l : list A) :
  (forall x, P x = true -> Q x = true) -> forallb P l = true -> forallb Q l = true.
Proof.
  intros HPQ H. apply forallb_forall. intros x Hin.
  apply HPQ. now apply (proj1 (forallb_forall P l) H).
Qed.

Lemma forallb_update {Row} (key : Row -> string) (data : Row -> Row) (id : string)
      (P Q : Row -> bool) (rows rows' : list Row) (r' : Row) :
  Prisma.update key id data rows = Some (r', rows') ->
  (forall r, P r = true -> Q r = true) ->
  (forall r, key r = id -> P r = true -> Q (data r) = true) ->
  forallb P rows = true -> forallb Q rows' = true.
Proof.
  intros Hw Hmono Hdata. unfold Prisma.update in Hw.
  revert rows' Hw. induction rows as [|h rest IH]; simpl; intros rows' Hw HP; [discriminate|].
  apply andb_true_iff in HP as [Hh Hrest].
  destruct (key h =? id) eqn:Hkey.
  - injection Hw as <- <-. simpl. apply String.eqb_eq in Hkey.
    rewrite (Hdata h Hkey Hh). simpl. now apply (forallb_mono P Q).
  - fold (Prisma.update key id data rest) in *.
    destruct (Prisma.update key id data rest) as [[r1 rest1]|]; [|discriminate].
    injection Hw as <- <-. simpl. rewrite (Hmono h Hh). simpl. now apply IH.
Qed.

Lemma references_tables (db : PrismaClient.t) :
  references_ok db = true ->
  forallb (fun b => known User.externalID (PrismaClient.user db) (Board.createdBy b))
    (PrismaClient.board db) = true
  /\ forallb (fun s => known User.externalID (PrismaClient.user db) (Stage.createdBy s)
                       && known Board.externalID (PrismaClient.board db) (Stage.board s))
       (PrismaClient.stage db) = true
  /\ forallb (fun t => known User.externalID (PrismaClient.user db) (Task.createdBy t)
                       && known Stage.externalID (PrismaClient.stage db) (Task.stage t))
       (PrismaClient.task db) = true.
Proof.
  unfold references_ok. intros H.
  apply andb_true_iff in H as [H Ht]. apply andb_true_iff in H as [Hb Hs]. auto.
Qed.

(** Proves that an identifier is known after a write from what was known
    before it and from the lookups of the run. *)
Ltac knows :=
  run;
  repeat match goal with
    | H : _ && _ = true |- _ => apply andb_true_iff in H as [? ?]
    end;
  repeat (apply andb_true_iff; split);
  first
    [ assumption
    | eapply known_findUnique; eassumption
    | apply known_snoc; first [assumption | eapply known_findUnique; eassumption]
    | eapply known_update; [| eassumption | assumption]; reflexivity ].

Ltac table_ok :=
  first
    [ assumption
    | eapply forallb_update; [ eassumption | | | eassumption ];
        [ intros ? ?; knows | intros ? ? ?; knows ]
    | rewrite forallb_app; apply andb_true_iff; split;
        [ first [assumption | eapply forallb_mono; [|eassumption]; intros ? ?; knows]
        | cbn; rewrite andb_true_r; knows ]
    | eapply forallb_mono; [|eassumption]; intros ? ?; knows ].

(** X7 — Referential integrity is an invariant: if every [createdBy],
    every stage's board and every task's stage name an existing row before a
    call, they do after it.  [connect] refuses a missing row, and no procedure
    removes one. *)
Theorem references_stay_valid `{Bcrypt} `{Jsonwebtoken}
        (env : Env) (d : Draws) (ctx : Context) (req : Request)
        (db db' : PrismaClient.t) (r : Completion Response) :
  references_ok db = true ->
  call env d ctx req db = (r, db') ->
  references_ok db' = true.
Proof.
  intros Hdb Hcall. destruct req; unfold_call Hcall.
  all: destruct ctx as [[u|]];
    walk Hcall ltac:(first
      [ assumption
      | apply references_tables in Hdb as (Hb & Hs & Ht);
        unfold references_ok;
        cbn [PrismaClient.user PrismaClient.board PrismaClient.stage PrismaClient.task
             with_user with_board with_stage with_task];
        repeat match goal with
          | Hc : Prisma.create _ _ _ = Some _ |- _ => apply create_In in Hc; subst
          | Hc : user_create _ _ = Some _ |- _ => apply user_create_In in Hc; subst
          end;
        repeat (apply andb_true_iff; split); table_ok ]).
Qed.

(** Alice moves her task ["t-1"] to the stage ["s-3"]. *)
Lemma references_stay_valid_witness :
  let d := {| uuid := "b-9"; salt := "salt"; now := 0%Z; clock := 0%N |} in
  let req := task_update (TaskUpdate.mk "t-1" None None None None (Some "s-3")) in
  let run := call (bcrypt := Sample.bcrypt) (jwt := Sample.jsonwebtoken) Sample.env d
               Sample.as_alice req Sample.db in
  option_map Task.stage (Prisma.findUnique Task.externalID "t-1"
                           (PrismaClient.task (snd run))) = Some "s-3"
  /\ references_ok (snd run) = true.
Proof.
  intros d req run. split; [reflexivity|].
  apply (references_stay_valid (H := Sample.bcrypt) (H0 := Sample.jsonwebtoken)
           Sample.env d Sample.as_alice req Sample.db (snd run) (fst run) eq_refl).
  apply surjective_pairing.
Defined.

(** After a write, the [include] of the written row cannot come back empty:
    the row's relations were valid before the write. *)
Ltac contradict_lookup :=
  repeat match goal with
    | Hw : Prisma.update _ _ _ _ = Some _ |- _ =>
        let Hfound := fresh "Hfound" in
        apply update_found in Hw as (? & Hfound & -> & _); [|reflexivity];
        apply findUnique_In in Hfound as [? _]
    | Hf : Prisma.findUnique Stage.externalID _ _ = Some _ |- _ =>
        apply findUnique_In in Hf as [? _]
    end;
  repeat match goal with
    | Hin : In ?x ?l, Hall : forallb ?P ?l = true |- _ =>
        let Hx := fresh "Hx" in
        pose proof (proj1 (forallb_forall P l) Hall x Hin) as Hx; clear Hin
    end;
  run;
  repeat match goal with
    | Hx : _ && _ = true |- _ => apply andb_true_iff in Hx as [? ?]
    end;
  repeat match goal with
    | Hk : known _ _ _ = true |- _ => apply findUnique_known in Hk as [? Hk]
    end;
  congruence.

(** X8 — A call that fails has written nothing.  Each resolver issues at most
    one write, as its last query; on a database with valid references nothing
    after that write can throw, so an error always comes with the database
    as it was before the call. *)
Theorem failed_call_writes_nothing `{Bcrypt} `{Jsonwebtoken}
        (env : Env) (d : Draws) (ctx : Context) (req : Request)
        (db db' : PrismaClient.t) (e : Exn) :
  references_ok db = true ->
  call env d ctx req db = (Throw e, db') ->
  db' = db.
Proof.
  intros Hdb Hcall. destruct req; unfold_call Hcall.
  all: destruct ctx as [[u|]];
    walk Hcall ltac:(first
      [ reflexivity
      | exfalso; apply references_tables in Hdb as (Hb & Hs & Ht); contradict_lookup ]).
Qed.

(** Alice's [board.create] for the new title ["Roadmap"] fails. *)
Lemma failed_call_writes_nothing_witness :
  let d := {| uuid := "b-9"; salt := "salt"; now := 0%Z; clock := 0%N |} in
  let req := board_create (BoardCreate.mk "Roadmap" None) in
  let run := call (bcrypt := Sample.bcrypt) (jwt := Sample.jsonwebtoken) Sample.env d
               Sample.as_alice req Sample.db in
  fst run = Throw (TRPCError INTERNAL_SERVER_ERROR)
  /\ snd run = Sample.db.
Proof.
  intros d req run. split; [reflexivity|].
  apply (failed_call_writes_nothing (H := Sample.bcrypt) (H0 := Sample.jsonwebtoken)
           Sample.env d Sample.as_alice req Sample.db (snd run)
           (TRPCError INTERNAL_SERVER_ERROR) eq_refl).
  reflexivity.
Defined.

(** * More on registration and login *)

(** X9 — [auth.register] refuses a username that is already taken and leaves
    the user table alone.  The resolver throws [BAD_REQUEST]; in the router
    that wraps it in [try]/[catch] the caller sees [INTERNAL_SERVER_ERROR]. *)
Theorem register_refuses_taken_username `{Bcrypt} `{Jsonwebtoken}
        (uuid salt : string) (ctx : Context) (input : Register.t)
        (db : PrismaClient.t) (taken : User.t) :
  findUnique_username (Register.username input) (PrismaClient.user db) = Some taken ->
  authRouter.register uuid salt ctx input db
  = (Throw (TRPCError INTERNAL_SERVER_ERROR), db)
  /\ authRouter_mjs.register uuid salt ctx input db = (Throw (TRPCError BAD_REQUEST), db).
Proof.
  intros Htaken. unfold authRouter.register, authRouter_mjs.register, register_resolver.
  run. now rewrite Htaken.
Qed.

(** Somebody registers as ["alice"] again. *)
Lemma register_refuses_taken_username_witness :
  authRouter.register (bcrypt := Sample.bcrypt) "u-9" "salt" Sample.anonymous
    (Register.mk "alice" "Alice II" "alice2@example.org" "through-the-glass") Sample.db
  = (Throw (TRPCError INTERNAL_SERVER_ERROR), Sample.db).
Proof.
  apply (register_refuses_taken_username (H := Sample.bcrypt) (H0 := Sample.jsonwebtoken)
           "u-9" "salt" Sample.anonymous
           (Register.mk "alice" "Alice II" "alice2@example.org" "through-the-glass")
           Sample.db Sample.alice eq_refl).
Defined.

Lemma register_result `{Bcrypt} (uuid salt : string) (ctx : Context) (input : Register.t)
      (db db' : PrismaClient.t) (created : Profile.t) :
  authRouter.register uuid salt ctx input db = (Return created, db') ->
  let u := User.mk uuid (Register.username input) (Register.name input)
             (Register.email input) (bcrypt_hash (Register.password input) 10 salt)
             false in
  findUnique_username (Register.username input) (PrismaClient.user db) = None
  /\ known User.externalID (PrismaClient.user db) uuid = false
  /\ created = profile u
  /\ db' = with_user (PrismaClient.user db ++ [u]) db.
Proof.
  intros Hregister u.
  unfold authRouter.register, register_resolver in Hregister. run.
  repeat (query; try discriminate). injection Hregister as <- <-.
  match goal with
  | Hc : user_create _ _ = Some _ |- _ =>
      unfold user_create, Prisma.create in Hc; cbn in Hc;
      destruct (existsb (fun u' => User.username u' =? _) _); [discriminate|];
      destruct (existsb (fun r' => User.externalID r' =? uuid) _) eqn:Hfresh;
      [discriminate|]; injection Hc as <-
  end.
  repeat split; assumption.
Qed.

Lemma register_succeeds `{Bcrypt} (uuid salt : string) (ctx : Context)
      (input : Register.t) (db : PrismaClient.t) :
  findUnique_username (Register.username input) (PrismaClient.user db) = None ->
  known User.externalID (PrismaClient.user db) uuid = false ->
  exists created db', authRouter.register uuid salt ctx input db = (Return created, db').
Proof.
  intros Hfree Hfresh. unfold authRouter.register, register_resolver. run.
  rewrite Hfree. run. unfold user_create, Prisma.create. cbn.
  replace (existsb _ (PrismaClient.user db)) with false.
  - fold (known User.externalID (PrismaClient.user db) uuid). rewrite Hfresh. run. eauto.
  - symmetry. apply not_true_iff_false. intros Hex.
    apply existsb_exists in Hex as (x & Hin & Hx).
    unfold findUnique_username in Hfree. apply (find_none _ _ Hfree) in Hin.
    cbn in Hin. congruence.
Qed.

(** X10 — [auth.register] succeeds exactly when the username is free and the
    identifier drawn for the row is new; it then adds one user, not deleted,
    whose stored password is the bcrypt hash of the input, keeps every
    existing row, and answers with the new user's profile. *)
Theorem register_adds_one_user `{Bcrypt} (uuid salt : string) (ctx : Context)
        (input : Register.t) (db : PrismaClient.t) :
  let u := User.mk uuid (Register.username input) (Register.name input)
             (Register.email input) (bcrypt_hash (Register.password input) 10 salt)
             false in
  (findUnique_username (Register.username input) (PrismaClient.user db) = None
   /\ known User.externalID (PrismaClient.user db) uuid = false)
  <-> authRouter.register uuid salt ctx input db
      = (Return (profile u), with_user (PrismaClient.user db ++ [u]) db).
Proof.
  intros u. split.
  - intros [Hfree Hfresh].
    destruct (register_succeeds uuid salt ctx input db Hfree Hfresh) as (c & db' & Hrun).
    pose proof (register_result _ _ _ _ _ _ _ Hrun) as (_ & _ & -> & ->). exact Hrun.
  - intros Hrun. pose proof (register_result _ _ _ _ _ _ _ Hrun) as (Hfree & Hfresh & _).
    auto.
Qed.

(** X11 — Registration, login and the context builder compose: after a
    successful [auth.register], [auth.login] with the same username and
    password returns a token, and a request presenting that token within a
    day gets the context of the user just registered. *)
Theorem registration_round_trip `{Bcrypt} `{Jsonwebtoken}
        (env : Env) (uuid salt : string) (ctx ctx' : Context) (input : Register.t)
        (iat : N) (db db' : PrismaClient.t) (created : Profile.t) :
  bcrypt_accepts_own_hash ->
  jwt_round_trip ->
  jwt_nonempty ->
  Prisma.unique User.externalID (PrismaClient.user db) = true ->
  authRouter.register uuid salt ctx input db = (Return created, db') ->
  exists token u,
    authRouter.login env iat ctx'
      (Login.mk (Register.username input) (Register.password input)) db'
    = (Return token, db')
    /\ profile u = created
    /\ User.externalID u = uuid
    /\ forall clock headers,
         bearer headers = Some token ->
         (iat <= clock < iat + one_day)%N ->
         createContext env clock headers db' = (Return {| user := Some u |}, db').
Proof.
  intros Hbcrypt Hround Hnonempty Hunique Hregister.
  pose proof (register_then_login env uuid salt ctx ctx' input iat db db' created
                Hbcrypt Hregister) as Hlogin.
  apply register_result in Hregister as (Hfree & Hfresh & -> & ->).
  eexists. eexists. split; [exact Hlogin|]. split; [reflexivity|]. split; [reflexivity|].
  intros clock headers Hbearer Hwindow.
  eapply (login_token_resolves env _ _
            (Login.mk (Register.username input) (Register.password input)));
    try eassumption.
  - unfold findUnique_username. cbn.
    apply find_snoc; [exact Hfree | apply String.eqb_refl].
  - cbn. now apply unique_snoc.
Qed.

(** Carol registers, logs in at time [50] and calls ten minutes later. *)
Lemma registration_round_trip_witness :
  let input := Register.mk "carol" "Carol" "carol@example.org" "rabbit-hole" in
  let register := authRouter.register (bcrypt := Sample.bcrypt) "u-carol" "salt"
                    Sample.anonymous input Sample.db in
  exists token u,
    authRouter.login (bcrypt := Sample.bcrypt) (jwt := Sample.jsonwebtoken) Sample.env 50
      Sample.anonymous (Login.mk "carol" "rabbit-hole") (snd register)
    = (Return token, snd register)
    /\ User.username u = "carol"
    /\ createContext (jwt := Sample.jsonwebtoken) Sample.env 650
         {| authorization := Some ("Bearer " ++ token) |} (snd register)
       = (Return {| user := Some u |}, snd register).
Proof.
  intros input register.
  assert (bcrypt_accepts_own_hash (H := Sample.bcrypt)) as Hbcrypt
    by (intros p r s; apply String.eqb_refl).
  destruct (registration_round_trip (H := Sample.bcrypt) (H0 := Sample.jsonwebtoken)
              Sample.env "u-carol" "salt" Sample.anonymous Sample.anonymous input 50
              Sample.db (snd register)
              (Profile.mk "u-carol" "carol" "Carol" "carol@example.org")
              Hbcrypt sample_round_trip sample_nonempty eq_refl eq_refl)
    as (token & u & Hlogin & Hprofile & Hid & Hcontext).
  exists token, u. split; [exact Hlogin|]. split.
  - change (Profile.username (profile u) = "carol"). now rewrite Hprofile.
  - apply Hcontext; [|split; [discriminate | reflexivity]].
    vm_compute in Hlogin. injection Hlogin as <-. reflexivity.
Defined.

(** X12 — A failed login does not say why: [auth.login] answers an unknown
    username exactly as it answers a known username with a wrong password,
    and writes nothing in either case. *)
Theorem login_failures_look_alike `{Bcrypt} `{Jsonwebtoken}
        (env : Env) (clock : N) (ctx : Context) (unknown wrong : Login.t)
        (db : PrismaClient.t) (u : User.t) :
  findUnique_username (Login.username unknown) (PrismaClient.user db) = None ->
  findUnique_username (Login.username wrong) (PrismaClient.user db) = Some u ->
  bcrypt_compare (Login.password wrong) (User.password u) = false ->
  authRouter.login env clock ctx unknown db = authRouter.login env clock ctx wrong db
  /\ authRouter_mjs.login env clock ctx unknown db
     = authRouter_mjs.login env clock ctx wrong db
  /\ authRouter_mjs.login env clock ctx unknown db = (Throw (TRPCError BAD_REQUEST), db).
Proof.
  intros Hunknown Hknown Hwrong.
  unfold authRouter.login, authRouter_mjs.login, login_resolver. run.
  now rewrite Hunknown, Hknown, Hwrong.
Qed.

(** Nobody is called ["mallory"]; Alice's password is not ["guess"]. *)
Lemma login_failures_look_alike_witness :
  authRouter_mjs.login (bcrypt := Sample.bcrypt) (jwt := Sample.jsonwebtoken)
    Sample.env 0 Sample.anonymous (Login.mk "mallory" "guess") Sample.db
  = authRouter_mjs.login (bcrypt := Sample.bcrypt) (jwt := Sample.jsonwebtoken)
      Sample.env 0 Sample.anonymous (Login.mk "alice" "guess") Sample.db.
Proof.
  apply (login_failures_look_alike (H := Sample.bcrypt) (H0 := Sample.jsonwebtoken)
           Sample.env 0%N Sample.anonymous (Login.mk "mallory" "guess")
           (Login.mk "alice" "guess") Sample.db Sample.alice eq_refl eq_refl eq_refl).
Defined.

(** * More on the context builder *)

Lemma split_spaceless (s : string) :
  spaceless s = true -> split " "%char s = [s].
Proof.
  induction s as [|c s IH]; simpl; [reflexivity|].
  intros H. apply andb_true_iff in H as [Hc Hs]. apply negb_true_iff in Hc.
  now rewrite Hc, (IH Hs).
Qed.

Lemma split_at_space (s t : string) :
  spaceless s = true ->
  split " "%char (s ++ String " "%char t) = s :: split " "%char t.
Proof.
  induction s as [|c s IH]; simpl; [reflexivity|].
  intros H. apply andb_true_iff in H as [Hc Hs]. apply negb_true_iff in Hc.
  now rewrite Hc, (IH Hs).
Qed.

(** X13 — The builder takes the second word of the [Authorization] header as
    the token and does not look at the first: for any scheme and token
    without spaces, the header "scheme token" yields the token, whether the
    scheme is [Bearer] or not.  A header of a single word yields no token. *)
Theorem bearer_is_second_word (scheme token : string) :
  spaceless scheme = true ->
  spaceless token = true ->
  bearer {| authorization := Some (scheme ++ " " ++ token) |} = Some token
  /\ bearer {| authorization := Some token |} = None.
Proof.
  intros Hscheme Htoken. unfold bearer. cbn [authorization]. split.
  - change (scheme ++ " " ++ token) with (scheme ++ String " "%char token).
    now rewrite split_at_space, split_spaceless.
  - now rewrite split_spaceless.
Qed.

(** A header with the scheme ["Basic"]. *)
Lemma bearer_is_second_word_witness :
  bearer {| authorization := Some "Basic abc.def" |} = Some "abc.def"
  /\ bearer {| authorization := Some "abc.def" |} = None.
Proof. apply (bearer_is_second_word "Basic" "abc.def"); reflexivity. Defined.

(** X14 — A token that verifies but names no user row gives the anonymous
    context, without an error; every protected procedure called with that
    context is then [UNAUTHORIZED]. *)
Theorem unknown_subject_is_anonymous `{Bcrypt} `{Jsonwebtoken}
        (env : Env) (clock : N) (headers : Headers) (db : PrismaClient.t)
        (token subject : string) :
  bearer headers = Some token ->
  token <> "" ->
  jwt_verify token (JWT_SECRET env) clock = Some (JwtObject (Some subject)) ->
  known User.externalID (PrismaClient.user db) subject = false ->
  createContext env clock headers db = (Return {| user := None |}, db)
  /\ forall d req,
       is_public req = false ->
       call env d {| user := None |} req db = (Throw (TRPCError UNAUTHORIZED), db).
Proof.
  intros Hbearer Hnonempty Hverify Hunknown. split.
  - unfold createContext. rewrite Hbearer.
    apply String.eqb_neq in Hnonempty. rewrite Hnonempty. run. rewrite Hverify. run.
    destruct (Prisma.findUnique User.externalID subject (PrismaClient.user db)) eqn:Hfind;
      [|reflexivity].
    apply known_findUnique in Hfind. congruence.
  - intros d req Hprotected.
    destruct req; try discriminate Hprotected; reflexivity.
Qed.

(** A token signed for ["u-zed"], whom the sample data does not know. *)
Lemma unknown_subject_is_anonymous_witness :
  let token := Sample.sign (JwtObject (Some "u-zed")) "secret" one_day 0 in
  createContext (jwt := Sample.jsonwebtoken) Sample.env 10
    {| authorization := Some ("Bearer " ++ token) |} Sample.db
  = (Return Sample.anonymous, Sample.db).
Proof.
  intros token.
  apply (unknown_subject_is_anonymous (H := Sample.bcrypt) (H0 := Sample.jsonwebtoken)
           Sample.env 10%N {| authorization := Some ("Bearer " ++ token) |} Sample.db
           token "u-zed"); [reflexivity | discriminate | reflexivity | reflexivity].
Defined.

(** X15 — The two builders read the verified payload differently and never
    accept the same token.  The builder that reads [jsonObj.externalID]
    resolves an object payload and throws on a string payload; the builder of
    src/context.ts resolves a string payload and throws on an object payload,
    which is what [auth.login] signs.  An object without [externalID] makes
    both throw. *)
Theorem builders_read_different_payloads `{Jsonwebtoken}
        (env : Env) (clock : N) (headers : Headers) (db : PrismaClient.t)
        (token : string) (payload : JwtPayload) :
  bearer headers = Some token ->
  token <> "" ->
  jwt_verify token (JWT_SECRET env) clock = Some payload ->
  match payload with
  | JwtObject (Some id) =>
      createContext env clock headers db
      = (Return {| user := Prisma.findUnique User.externalID id (PrismaClient.user db) |}, db)
      /\ context_ts.createContext env clock headers db
         = (Throw PrismaClientValidationError, db)
  | JwtString id =>
      createContext env clock headers db = (Throw PrismaClientValidationError, db)
      /\ context_ts.createContext env clock headers db
         = (Return {| user := Prisma.findUnique User.externalID id (PrismaClient.user db) |},
            db)
  | JwtObject None =>
      createContext env clock headers db = (Throw PrismaClientValidationError, db)
      /\ context_ts.createContext env clock headers db
         = (Throw PrismaClientValidationError, db)
  end.
Proof.
  intros Hbearer Hnonempty Hverify.
  unfold createContext, context_ts.createContext. rewrite Hbearer.
  apply String.eqb_neq in Hnonempty. rewrite Hnonempty. run. rewrite Hverify. run.
  destruct payload as [id|[id|]]; split; reflexivity.
Qed.

(** Alice's login token, read by both builders. *)
Lemma builders_read_different_payloads_witness :
  let headers := {| authorization := Some ("Bearer " ++ Sample.alice_token) |} in
  createContext (jwt := Sample.jsonwebtoken) Sample.env 10 headers Sample.db
  = (Return Sample.as_alice, Sample.db)
  /\ context_ts.createContext (jwt := Sample.jsonwebtoken) Sample.env 10 headers Sample.db
     = (Throw PrismaClientValidationError, Sample.db).
Proof.
  intros headers.
  apply (builders_read_different_payloads (H := Sample.jsonwebtoken) Sample.env 10%N
           headers Sample.db Sample.alice_token (JwtObject (Some "u-alice")));
    [reflexivity | discriminate | reflexivity].
Defined.

(** * More on the user router *)

(** A query on a column that the update keeps finds the same row after the
    update, updated if it was the target. *)
Lemma find_update {Row} (key : Row -> string) (data : Row -> Row) (p : Row -> bool)
      (id : string) (rows rows' : list Row) (r' r0 : Row) :
  Prisma.unique key rows = true ->
  (forall r, p (data r) = p r) ->
  Prisma.update key id data rows = Some (r', rows') ->
  find p rows = Some r0 ->
  find p rows' = Some (if key r0 =? id then data r0 else r0).
Proof.
  intros Huniq Hp. unfold Prisma.update.
  revert rows' Huniq. induction rows as [|h rest IH]; simpl; intros rows' Huniq Hw Hfind;
    [discriminate|].
  apply andb_true_iff in Huniq as [Hfresh Huniq]. apply negb_true_iff in Hfresh.
  destruct (key h =? id) eqn:Hkey.
  - injection Hw as <- <-. simpl. rewrite Hp.
    destruct (p h).
    + injection Hfind as <-. now rewrite Hkey.
    + rewrite Hfind. apply find_some in Hfind as [Hin _].
      apply String.eqb_eq in Hkey. subst id.
      apply (existsb_key_false _ key _ _ _ Hfresh) in Hin.
      apply String.eqb_neq in Hin. now rewrite Hin.
  - fold (Prisma.update key id data rest) in *.
    destruct (Prisma.update key id data rest) as [[r1 rest1]|]; [|discriminate].
    injection Hw as <- <-. simpl.
    destruct (p h).
    + injection Hfind as <-. now rewrite Hkey.
    + now apply IH.
Qed.

(** X16 — [user.updateUser] stores the bcrypt hash of a new password, and the
    new password is the one [auth.login] accepts afterwards. *)
Theorem updateUser_then_login `{Bcrypt} `{Jsonwebtoken}
        (env : Env) (salt : string) (u : User.t) (input : UserUpdate.t) (clock : N)
        (ctx' : Context) (db db' : PrismaClient.t) (updated : Profile.t)
        (password : string) (row : User.t) :
  bcrypt_accepts_own_hash ->
  Prisma.unique User.externalID (PrismaClient.user db) = true ->
  findUnique_username (User.username row) (PrismaClient.user db) = Some row ->
  User.externalID row = User.externalID u ->
  UserUpdate.password input = Some password ->
  password <> "" ->
  userRouter.updateUser salt {| user := Some u |} input db = (Return updated, db') ->
  option_map User.password
    (Prisma.findUnique User.externalID (User.externalID u) (PrismaClient.user db'))
  = Some (bcrypt_hash password 10 salt)
  /\ authRouter.login env clock ctx' (Login.mk (User.username row) password) db'
     = (Return (jwt_sign (JwtObject (Some (User.externalID u))) (JWT_SECRET env)
                  one_day clock), db').
Proof.
  intros Hbcrypt Huniq Hrow Hid Hpassword Hnonempty Hrun.
  unfold userRouter.updateUser in Hrun. run.
  repeat (query; try discriminate). injection Hrun as _ <-.
  rewrite Hpassword in *. cbn [truthy_string] in *.
  apply String.eqb_neq in Hnonempty. rewrite Hnonempty in *. cbn [negb keep_undefined] in *.
  match goal with
  | Hw : Prisma.update _ _ ?data _ = Some _ |- _ =>
      pose proof (update_found _ User.externalID data (fun _ => eq_refl) _ _ _ _ Hw)
        as (r0 & _ & _ & Hstored);
      pose proof (find_update User.externalID data
                    (fun x => User.username x =? User.username row) _ _ _ _ row
                    Huniq (fun _ => eq_refl) Hw Hrow) as Hfind
  end.
  rewrite Hid, String.eqb_refl in Hfind. split.
  - cbn. rewrite Hstored. reflexivity.
  - unfold authRouter.login, login_resolver, findUnique_username. run.
    rewrite Hfind. run. rewrite Hbcrypt. cbn [negb]. now rewrite Hid.
Qed.

(** Alice changes her password to ["looking-glass"] and logs in with it. *)
Lemma updateUser_then_login_witness :
  let input := UserUpdate.mk "u-alice" None None (Some "looking-glass") in
  let run := userRouter.updateUser (bcrypt := Sample.bcrypt) "salt" Sample.as_alice input
               Sample.db in
  fst (authRouter.login (bcrypt := Sample.bcrypt) (jwt := Sample.jsonwebtoken) Sample.env 0
         Sample.anonymous (Login.mk "alice" "looking-glass") (snd run))
  = Return Sample.alice_token.
Proof.
  intros input run.
  assert (bcrypt_accepts_own_hash (H := Sample.bcrypt)) as Hbcrypt
    by (intros p r s; apply String.eqb_refl).
  destruct (updateUser_then_login (H := Sample.bcrypt) (H0 := Sample.jsonwebtoken)
              Sample.env "salt" Sample.alice input 0%N Sample.anonymous Sample.db (snd run)
              (Profile.mk "u-alice" "alice" "Alice" "alice@example.org")
              "looking-glass" Sample.alice
              Hbcrypt eq_refl eq_refl eq_refl eq_refl) as [_ Hlogin].
  - discriminate.
  - reflexivity.
  - exact (f_equal fst Hlogin).
Defined.

(** X17 — [user.updateUser] looks its caller up with [deleted: false]: once a
    user is soft-deleted the call is refused and changes nothing, while
    [user.deleteUser] has no such check and succeeds again on the same row. *)
Theorem updateUser_refused_after_delete `{Bcrypt}
        (salt : string) (u : User.t) (input : UserUpdate.t) (db : PrismaClient.t)
        (row : User.t) :
  Prisma.unique User.externalID (PrismaClient.user db) = true ->
  In row (PrismaClient.user db) ->
  User.externalID row = User.externalID u ->
  User.deleted row = true ->
  userRouter.updateUser salt {| user := Some u |} input db
  = (Throw (TRPCError INTERNAL_SERVER_ERROR), db)
  /\ exists db',
       userRouter.deleteUser {| user := Some u |} (UserUpdate.externalID input) db
       = (Return tt, db').
Proof.
  intros Huniq Hin Hid Hdeleted. split.
  - unfold userRouter.updateUser. run. rewrite <- Hid.
    rewrite (find_foreign _ User.externalID (fun r => negb (User.deleted r)) _ row Huniq Hin);
      [reflexivity|].
    now rewrite Hdeleted.
  - unfold userRouter.deleteUser. run. rewrite <- Hid.
    pose proof (findUnique_of_In _ User.externalID _ row Huniq Hin) as Hfound.
    match goal with
    | |- context [Prisma.update User.externalID ?id ?data ?rows] =>
        destruct (update_of_found _ User.externalID data id rows row Hfound) as [rows' ->]
    end.
    run. eauto.
Qed.

(** Alice, once deleted, tries to change her name. *)
Lemma updateUser_refused_after_delete_witness :
  let db' := with_user [Sample.gone; Sample.bob] Sample.db in
  userRouter.updateUser (bcrypt := Sample.bcrypt) "salt" Sample.as_alice
    (UserUpdate.mk "u-alice" (Some "Alice L.") None None) db'
  = (Throw (TRPCError INTERNAL_SERVER_ERROR), db').
Proof.
  intros db'.
  apply (updateUser_refused_after_delete (H := Sample.bcrypt) "salt" Sample.alice
           (UserUpdate.mk "u-alice" (Some "Alice L.") None None) db' Sample.gone);
    [reflexivity | now left | reflexivity | reflexivity].
Defined.

(** X18 — Soft-deleting a user does not lock the user out: [auth.login] and
    the context builder look users up without the [deleted] filter, so after
    [user.deleteUser] the same credentials still give a token, and the token
    still gives a context with the (now deleted) user. *)
Theorem deleteUser_keeps_credentials `{Bcrypt} `{Jsonwebtoken}
        (env : Env) (u : User.t) (externalID : string) (input : Login.t) (iat : N)
        (ctx' : Context) (db db' : PrismaClient.t) (row : User.t) :
  jwt_round_trip ->
  jwt_nonempty ->
  Prisma.unique User.externalID (PrismaClient.user db) = true ->
  findUnique_username (Login.username input) (PrismaClient.user db) = Some row ->
  User.externalID row = User.externalID u ->
  bcrypt_compare (Login.password input) (User.password row) = true ->
  userRouter.deleteUser {| user := Some u |} externalID db = (Return tt, db') ->
  exists token gone,
    authRouter.login env iat ctx' input db' = (Return token, db')
    /\ User.deleted gone = true
    /\ profile gone = profile row
    /\ forall clock headers,
         bearer headers = Some token ->
         (iat <= clock < iat + one_day)%N ->
         createContext env clock headers db' = (Return {| user := Some gone |}, db').
Proof.
  intros Hround Hnonempty Huniq Hrow Hid Hcompare Hrun.
  unfold userRouter.deleteUser in Hrun. run.
  query; [|discriminate]. injection Hrun as <-.
  match goal with
  | Hw : Prisma.update _ _ ?data _ = Some _ |- _ =>
      pose proof (find_update User.externalID data
                    (fun x => User.username x =? Login.username input) _ _ _ _ row
                    Huniq (fun _ => eq_refl) Hw Hrow) as Hfind;
      pose proof (update_unique _ User.externalID data _ _ _ _ (fun _ => eq_refl) Hw)
        as Huniq'
  end.
  rewrite Hid, String.eqb_refl in Hfind. rewrite Huniq in Huniq'.
  exists (jwt_sign (JwtObject (Some (User.externalID row))) (JWT_SECRET env) one_day iat),
    (User.mk (User.externalID row) (User.username row) (User.name row) (User.email row)
       (User.password row) true).
  split; [|split; [|split]].
  - match goal with
    | |- context [with_user ?l db] =>
        apply (login_token env (with_user l db) _ input Hfind iat ctx')
    end.
    exact Hcompare.
  - reflexivity.
  - reflexivity.
  - intros clock headers Hbearer Hwindow.
    match goal with
    | |- context [with_user ?l db] =>
        now apply (login_token_resolves env (with_user l db) _ input Hfind Hround
                     Hnonempty Huniq' iat)
    end.
Qed.

(** Alice deletes her account, logs in again and calls with the token. *)
Lemma deleteUser_keeps_credentials_witness :
  let db' := with_user [Sample.gone; Sample.bob] Sample.db in
  exists token gone,
    authRouter.login (bcrypt := Sample.bcrypt) (jwt := Sample.jsonwebtoken) Sample.env 0
      Sample.anonymous (Login.mk "alice" "wonderland") db' = (Return token, db')
    /\ User.deleted gone = true
    /\ createContext (jwt := Sample.jsonwebtoken) Sample.env 10
         {| authorization := Some ("Bearer " ++ token) |} db'
       = (Return {| user := Some gone |}, db').
Proof.
  intros db'.
  destruct (deleteUser_keeps_credentials (H := Sample.bcrypt) (H0 := Sample.jsonwebtoken)
              Sample.env Sample.alice "u-alice" (Login.mk "alice" "wonderland") 0%N
              Sample.anonymous Sample.db db' Sample.alice
              sample_round_trip sample_nonempty eq_refl eq_refl eq_refl eq_refl eq_refl)
    as (token & gone & Hlogin & Hgone & _ & Hcontext).
  exists token, gone. split; [exact Hlogin|]. split; [exact Hgone|].
  apply Hcontext; [|split; [discriminate | reflexivity]].
  vm_compute in Hlogin. injection Hlogin as <-. reflexivity.
Defined.

(** * Boards, stages and tasks: reaching a row *)

(** With unique identifiers, a row that passes the filter is the answer to
    the query for its identifier. *)
Lemma find_own {Row} (key : Row -> string) (p : Row -> bool) (rows : list Row) (r : Row) :
  Prisma.unique key rows = true ->
  In r rows ->
  p r = true ->
  Prisma.findFirst (fun x => (key x =? key r) && p x) rows = Some r.
Proof.
  unfold Prisma.findFirst.
  induction rows as [|h rest IH]; simpl; [contradiction|].
  intros Huniq Hin Hp.
  apply andb_true_iff in Huniq as [Hfresh Huniq]. apply negb_true_iff in Hfresh.
  destruct Hin as [-> | Hin].
  - now rewrite String.eqb_refl, Hp.
  - assert (key r <> key h) as Hne by (eapply existsb_key_false; eauto).
    apply not_eq_sym in Hne. apply String.eqb_neq in Hne.
    rewrite Hne. now apply IH.
Qed.

Lemma is_owner_some (u : User.t) (owner : string) :
  is_owner {| user := Some u |} owner -> owner = User.externalID u.
Proof. intros (u' & Hu & <-). now injection Hu as <-. Qed.

Section Reach.
Variable db : PrismaClient.t.
Hypothesis Hunique : unique_ids db = true.
Hypothesis Hrefs : references_ok db = true.

Lemma board_get_reaches (ctx : Context) (id : string) :
  (exists out, boardRouter.get ctx id db = (Return out, db))
  <-> (exists b, In b (PrismaClient.board db) /\ Board.externalID b = id
                 /\ Board.deleted b = false /\ is_owner ctx (Board.createdBy b)).
Proof.
  apply unique_ids_tables in Hunique as (_ & Hb & _ & _).
  apply references_tables in Hrefs as (Rb & _ & _).
  unfold boardRouter.get. split.
  - intros (out & Hrun). destruct ctx as [[u|]]; run; [|discriminate].
    repeat (query; try discriminate).
    match goal with
    | Hf : Prisma.findFirst _ _ = Some ?b |- _ =>
        apply findFirst_In in Hf as [Hin Hp]; exists b
    end.
    apply andb_true_iff in Hp as [Hid Hp]. apply String.eqb_eq in Hid.
    apply owned_board in Hp as [Hd Ho]. repeat split; auto. exists u. auto.
  - intros (b & Hin & <- & Hlive & Howner). destruct ctx as [[u|]];
      [|now destruct Howner as (? & ? & _)].
    apply is_owner_some in Howner. run.
    rewrite (find_own Board.externalID (boardRouter.owned u) _ b Hb Hin)
      by (unfold boardRouter.owned; now rewrite Hlive, Howner, String.eqb_refl).
    run.
    pose proof (proj1 (forallb_forall _ _) Rb b Hin) as Hknown. cbv beta in Hknown.
    apply findUnique_known in Hknown as [c ->]. run. eauto.
Qed.

Lemma stage_get_reaches (ctx : Context) (id : string) :
  (exists out, stageRouter.get ctx id db = (Return out, db))
  <-> (exists s, In s (PrismaClient.stage db) /\ Stage.externalID s = id
                 /\ Stage.deleted s = false /\ is_owner ctx (Stage.createdBy s)).
Proof.
  apply unique_ids_tables in Hunique as (_ & _ & Hs & _).
  apply references_tables in Hrefs as (_ & Rs & _).
  unfold stageRouter.get. split.
  - intros (out & Hrun). destruct ctx as [[u|]]; run; [|discriminate].
    repeat (query; try discriminate).
    match goal with
    | Hf : Prisma.findFirst _ _ = Some ?s |- _ =>
        apply findFirst_In in Hf as [Hin Hp]; exists s
    end.
    apply andb_true_iff in Hp as [Hid Hp]. apply String.eqb_eq in Hid.
    apply owned_stage in Hp as [Hd Ho]. repeat split; auto. exists u. auto.
  - intros (s & Hin & <- & Hlive & Howner). destruct ctx as [[u|]];
      [|now destruct Howner as (? & ? & _)].
    apply is_owner_some in Howner. run.
    rewrite (find_own Stage.externalID (stageRouter.owned u) _ s Hs Hin)
      by (unfold stageRouter.owned; now rewrite Hlive, Howner, String.eqb_refl).
    run.
    pose proof (proj1 (forallb_forall _ _) Rs s Hin) as Hknown. cbv beta in Hknown.
    apply andb_true_iff in Hknown as [Hc Hb].
    apply findUnique_known in Hc as [c ->]. run.
    apply findUnique_known in Hb as [b ->]. run. eauto.
Qed.

Lemma task_get_reaches (ctx : Context) (id : string) :
  (exists out, taskRouter.get ctx id db = (Return out, db))
  <-> (exists t, In t (PrismaClient.task db) /\ Task.externalID t = id
                 /\ Task.deleted t = false /\ is_owner ctx (Task.createdBy t)).
Proof.
  apply unique_ids_tables in Hunique as (_ & _ & _ & Ht).
  apply references_tables in Hrefs as (_ & Rs & Rt).
  unfold taskRouter.get. split.
  - intros (out & Hrun). destruct ctx as [[u|]]; run; [|discriminate].
    repeat (query; try discriminate).
    match goal with
    | Hf : Prisma.findFirst _ _ = Some ?t |- _ =>
        apply findFirst_In in Hf as [Hin Hp]; exists t
    end.
    apply andb_true_iff in Hp as [Hid Hp]. apply String.eqb_eq in Hid.
    apply owned_task in Hp as [Hd Ho]. repeat split; auto. exists u. auto.
  - intros (t & Hin & <- & Hlive & Howner). destruct ctx as [[u|]];
      [|now destruct Howner as (? & ? & _)].
    apply is_owner_some in Howner. run.
    rewrite (find_own Task.externalID (taskRouter.owned u) _ t Ht Hin)
      by (unfold taskRouter.owned; now rewrite Hlive, Howner, String.eqb_refl).
    run.
    pose proof (proj1 (forallb_forall _ _) Rt t Hin) as Hknown. cbv beta in Hknown.
    apply andb_true_iff in Hknown as [Hc Hstage].
    apply findUnique_known in Hc as [c ->]. run.
    apply findUnique_known in Hstage as [s Hstage]. rewrite Hstage. run.
    apply findUnique_In in Hstage as [Hins _].
    pose proof (proj1 (forallb_forall _ _) Rs s Hins) as Hknown. cbv beta in Hknown.
    apply andb_true_iff in Hknown as [_ Hb].
    apply findUnique_known in Hb as [b ->]. run. eauto.
Qed.

End Reach.

(** X19 — On a database with unique identifiers and valid references, [get]
    answers exactly for the rows the caller may see: [board.get], [stage.get]
    and [task.get] succeed if and only if a row with the requested identifier
    exists, is not soft-deleted and was created by the caller. *)
Theorem get_succeeds_iff_own_live (db : PrismaClient.t) (ctx : Context) (id : string) :
  unique_ids db = true ->
  references_ok db = true ->
  ((exists out, boardRouter.get ctx id db = (Return out, db))
   <-> (exists b, In b (PrismaClient.board db) /\ Board.externalID b = id
                  /\ Board.deleted b = false /\ is_owner ctx (Board.createdBy b)))
  /\ ((exists out, stageRouter.get ctx id db = (Return out, db))
      <-> (exists s, In s (PrismaClient.stage db) /\ Stage.externalID s = id
                     /\ Stage.deleted s = false /\ is_owner ctx (Stage.createdBy s)))
  /\ ((exists out, taskRouter.get ctx id db = (Return out, db))
      <-> (exists t, In t (PrismaClient.task db) /\ Task.externalID t = id
                     /\ Task.deleted t = false /\ is_owner ctx (Task.createdBy t))).
Proof.
  intros Hunique Hrefs. repeat split.
  - apply (proj1 (board_get_reaches db Hunique Hrefs ctx id)).
  - apply (proj2 (board_get_reaches db Hunique Hrefs ctx id)).
  - apply (proj1 (stage_get_reaches db Hunique Hrefs ctx id)).
  - apply (proj2 (stage_get_reaches db Hunique Hrefs ctx id)).
  - apply (proj1 (task_get_reaches db Hunique Hrefs ctx id)).
  - apply (proj2 (task_get_reaches db Hunique Hrefs ctx id)).
Qed.

(** Bob's task ["t-2"] is his to read; Alice's archived task ["t-3"] is not
    hers to read any more. *)
Lemma get_succeeds_iff_own_live_witness :
  (exists out, taskRouter.get Sample.as_bob "t-2" Sample.db = (Return out, Sample.db))
  /\ ~ (exists out, taskRouter.get Sample.as_alice "t-3" Sample.db = (Return out, Sample.db)).
Proof.
  split.
  - destruct (get_succeeds_iff_own_live Sample.db Sample.as_bob "t-2" eq_refl eq_refl)
      as (_ & _ & Htask).
    apply Htask. exists Sample.review. repeat split.
    + simpl. auto.
    + exists Sample.bob. auto.
  - destruct (get_succeeds_iff_own_live Sample.db Sample.as_alice "t-3" eq_refl eq_refl)
      as (_ & _ & Htask).
    intros Hout. apply Htask in Hout as (t & Hin & Hid & Hlive & _).
    simpl in Hin. destruct Hin as [<- | [<- | [<- | []]]]; discriminate.
Defined.

(** * Soft delete *)

Section Deleted.
Variable db : PrismaClient.t.
Hypothesis Hunique : unique_ids db = true.

Lemma deleted_board_hidden (u : User.t) (b : Board.t) :
  In b (PrismaClient.board db) -> Board.deleted b = true ->
  Prisma.findFirst (fun x => (Board.externalID x =? Board.externalID b)
                             && boardRouter.owned u x) (PrismaClient.board db) = None.
Proof.
  intros Hin Hdel. apply find_foreign; auto.
  - now apply unique_ids_tables.
  - unfold boardRouter.owned. now rewrite Hdel.
Qed.

Lemma deleted_stage_hidden (u : User.t) (s : Stage.t) :
  In s (PrismaClient.stage db) -> Stage.deleted s = true ->
  Prisma.findFirst (fun x => (Stage.externalID x =? Stage.externalID s)
                             && stageRouter.owned u x) (PrismaClient.stage db) = None.
Proof.
  intros Hin Hdel. apply find_foreign; auto.
  - now apply unique_ids_tables.
  - unfold stageRouter.owned. now rewrite Hdel.
Qed.

Lemma deleted_task_hidden (u : User.t) (t : Task.t) :
  In t (PrismaClient.task db) -> Task.deleted t = true ->
  Prisma.findFirst (fun x => (Task.externalID x =? Task.externalID t)
                             && taskRouter.owned u x) (PrismaClient.task db) = None.
Proof.
  intros Hin Hdel. apply find_foreign; auto.
  - now apply unique_ids_tables.
  - unfold taskRouter.owned. now rewrite Hdel.
Qed.

Ltac gone hidden :=
  intros Hin Hdel ctx; repeat split; intros;
  (destruct ctx as [[u|]]; [|now apply anonymous_refused]);
  exists INTERNAL_SERVER_ERROR; run; now rewrite hidden.

Lemma deleted_board_unreachable (b : Board.t) :
  In b (PrismaClient.board db) -> Board.deleted b = true ->
  forall ctx,
    refused (boardRouter.get ctx (Board.externalID b)) db
    /\ (forall title description,
          refused (boardRouter.update ctx
                     (BoardUpdate.mk (Board.externalID b) title description)) db)
    /\ refused (boardRouter.delete ctx (Board.externalID b)) db.
Proof.
  unfold boardRouter.get, boardRouter.update, boardRouter.delete.
  gone deleted_board_hidden.
Qed.

Lemma deleted_stage_unreachable (s : Stage.t) :
  In s (PrismaClient.stage db) -> Stage.deleted s = true ->
  forall ctx,
    refused (stageRouter.get ctx (Stage.externalID s)) db
    /\ (forall title description,
          refused (stageRouter.update ctx
                     (StageUpdate.mk (Stage.externalID s) title description)) db)
    /\ refused (stageRouter.delete ctx (Stage.externalID s)) db.
Proof.
  unfold stageRouter.get, stageRouter.update, stageRouter.delete.
  gone deleted_stage_hidden.
Qed.

Lemma deleted_task_unreachable (t : Task.t) :
  In t (PrismaClient.task db) -> Task.deleted t = true ->
  forall ctx,
    refused (taskRouter.get ctx (Task.externalID t)) db
    /\ (forall title description dueDate priority stageExternalID,
          refused (taskRouter.update ctx
                     (TaskUpdate.mk (Task.externalID t) title description dueDate
                        priority stageExternalID)) db)
    /\ refused (taskRouter.delete ctx (Task.externalID t)) db.
Proof.
  unfold taskRouter.get, taskRouter.update, taskRouter.delete.
  gone deleted_task_hidden.
Qed.

End Deleted.

(** X20 — A soft-deleted board, stage or task is out of reach of its own
    procedures for every caller, its owner included: with unique identifiers,
    [get], [update] and [delete] on its identifier are refused and change
    nothing. *)
Theorem deleted_rows_are_unreachable (db : PrismaClient.t) (ctx : Context) :
  unique_ids db = true ->
  (forall b, In b (PrismaClient.board db) -> Board.deleted b = true ->
     refused (boardRouter.get ctx (Board.externalID b)) db
     /\ (forall title description,
           refused (boardRouter.update ctx
                      (BoardUpdate.mk (Board.externalID b) title description)) db)
     /\ refused (boardRouter.delete ctx (Board.externalID b)) db)
  /\ (forall s, In s (PrismaClient.stage db) -> Stage.deleted s = true ->
     refused (stageRouter.get ctx (Stage.externalID s)) db
     /\ (forall title description,
           refused (stageRouter.update ctx
                      (StageUpdate.mk (Stage.externalID s) title description)) db)
     /\ refused (stageRouter.delete ctx (Stage.externalID s)) db)
  /\ (forall t, In t (PrismaClient.task db) -> Task.deleted t = true ->
     refused (taskRouter.get ctx (Task.externalID t)) db
     /\ (forall title description dueDate priority stageExternalID,
           refused (taskRouter.update ctx
                      (TaskUpdate.mk (Task.externalID t) title description dueDate
                         priority stageExternalID)) db)
     /\ refused (taskRouter.delete ctx (Task.externalID t)) db).
Proof.
  intros Hunique. split; [|split]; intros row Hin Hdel.
  - now apply deleted_board_unreachable.
  - now apply deleted_stage_unreachable.
  - now apply deleted_task_unreachable.
Qed.

(** Alice's own stage ["s-2"] is soft-deleted: she cannot read it or delete
    it again. *)
Lemma deleted_rows_are_unreachable_witness :
  refused (stageRouter.get Sample.as_alice "s-2") Sample.db
  /\ refused (stageRouter.delete Sample.as_alice "s-2") Sample.db.
Proof.
  destruct (deleted_rows_are_unreachable Sample.db Sample.as_alice eq_refl)
    as (_ & Hstage & _).
  destruct (Hstage Sample.done) as (Hget & _ & Hdelete);
    [simpl; auto | reflexivity | split; assumption].
Defined.

Lemma board_delete_return (ctx : Context) (id : string) (db db' : PrismaClient.t) :
  boardRouter.delete ctx id db = (Return tt, db') ->
  exists u b,
    user ctx = Some u
    /\ Prisma.findFirst (fun x => (Board.externalID x =? id) && boardRouter.owned u x)
         (PrismaClient.board db) = Some b
    /\ exists b0 rows',
         Prisma.findUnique Board.externalID id (PrismaClient.board db) = Some b0
         /\ Prisma.findUnique Board.externalID id rows'
            = Some (Board.mk (Board.externalID b0) (Board.title b0) (Board.description b0)
                      (Board.createdBy b0) true)
         /\ map Board.externalID rows' = map Board.externalID (PrismaClient.board db)
         /\ db' = with_board rows' db.
Proof.
  unfold boardRouter.delete. intros H.
  destruct ctx as [[u|]]; run; [|discriminate].
  repeat (query; try discriminate). injection H as <-.
  match goal with
  | Hw : Prisma.update _ _ ?data _ = Some _ |- _ =>
      pose proof (update_keys _ Board.externalID data (fun _ => eq_refl) _ _ _ _ Hw);
      apply update_found in Hw as (row0 & Hrow0 & _ & Hrow'); [|reflexivity]
  end.
  eexists. eexists. split; [reflexivity|]. split; [eassumption|].
  match goal with
  | Hk : map _ ?l = map _ _ |- _ => exists row0, l
  end.
  repeat split; assumption.
Qed.

Lemma stage_delete_return (ctx : Context) (id : string) (db db' : PrismaClient.t) :
  stageRouter.delete ctx id db = (Return tt, db') ->
  exists u s,
    user ctx = Some u
    /\ Prisma.findFirst (fun x => (Stage.externalID x =? id) && stageRouter.owned u x)
         (PrismaClient.stage db) = Some s
    /\ exists s0 rows',
         Prisma.findUnique Stage.externalID id (PrismaClient.stage db) = Some s0
         /\ Prisma.findUnique Stage.externalID id rows'
            = Some (Stage.mk (Stage.externalID s0) (Stage.title s0) (Stage.description s0)
                      (Stage.createdBy s0) (Stage.board s0) true)
         /\ map Stage.externalID rows' = map Stage.externalID (PrismaClient.stage db)
         /\ db' = with_stage rows' db.
Proof.
  unfold stageRouter.delete. intros H.
  destruct ctx as [[u|]]; run; [|discriminate].
  repeat (query; try discriminate). injection H as <-.
  match goal with
  | Hw : Prisma.update _ _ ?data _ = Some _ |- _ =>
      pose proof (update_keys _ Stage.externalID data (fun _ => eq_refl) _ _ _ _ Hw);
      apply update_found in Hw as (row0 & Hrow0 & _ & Hrow'); [|reflexivity]
  end.
  eexists. eexists. split; [reflexivity|]. split; [eassumption|].
  match goal with
  | Hk : map _ ?l = map _ _ |- _ => exists row0, l
  end.
  repeat split; assumption.
Qed.

Lemma task_delete_return (ctx : Context) (id : string) (db db' : PrismaClient.t) :
  taskRouter.delete ctx id db = (Return tt, db') ->
  exists u t,
    user ctx = Some u
    /\ Prisma.findFirst (fun x => (Task.externalID x =? id) && taskRouter.owned u x)
         (PrismaClient.task db) = Some t
    /\ exists t0 rows',
         Prisma.findUnique Task.externalID id (PrismaClient.task db) = Some t0
         /\ Prisma.findUnique Task.externalID id rows'
            = Some (Task.mk (Task.externalID t0) (Task.title t0) (Task.description t0)
                      (Task.dueDate t0) (Task.priority t0) (Task.createdBy t0)
                      (Task.stage t0) true)
         /\ map Task.externalID rows' = map Task.externalID (PrismaClient.task db)
         /\ db' = with_task rows' db.
Proof.
  unfold taskRouter.delete. intros H.
  destruct ctx as [[u|]]; run; [|discriminate].
  repeat (query; try discriminate). injection H as <-.
  match goal with
  | Hw : Prisma.update _ _ ?data _ = Some _ |- _ =>
      pose proof (update_keys _ Task.externalID data (fun _ => eq_refl) _ _ _ _ Hw);
      apply update_found in Hw as (row0 & Hrow0 & _ & Hrow'); [|reflexivity]
  end.
  eexists. eexists. split; [reflexivity|]. split; [eassumption|].
  match goal with
  | Hk : map _ ?l = map _ _ |- _ => exists row0, l
  end.
  repeat split; assumption.
Qed.

(** X21 — A successful [delete] flips the [deleted] flag of the caller's live
    row and nothing else in it; from then on [get] and a second [delete] on
    that identifier are refused for every caller. *)
Theorem delete_flags_and_hides (db : PrismaClient.t) (ctx : Context) (id : string)
        (db' : PrismaClient.t) :
  unique_ids db = true ->
  (boardRouter.delete ctx id db = (Return tt, db') ->
   exists b,
     Prisma.findUnique Board.externalID id (PrismaClient.board db) = Some b
     /\ Board.deleted b = false /\ is_owner ctx (Board.createdBy b)
     /\ Prisma.findUnique Board.externalID id (PrismaClient.board db')
        = Some (Board.mk (Board.externalID b) (Board.title b) (Board.description b)
                  (Board.createdBy b) true)
     /\ forall ctx', refused (boardRouter.get ctx' id) db'
                     /\ refused (boardRouter.delete ctx' id) db')
  /\ (stageRouter.delete ctx id db = (Return tt, db') ->
      exists s,
        Prisma.findUnique Stage.externalID id (PrismaClient.stage db) = Some s
        /\ Stage.deleted s = false /\ is_owner ctx (Stage.createdBy s)
        /\ Prisma.findUnique Stage.externalID id (PrismaClient.stage db')
           = Some (Stage.mk (Stage.externalID s) (Stage.title s) (Stage.description s)
                     (Stage.createdBy s) (Stage.board s) true)
        /\ forall ctx', refused (stageRouter.get ctx' id) db'
                        /\ refused (stageRouter.delete ctx' id) db')
  /\ (taskRouter.delete ctx id db = (Return tt, db') ->
      exists t,
        Prisma.findUnique Task.externalID id (PrismaClient.task db) = Some t
        /\ Task.deleted t = false /\ is_owner ctx (Task.createdBy t)
        /\ Prisma.findUnique Task.externalID id (PrismaClient.task db')
           = Some (Task.mk (Task.externalID t) (Task.title t) (Task.description t)
                     (Task.dueDate t) (Task.priority t) (Task.createdBy t)
                     (Task.stage t) true)
        /\ forall ctx', refused (taskRouter.get ctx' id) db'
                        /\ refused (taskRouter.delete ctx' id) db').
Proof.
  intros Hunique.
  pose proof (unique_ids_tables _ Hunique) as (Hu & Hb & Hs & Ht).
  split; [|split]; intros Hrun.
  - apply board_delete_return in Hrun
      as (u & b & Hctx & Hfirst & b0 & rows' & Hb0 & Hb' & Hkeys & ->).
    apply findFirst_In in Hfirst as [Hin Hp].
    apply andb_true_iff in Hp as [Hid Hp]. apply String.eqb_eq in Hid. subst id.
    rewrite (findUnique_of_In _ _ _ _ Hb Hin) in Hb0. injection Hb0 as <-.
    apply owned_board in Hp as [Hlive Howner].
    exists b. split; [now apply findUnique_of_In|]. split; [exact Hlive|].
    split; [exists u; auto|]. split; [exact Hb'|]. intros ctx'.
    assert (unique_ids (with_board rows' db) = true) as Hunique'
      by (unfold unique_ids; cbn; now rewrite (unique_keys _ _ _ _ Hkeys), Hu, Hb, Hs, Ht).
    apply findUnique_In in Hb' as [Hin' _].
    destruct (deleted_board_unreachable _ Hunique' _ Hin' eq_refl ctx') as (Hget & _ & Hdel).
    split; assumption.
  - apply stage_delete_return in Hrun
      as (u & s & Hctx & Hfirst & s0 & rows' & Hs0 & Hs' & Hkeys & ->).
    apply findFirst_In in Hfirst as [Hin Hp].
    apply andb_true_iff in Hp as [Hid Hp]. apply String.eqb_eq in Hid. subst id.
    rewrite (findUnique_of_In _ _ _ _ Hs Hin) in Hs0. injection Hs0 as <-.
    apply owned_stage in Hp as [Hlive Howner].
    exists s. split; [now apply findUnique_of_In|]. split; [exact Hlive|].
    split; [exists u; auto|]. split; [exact Hs'|]. intros ctx'.
    assert (unique_ids (with_stage rows' db) = true) as Hunique'
      by (unfold unique_ids; cbn; now rewrite (unique_keys _ _ _ _ Hkeys), Hu, Hb, Hs, Ht).
    apply findUnique_In in Hs' as [Hin' _].
    destruct (deleted_stage_unreachable _ Hunique' _ Hin' eq_refl ctx') as (Hget & _ & Hdel).
    split; assumption.
  - apply task_delete_return in Hrun
      as (u & t & Hctx & Hfirst & t0 & rows' & Ht0 & Ht' & Hkeys & ->).
    apply findFirst_In in Hfirst as [Hin Hp].
    apply andb_true_iff in Hp as [Hid Hp]. apply String.eqb_eq in Hid. subst id.
    rewrite (findUnique_of_In _ _ _ _ Ht Hin) in Ht0. injection Ht0 as <-.
    apply owned_task in Hp as [Hlive Howner].
    exists t. split; [now apply findUnique_of_In|]. split; [exact Hlive|].
    split; [exists u; auto|]. split; [exact Ht'|]. intros ctx'.
    assert (unique_ids (with_task rows' db) = true) as Hunique'
      by (unfold unique_ids; cbn; now rewrite (unique_keys _ _ _ _ Hkeys), Hu, Hb, Hs, Ht).
    apply findUnique_In in Ht' as [Hin' _].
    destruct (deleted_task_unreachable _ Hunique' _ Hin' eq_refl ctx') as (Hget & _ & Hdel).
    split; assumption.
Qed.

(** Alice deletes her task ["t-1"] and asks for it again. *)
Lemma delete_flags_and_hides_witness :
  let run := taskRouter.delete Sample.as_alice "t-1" Sample.db in
  fst run = Return tt
  /\ Prisma.findUnique Task.externalID "t-1" (PrismaClient.task (snd run))
     = Some (Task.mk "t-1" "Write spec" (Some "") 1000 0 "u-alice" "s-1" true)
  /\ refused (taskRouter.get Sample.as_alice "t-1") (snd run).
Proof.
  intros run. split; [reflexivity|].
  destruct (delete_flags_and_hides Sample.db Sample.as_alice "t-1" (snd run) eq_refl)
    as (_ & _ & Htask).
  destruct (Htask eq_refl) as (t & Ht & _ & _ & Hflagged & Hgone).
  injection Ht as <-. split; [exact Hflagged|]. apply Hgone.
Defined.

Lemma update_keeps_flag {Row} (key : Row -> string) (flag : Row -> bool)
      (data : Row -> Row) (id : string) (rows rows' : list Row) (r' : Row) :
  (forall r, key (data r) = key r) ->
  (forall r, flag r = true -> flag (data r) = true) ->
  Prisma.update key id data rows = Some (r', rows') ->
  still_flagged key flag rows rows'.
Proof.
  intros Hkey Hflag Hw id' row Hrow Hset.
  destruct (String.eqb_spec id' id) as [->|Hne].
  - apply (update_found _ key data Hkey) in Hw as (r0 & Hr0 & _ & Hstored).
    rewrite Hrow in Hr0. injection Hr0 as <-. eauto.
  - rewrite (update_other _ key data Hkey _ _ _ _ _ Hw Hne). eauto.
Qed.

Lemma snoc_keeps_flag {Row} (key : Row -> string) (flag : Row -> bool)
      (rows : list Row) (r : Row) :
  still_flagged key flag rows (rows ++ [r]).
Proof.
  intros id row Hrow Hset. exists row. split; [|assumption].
  unfold Prisma.findUnique in *. revert Hrow.
  induction rows as [|h rest IH]; simpl; [discriminate|].
  destruct (key h =? id); auto.
Qed.

Lemma same_keeps_flag {Row} (key : Row -> string) (flag : Row -> bool) (rows : list Row) :
  still_flagged key flag rows rows.
Proof. intros id row Hrow Hset. eauto. Qed.

(** X22 — Soft delete is one-way: no procedure clears a [deleted] flag.  A
    user, board, stage or task that is flagged before a call is still in its
    table and still flagged after it, whatever the call. *)
Theorem deleted_stays_deleted `{Bcrypt} `{Jsonwebtoken}
        (env : Env) (d : Draws) (ctx : Context) (req : Request)
        (db db' : PrismaClient.t) (r : Completion Response) :
  call env d ctx req db = (r, db') ->
  still_flagged User.externalID User.deleted (PrismaClient.user db) (PrismaClient.user db')
  /\ still_flagged Board.externalID Board.deleted
       (PrismaClient.board db) (PrismaClient.board db')
  /\ still_flagged Stage.externalID Stage.deleted
       (PrismaClient.stage db) (PrismaClient.stage db')
  /\ still_flagged Task.externalID Task.deleted
       (PrismaClient.task db) (PrismaClient.task db').
Proof.
  intros Hcall. destruct req; unfold_call Hcall.
  all: destruct ctx as [[u|]];
    walk Hcall ltac:(cbn;
      repeat match goal with
        | Hc : Prisma.create _ _ _ = Some _ |- _ => apply create_In in Hc; subst
        | Hc : user_create _ _ = Some _ |- _ => apply user_create_In in Hc; subst
        end;
      repeat split;
      first [ apply same_keeps_flag
            | apply snoc_keeps_flag
            | eapply update_keeps_flag; [| | eassumption];
              [reflexivity | intros ? ?; cbn; first [reflexivity | assumption]] ]).
Qed.

(** Alice patches her stage ["s-1"]; the deleted stage ["s-2"] stays
    flagged. *)
Lemma deleted_stays_deleted_witness :
  let d := {| uuid := "b-9"; salt := "salt"; now := 0%Z; clock := 0%N |} in
  let req := stage_update (StageUpdate.mk "s-1" "Doing" "in progress") in
  let run := call (bcrypt := Sample.bcrypt) (jwt := Sample.jsonwebtoken) Sample.env d
               Sample.as_alice req Sample.db in
  exists row',
    Prisma.findUnique Stage.externalID "s-2" (PrismaClient.stage (snd run)) = Some row'
    /\ Stage.deleted row' = true.
Proof.
  intros d req run.
  destruct (deleted_stays_deleted (H := Sample.bcrypt) (H0 := Sample.jsonwebtoken)
              Sample.env d Sample.as_alice req Sample.db (snd run) (fst run)
              (surjective_pairing run)) as (_ & _ & Hstage & _).
  apply (Hstage "s-2" Sample.done); reflexivity.
Defined.

(** * Writing a row and reading it back *)

Lemma owned_is_stored {Row} (key : Row -> string) (p : Row -> bool) (id : string)
      (rows : list Row) (r : Row) :
  Prisma.unique key rows = true ->
  Prisma.findFirst (fun x => (key x =? id) && p x) rows = Some r ->
  Prisma.findUnique key id rows = Some r /\ key r = id /\ p r = true /\ In r rows.
Proof.
  intros Huniq Hfind. apply findFirst_In in Hfind as [Hin Hp].
  apply andb_true_iff in Hp as [Hid Hp]. apply String.eqb_eq in Hid. subst id.
  repeat split; auto. now apply findUnique_of_In.
Qed.

Lemma board_update_reads_back (ctx : Context) (input : BoardUpdate.t)
      (db db' : PrismaClient.t) (out : BoardResult.t) :
  unique_ids db = true ->
  boardRouter.update ctx input db = (Return out, db') ->
  Prisma.findUnique Board.externalID (BoardUpdate.externalID input) (PrismaClient.board db')
  = Some (BoardResult.board out)
  /\ (forall title, BoardUpdate.title input = Some title ->
                    Board.title (BoardResult.board out) = title)
  /\ (forall description, BoardUpdate.description input = Some description ->
                          Board.description (BoardResult.board out) = description)
  /\ exists stages,
       boardRouter.get ctx (BoardUpdate.externalID input) db'
       = (Return (BoardDetail.mk (BoardResult.board out) (BoardResult.createdBy out) stages),
          db').
Proof.
  intros Hunique Hrun.
  apply unique_ids_tables in Hunique as (_ & Hb & _ & _).
  unfold boardRouter.update in Hrun.
  destruct ctx as [[u|]]; run; [|discriminate].
  repeat (query; try discriminate). injection Hrun as <- <-.
  match goal with
  | Hf : Prisma.findFirst _ _ = Some _ |- _ =>
      apply (owned_is_stored Board.externalID (boardRouter.owned u)) in Hf
        as (Hstored & Hid & Howned & Hin); [|assumption]
  end.
  match goal with
  | Hw : Prisma.update _ _ ?data _ = Some _ |- _ =>
      pose proof (update_unique _ Board.externalID data _ _ _ _ (fun _ => eq_refl) Hw)
        as Hb';
      apply update_found in Hw as (r0 & Hr0 & -> & Hr'); [|reflexivity]
  end.
  rewrite Hstored in Hr0. injection Hr0 as <-. rewrite Hb in Hb'.
  cbn. split; [exact Hr'|]. split; [intros ? ->; reflexivity|].
  split; [intros ? ->; reflexivity|].
  rewrite <- Hid. unfold boardRouter.get. run.
  apply findUnique_In in Hr' as [Hin' _].
  pose proof (find_own Board.externalID (boardRouter.owned u) _ _ Hb' Hin') as Hfind.
  cbn in Hfind. rewrite Hfind by exact Howned. run.
  match goal with
  | Hc : Prisma.findUnique User.externalID _ _ = Some _ |- _ => cbn in Hc; rewrite Hc
  end.
  run. eauto.
Qed.

Lemma stage_update_reads_back (ctx : Context) (input : StageUpdate.t)
      (db db' : PrismaClient.t) (out : StageResult.t) :
  unique_ids db = true ->
  stageRouter.update ctx input db = (Return out, db') ->
  Prisma.findUnique Stage.externalID (StageUpdate.externalID input) (PrismaClient.stage db')
  = Some (StageResult.stage out)
  /\ Stage.title (StageResult.stage out) = StageUpdate.title input
  /\ Stage.description (StageResult.stage out) = StageUpdate.description input
  /\ exists tasks,
       stageRouter.get ctx (StageUpdate.externalID input) db'
       = (Return (StageDetail.mk (StageResult.stage out) (StageResult.createdBy out)
                    (StageResult.board out) tasks), db').
Proof.
  intros Hunique Hrun.
  apply unique_ids_tables in Hunique as (_ & _ & Hs & _).
  unfold stageRouter.update in Hrun.
  destruct ctx as [[u|]]; run; [|discriminate].
  repeat (query; try discriminate). injection Hrun as <- <-.
  match goal with
  | Hf : Prisma.findFirst _ _ = Some _ |- _ =>
      apply (owned_is_stored Stage.externalID (stageRouter.owned u)) in Hf
        as (Hstored & Hid & Howned & Hin); [|assumption]
  end.
  match goal with
  | Hw : Prisma.update _ _ ?data _ = Some _ |- _ =>
      pose proof (update_unique _ Stage.externalID data _ _ _ _ (fun _ => eq_refl) Hw)
        as Hs';
      apply update_found in Hw as (r0 & Hr0 & -> & Hr'); [|reflexivity]
  end.
  rewrite Hstored in Hr0. injection Hr0 as <-. rewrite Hs in Hs'.
  cbn. split; [exact Hr'|]. split; [reflexivity|]. split; [reflexivity|].
  rewrite <- Hid. unfold stageRouter.get. run.
  apply findUnique_In in Hr' as [Hin' _].
  pose proof (find_own Stage.externalID (stageRouter.owned u) _ _ Hs' Hin') as Hfind.
  cbn in Hfind. rewrite Hfind by exact Howned. run.
  repeat match goal with
  | Hc : Prisma.findUnique _ _ _ = Some _ |- _ => cbn in Hc; rewrite Hc; clear Hc; run
  end.
  eauto.
Qed.

(** X23 — [board.update] and [stage.update] answer with the row as it is
    stored after the write (unlike [task.update]): the returned row carries
    the title and description of the input, it is the row now found under the
    identifier, and a [get] by the same caller right after returns it. *)
Theorem update_returns_stored_row (db db' : PrismaClient.t) (ctx : Context) :
  unique_ids db = true ->
  (forall input out,
      boardRouter.update ctx input db = (Return out, db') ->
      Prisma.findUnique Board.externalID (BoardUpdate.externalID input)
        (PrismaClient.board db') = Some (BoardResult.board out)
      /\ (forall title, BoardUpdate.title input = Some title ->
                        Board.title (BoardResult.board out) = title)
      /\ (forall description, BoardUpdate.description input = Some description ->
                              Board.description (BoardResult.board out) = description)
      /\ exists stages,
           boardRouter.get ctx (BoardUpdate.externalID input) db'
           = (Return (BoardDetail.mk (BoardResult.board out) (BoardResult.createdBy out)
                        stages), db'))
  /\ (forall input out,
      stageRouter.update ctx input db = (Return out, db') ->
      Prisma.findUnique Stage.externalID (StageUpdate.externalID input)
        (PrismaClient.stage db') = Some (StageResult.stage out)
      /\ Stage.title (StageResult.stage out) = StageUpdate.title input
      /\ Stage.description (StageResult.stage out) = StageUpdate.description input
      /\ exists tasks,
           stageRouter.get ctx (StageUpdate.externalID input) db'
           = (Return (StageDetail.mk (StageResult.stage out) (StageResult.createdBy out)
                        (StageResult.board out) tasks), db')).
Proof.
  intros Hunique. split; intros input out Hrun.
  - exact (board_update_reads_back ctx input db db' out Hunique Hrun).
  - exact (stage_update_reads_back ctx input db db' out Hunique Hrun).
Qed.

(** Alice renames her stage ["s-1"]; the answer and the following [get] show
    the new title. *)
Lemma update_returns_stored_row_witness :
  let input := StageUpdate.mk "s-1" "Doing" "in progress" in
  let run := stageRouter.update Sample.as_alice input Sample.db in
  exists out tasks,
    fst run = Return out
    /\ Stage.title (StageResult.stage out) = "Doing"
    /\ stageRouter.get Sample.as_alice "s-1" (snd run)
       = (Return (StageDetail.mk (StageResult.stage out) (StageResult.createdBy out)
                    (StageResult.board out) tasks), snd run).
Proof.
  intros input run.
  pose (out := StageResult.mk (Stage.mk "s-1" "Doing" "in progress" "u-alice" "b-1" false)
                 Sample.alice Sample.sprint).
  assert (run = (Return out, snd run)) as Hrun by reflexivity.
  destruct (update_returns_stored_row Sample.db (snd run) Sample.as_alice eq_refl)
    as [_ Hstage].
  destruct (Hstage input out Hrun) as (_ & Htitle & _ & tasks & Hget).
  exists out, tasks. split; [reflexivity|]. split; [exact Htitle | exact Hget].
Defined.







(** X25 — [task.update] writes a field only when the input value is truthy.
    A priority of [0], an empty title and an empty description in the input
    are treated like [null]: the stored value stays, so a task's priority
    cannot be set back to [0] and its description cannot be emptied.  Every
    other input value is stored. *)
Theorem task_update_writes_truthy_only (ctx : Context) (input : TaskUpdate.t)
        (db db' : PrismaClient.t) (out : TaskDetail.t) :
  Prisma.unique Task.externalID (PrismaClient.task db) = true ->
  taskRouter.update ctx input db = (Return out, db') ->
  exists before after,
    Prisma.findUnique Task.externalID (TaskUpdate.externalID input) (PrismaClient.task db)
    = Some before
    /\ Prisma.findUnique Task.externalID (TaskUpdate.externalID input)
         (PrismaClient.task db') = Some after
    /\ (TaskUpdate.priority input = Some 0%Z -> Task.priority after = Task.priority before)
    /\ (TaskUpdate.title input = Some "" -> Task.title after = Task.title before)
    /\ (TaskUpdate.description input = Some "" ->
        Task.description after = Task.description before)
    /\ (forall p, TaskUpdate.priority input = Some p -> p <> 0%Z -> Task.priority after = p)
    /\ (forall s, TaskUpdate.title input = Some s -> s <> "" -> Task.title after = s)
    /\ (forall s, TaskUpdate.description input = Some s -> s <> "" ->
                  Task.description after = Some s)
    /\ (forall date, TaskUpdate.dueDate input = Some date -> Task.dueDate after = date)
    /\ (forall s, TaskUpdate.stageExternalID input = Some s -> s <> "" ->
                  Task.stage after = s).
Proof.
  intros Huniq Hrun.
  apply task_update_return in Hrun
    as (u & t0 & _ & Hfirst & _ & _ & _ & Ht0 & Ht' & _).
  pose proof (owned_task_is_stored _ _ _ _ Huniq Hfirst) as Hstored.
  rewrite Hstored in Ht0. injection Ht0 as <-.
  exists (TaskDetail.task out), (taskRouter.update_data input out (TaskDetail.task out)).
  split; [exact Hstored|]. split; [exact Ht'|].
  unfold taskRouter.update_data, or_string, truthy_string, truthy_number. cbn.
  repeat split.
  - intros ->. reflexivity.
  - intros ->. reflexivity.
  - intros ->. reflexivity.
  - intros p -> Hp. apply Z.eqb_neq in Hp. now rewrite Hp.
  - intros s -> Hs. apply String.eqb_neq in Hs. now rewrite Hs.
  - intros s -> Hs. apply String.eqb_neq in Hs. now rewrite Hs.
  - intros date ->. reflexivity.
  - intros s -> Hs. apply String.eqb_neq in Hs. now rewrite Hs.
Qed.

(** Bob tries to bring the priority of his task ["t-2"] from [2] down to
    [0]. *)
Lemma task_update_writes_truthy_only_witness :
  let input := TaskUpdate.mk "t-2" None None None (Some 0%Z) None in
  let run := taskRouter.update Sample.as_bob input Sample.db in
  exists after,
    Prisma.findUnique Task.externalID "t-2" (PrismaClient.task (snd run)) = Some after
    /\ Task.priority after = 2%Z.
Proof.
  intros input run.
  pose (out := TaskDetail.mk Sample.review Sample.bob Sample.parked Sample.backlog).
  assert (run = (Return out, snd run)) as Hrun by reflexivity.
  destruct (task_update_writes_truthy_only Sample.as_bob input Sample.db (snd run) out
              eq_refl Hrun)
    as (before & after & Hbefore & Hafter & Hzero & _).
  exists after. split; [exact Hafter|].
  rewrite (Hzero eq_refl). injection Hbefore as <-. reflexivity.
Defined.

(** * Listing *)



Lemma findMany_length {Row} (p : Row -> bool) (take skip : Z) (rows page : list Row) :
  (0 <= take)%Z ->
  Prisma.findMany p take skip rows = Some page ->
  (Z.of_nat (List.length page) <= take)%Z.
Proof.
  intros Hpos. unfold Prisma.findMany. destruct (skip <? 0)%Z; [discriminate|].
  pose proof Hpos as Hpos'. apply Z.leb_le in Hpos'. rewrite Hpos'.
  intros H. injection H as <-. rewrite length_firstn.
  rewrite <- (Z2Nat.id take) at 2 by assumption. apply Nat2Z.inj_le. apply Nat.le_min_l.
Qed.

Lemma mapM_length {A B} (f : A -> Async B) (l : list A) (db db' : PrismaClient.t)
      (outs : list B) :
  mapM f l db = (Return outs, db') -> List.length outs = List.length l.
Proof.
  revert db db' outs. induction l as [|a l IH]; intros db db' outs H.
  - now injection H as <- _.
  - simpl in H. unfold bind in H.
    destruct (f a db) as [[b|e] db1]; [|discriminate].
    destruct (mapM f l db1) as [[bs|e] db2] eqn:Hbs; [|discriminate].
    injection H as <- _. simpl. f_equal. eauto.
Qed.

Section Listing.
Variable db : PrismaClient.t.
Variable ctx : Context.

Lemma board_list_page (input : Page) (outs : list BoardResult.t) (db' : PrismaClient.t) :
  boardRouter.list ctx input db = (Return outs, db') ->
  (0 <= limit input)%Z ->
  (Z.of_nat (List.length outs) <= limit input)%Z.
Proof.
  unfold boardRouter.list. intros H Hpos.
  destruct ctx as [[u|]]; run; [|discriminate].
  query; [|discriminate].
  match type of H with
  | context [mapM ?f ?l ?db] => destruct (mapM f l db) as [[bs|e] db1] eqn:Hm
  end; [|discriminate].
  injection H as <- _. apply mapM_length in Hm. rewrite Hm.
  eapply findMany_length; eauto.
Qed.

Lemma stage_list_page (input : Page) (outs : list StageResult.t) (db' : PrismaClient.t) :
  stageRouter.list ctx input db = (Return outs, db') ->
  (0 <= limit input)%Z ->
  (Z.of_nat (List.length outs) <= limit input)%Z.
Proof.
  unfold stageRouter.list. intros H Hpos.
  destruct ctx as [[u|]]; run; [|discriminate].
  query; [|discriminate].
  match type of H with
  | context [mapM ?f ?l ?db] => destruct (mapM f l db) as [[bs|e] db1] eqn:Hm
  end; [|discriminate].
  injection H as <- _. apply mapM_length in Hm. rewrite Hm.
  eapply findMany_length; eauto.
Qed.

Lemma task_list_page (input : Page) (outs : list TaskResult.t) (db' : PrismaClient.t) :
  taskRouter.list ctx input db = (Return outs, db') ->
  (0 <= limit input)%Z ->
  (Z.of_nat (List.length outs) <= limit input)%Z.
Proof.
  unfold taskRouter.list. intros H Hpos.
  destruct ctx as [[u|]]; run; [|discriminate].
  query; [|discriminate].
  match type of H with
  | context [mapM ?f ?l ?db] => destruct (mapM f l db) as [[bs|e] db1] eqn:Hm
  end; [|discriminate].
  injection H as <- _. apply mapM_length in Hm. rewrite Hm.
  eapply findMany_length; eauto.
Qed.

End Listing.

(** X26 — [list] shows a caller only live rows of the caller, and never more
    than [limit] of them: every board, stage or task in the answer of
    [board.list], [stage.list] or [task.list] is not soft-deleted and was
    created by the caller, and for a non-negative [limit] the answer has at
    most [limit] entries. *)
Theorem list_shows_own_live_rows (db db' : PrismaClient.t) (ctx : Context) (input : Page) :
  (forall outs,
      boardRouter.list ctx input db = (Return outs, db') ->
      (forall o, In o outs ->
                 Board.deleted (BoardResult.board o) = false
                 /\ is_owner ctx (Board.createdBy (BoardResult.board o)))
      /\ ((0 <= limit input)%Z -> (Z.of_nat (List.length outs) <= limit input)%Z))
  /\ (forall outs,
      stageRouter.list ctx input db = (Return outs, db') ->
      (forall o, In o outs ->
                 Stage.deleted (StageResult.stage o) = false
                 /\ is_owner ctx (Stage.createdBy (StageResult.stage o)))
      /\ ((0 <= limit input)%Z -> (Z.of_nat (List.length outs) <= limit input)%Z))
  /\ (forall outs,
      taskRouter.list ctx input db = (Return outs, db') ->
      (forall o, In o outs ->
                 Task.deleted (TaskResult.task o) = false
                 /\ is_owner ctx (Task.createdBy (TaskResult.task o)))
      /\ ((0 <= limit input)%Z -> (Z.of_nat (List.length outs) <= limit input)%Z)).
Proof.
  split; [|split]; intros outs Hrun; split.
  - intros o Hin. exact (board_list_live ctx input db db' outs o Hrun Hin).
  - exact (board_list_page db ctx input outs db' Hrun).
  - intros o Hin. exact (stage_list_live ctx input db db' outs o Hrun Hin).
  - exact (stage_list_page db ctx input outs db' Hrun).
  - intros o Hin. exact (task_list_live ctx input db db' outs o Hrun Hin).
  - exact (task_list_page db ctx input outs db' Hrun).
Qed.

(** Alice lists her stages, two per page: the deleted stage ["s-2"] and
    Bob's stage are not shown. *)
Lemma list_shows_own_live_rows_witness :
  let input := {| limit := 2; offset := 0 |} in
  let run := stageRouter.list Sample.as_alice input Sample.db in
  exists outs,
    run = (Return outs, Sample.db)
    /\ map StageResult.stage outs = [Sample.todo]
    /\ (Z.of_nat (List.length outs) <= 2)%Z.
Proof.
  intros input run.
  pose (outs := [StageResult.mk Sample.todo Sample.alice Sample.sprint]).
  assert (run = (Return outs, Sample.db)) as Hrun by reflexivity.
  destruct (list_shows_own_live_rows Sample.db Sample.db Sample.as_alice input)
    as (_ & Hstage & _).
  destruct (Hstage outs Hrun) as [_ Hpage].
  exists outs. split; [exact Hrun|]. split; [reflexivity|]. apply Hpage. discriminate.
Defined.

Section FirstPage.
Variable db : PrismaClient.t.
Variable ctx : Context.
Variable input : Page.
Hypothesis Hrefs : references_ok db = true.
Hypothesis Hoffset : offset input = 0%Z.




End FirstPage.


